(** * EquipSense authentication core: OTP ledger, login and password reset

    A shallow embedding of [backend/auth_app] (models.py, utils.py,
    serializers.py, views.py) and the properties of its OTP-gated
    registration, login and password-reset flows.

    Conventions of the embedding
    - The relational store is a record of tables; a table is the list of its
      rows in primary-key (insertion) order.
    - An in-memory model instance is a row value; [save] writes it back to
      the row with the same primary key, [save(update_fields=...)] writes
      only the named columns.
    - [timezone.now()] is an argument [now] of every operation, in
      microseconds; one request reads one clock value.
    - A Python [str] is a [string] of characters below 128; on such strings
      the helpers of [Py] compute what the Python methods of the same name
      compute.
    - A request is the tuple of its submitted fields, and a view goes on
      with the values its serializer returned. The login serializers and
      the two password-setting serializers take the fields as submitted: a
      [CharField] or [EmailField] strips the value and refuses a blank one.
      The properties of the OTP views are stated for requests whose fields
      their serializer returns unchanged ([... = Valid ...]).
    - Python exceptions are the [Raise] case of [Outcome]; a view's blanket
      [except Exception] turns them into its HTTP 500 response.
    - Everything the repository takes from its platform (password hasher,
      Django's baseline password validators, the e-mail syntax check, the
      NULL placement of the SQL backend in a descending sort, the answer of
      the OTP delivery service) is a field of [Platform]. *)

From Stdlib Require Import ZArith List String Ascii Bool Lia DecimalString.
From Stdlib Require DecimalZ DecimalPos Finite.
Import ListNotations.
Open Scope string_scope.
Open Scope Z_scope.

Set Implicit Arguments.

(* ------------------------------------------------------------------ *)
(** ** Python strings *)

Module Py.

Definition in_range (lo hi : nat) (c : ascii) : bool :=
  let n := nat_of_ascii c in (Nat.leb lo n && Nat.leb n hi)%bool.

Definition is_upper : ascii -> bool := in_range 65 90.
Definition is_lower : ascii -> bool := in_range 97 122.
Definition is_digit : ascii -> bool := in_range 48 57.

(** The character class of the password checks' last [re.search]: the
    twenty symbols below (code 34 is the double quote). *)
Definition special_chars : list ascii :=
  [ "!"; "@"; "#"; "$"; "%"; "^"; "&"; "*"; "("; ")"; ","; "."; "?";
    ascii_of_nat 34; ":"; "{"; "}"; "|"; "<"; ">" ]%char.

Definition is_special (c : ascii) : bool :=
  existsb (Ascii.eqb c) special_chars.

(** [re.search(r'[class]', s)] for a one-character class. *)
Fixpoint search (cls : ascii -> bool) (s : string) : bool :=
  match s with
  | EmptyString => false
  | String c s' => (cls c || search cls s')%bool
  end.

Fixpoint all_chars (cls : ascii -> bool) (s : string) : bool :=
  match s with
  | EmptyString => true
  | String c s' => (cls c && all_chars cls s')%bool
  end.

(** [c in s] for a one-character needle. *)
Definition contains (c : ascii) (s : string) : bool := search (Ascii.eqb c) s.

(** [s.isdigit()]: non-empty and digits only. *)
Definition isdigit (s : string) : bool :=
  match s with
  | EmptyString => false
  | _ => all_chars is_digit s
  end.

Definition len (s : string) : Z := Z.of_nat (String.length s).

Definition lower_char (c : ascii) : ascii :=
  if is_upper c then ascii_of_nat (nat_of_ascii c + 32) else c.

Fixpoint lower (s : string) : string :=
  match s with
  | EmptyString => EmptyString
  | String c s' => String (lower_char c) (lower s')
  end.

(** The characters [str.strip()] removes, among the first 128: the blank,
    the controls 9 to 13 and the separators 28 to 31. *)
Definition is_space (c : ascii) : bool :=
  let n := nat_of_ascii c in
  (Nat.eqb n 32 || (Nat.leb 9 n && Nat.leb n 13)
   || (Nat.leb 28 n && Nat.leb n 31))%bool.

Fixpoint lstrip (s : string) : string :=
  match s with
  | EmptyString => EmptyString
  | String c s' => if is_space c then lstrip s' else s
  end.

Fixpoint rstrip (s : string) : string :=
  match s with
  | EmptyString => EmptyString
  | String c s' =>
      match rstrip s' with
      | EmptyString => if is_space c then EmptyString else String c EmptyString
      | r => String c r
      end
  end.

Definition strip (s : string) : string := rstrip (lstrip s).

(** [s.split(sep)] for a one-character separator: never an empty list. *)
Fixpoint split (sep : ascii) (s : string) : list string :=
  match s with
  | EmptyString => [EmptyString]
  | String c s' =>
      if Ascii.eqb c sep then EmptyString :: split sep s'
      else match split sep s' with
           | [] => [String c EmptyString]
           | w :: ws => String c w :: ws
           end
  end.

(** [sep.join(ws)]. *)
Fixpoint join (sep : string) (ws : list string) : string :=
  match ws with
  | [] => EmptyString
  | [w] => w
  | w :: ws' => w ++ sep ++ join sep ws'
  end.

(** [s.rsplit(sep, 1)]: one piece when [sep] does not occur, otherwise the
    text before the last [sep] and the text after it. *)
Definition rsplit1 (sep : ascii) (s : string) : list string :=
  match rev (split sep s) with
  | [] => [s]
  | [w] => [w]
  | last :: before => [join (String sep EmptyString) (rev before); last]
  end.

(** [c * n] for a one-character string. *)
Fixpoint repeat_char (c : ascii) (n : nat) : string :=
  match n with
  | O => EmptyString
  | S n' => String c (repeat_char c n')
  end.

(** [s[-1]] of a non-empty string. *)
Fixpoint last_char (s : string) : option ascii :=
  match s with
  | EmptyString => None
  | String c EmptyString => Some c
  | String _ s' => last_char s'
  end.

(** [str(n)] of an integer. *)
Definition str (z : Z) : string := NilZero.string_of_int (Z.to_int z).

End Py.

(* ------------------------------------------------------------------ *)
(** ** Platform, exceptions and the store *)

Inductive exn : Type :=
| TypeError
| ValueError
| IntegrityError
| MultipleObjectsReturned.

(** What the repository takes from Django, the SQL backend and the settings
    module, none of which is part of it. *)
Record Platform : Type := mkPlatform {
  (** [django.contrib.auth.hashers]: encode a raw password, check one. *)
  make_password : string -> string;
  check_password : string -> string -> bool;
  (** [password_validation.validate_password]: the messages of the
      configured baseline validators, empty when the password passes. *)
  baseline_password_errors : string -> list string;
  (** The syntax check of a serializer [EmailField]. *)
  email_syntax_ok : string -> bool;
  (** Whether the backend sorts NULL before every value in a descending
      [order_by] (PostgreSQL) or after (SQLite, MySQL). *)
  nulls_first_desc : bool
}.

Inductive Purpose : Type :=
| registration
| login
| password_reset
| email_verification.

Definition Purpose_eqb (p q : Purpose) : bool :=
  match p, q with
  | registration, registration
  | login, login
  | password_reset, password_reset
  | email_verification, email_verification => true
  | _, _ => false
  end.

(** [django.contrib.auth.models.User], the columns the flows read or write. *)
Module User.
Record t : Type := mk {
  id : Z;
  username : string;
  email : string;
  first_name : string;
  last_name : string;
  password : string;
  is_staff : bool;
  is_superuser : bool;
  is_active : bool
}.

Definition with_password (h : string) (u : t) : t :=
  mk (id u) (username u) (email u) (first_name u) (last_name u) h
     (is_staff u) (is_superuser u) (is_active u).
End User.

(** models.py, [UserProfile]; [user_id] is the one-to-one key. The picture,
    phone and bookkeeping timestamp columns play no part in the flows and
    are left out. *)
Module UserProfile.
Record t : Type := mk {
  user_id : Z;
  is_email_verified : bool;
  is_admin_user : bool;
  google_id : option string;
  last_login_ip : option string;
  login_count : Z
}.

Definition with_last_login_ip (ip : option string) (p : t) : t :=
  mk (user_id p) (is_email_verified p) (is_admin_user p) (google_id p) ip
     (login_count p).

Definition with_login_count (n : Z) (p : t) : t :=
  mk (user_id p) (is_email_verified p) (is_admin_user p) (google_id p)
     (last_login_ip p) n.
End UserProfile.

(** models.py, [OTPRecord]. *)
Module OTPRecord.
Record t : Type := mk {
  id : Z;
  email : string;
  otp_code : string;
  purpose : Purpose;
  is_verified : bool;
  attempts : Z;
  max_attempts : Z;
  created_at : Z;
  expires_at : Z;
  verified_at : option Z;
  ip_address : option string;
  temp_username : option string;
  temp_first_name : option string;
  temp_last_name : option string
}.

Definition with_attempts (n : Z) (r : t) : t :=
  mk (id r) (email r) (otp_code r) (purpose r) (is_verified r) n
     (max_attempts r) (created_at r) (expires_at r) (verified_at r)
     (ip_address r) (temp_username r) (temp_first_name r) (temp_last_name r).

Definition with_is_verified (b : bool) (r : t) : t :=
  mk (id r) (email r) (otp_code r) (purpose r) b (attempts r)
     (max_attempts r) (created_at r) (expires_at r) (verified_at r)
     (ip_address r) (temp_username r) (temp_first_name r) (temp_last_name r).

Definition with_verified_at (v : option Z) (r : t) : t :=
  mk (id r) (email r) (otp_code r) (purpose r) (is_verified r) (attempts r)
     (max_attempts r) (created_at r) (expires_at r) v
     (ip_address r) (temp_username r) (temp_first_name r) (temp_last_name r).
End OTPRecord.

(** models.py, [LoginAttempt]. *)
Module LoginAttempt.
Record t : Type := mk {
  username_or_email : string;
  ip_address : string;
  success : bool;
  failure_reason : option string;
  attempted_at : Z;
  user_agent : string
}.
End LoginAttempt.

(** The database: one list of rows per table, in primary-key order, and the
    two auto-increment sequences the flows draw from. *)
Record Store : Type := mkStore {
  users : list User.t;
  profiles : list UserProfile.t;
  otp_records : list OTPRecord.t;
  login_attempts : list LoginAttempt.t;
  user_seq : Z;
  otp_seq : Z
}.

Definition with_users (us : list User.t) (s : Store) (seq : Z) : Store :=
  mkStore us (profiles s) (otp_records s) (login_attempts s) seq (otp_seq s).

Definition with_profiles (ps : list UserProfile.t) (s : Store) : Store :=
  mkStore (users s) ps (otp_records s) (login_attempts s) (user_seq s) (otp_seq s).

Definition with_otp_records (rs : list OTPRecord.t) (s : Store) (seq : Z) : Store :=
  mkStore (users s) (profiles s) rs (login_attempts s) (user_seq s) seq.

Definition with_login_attempts (ls : list LoginAttempt.t) (s : Store) : Store :=
  mkStore (users s) (profiles s) (otp_records s) ls (user_seq s) (otp_seq s).

(** A computation against the database that may raise: the store it leaves
    behind is kept in both cases, since writes outside a transaction are
    committed one by one. *)
Inductive Outcome (A : Type) : Type :=
| Ok (a : A) (db : Store)
| Raise (e : exn) (db : Store).

Arguments Raise {A} e db.

Definition M (A : Type) : Type := Store -> Outcome A.

Definition ret {A} (a : A) : M A := fun db => Ok a db.
Definition raise {A} (e : exn) : M A := fun db => Raise e db.
Definition bind {A B} (m : M A) (k : A -> M B) : M B :=
  fun db => match m db with
            | Ok a db' => k a db'
            | Raise e db' => Raise e db'
            end.
Definition get_db : M Store := fun db => Ok db db.
Definition put_db (db' : Store) : M unit := fun _ => Ok tt db'.

Notation "x <- m ;; k" := (bind m (fun x => k))
  (at level 61, m at next level, right associativity).
Notation "m ;;; k" := (bind m (fun _ => k))
  (at level 61, right associativity).

(** [with transaction.atomic():] an exception leaving the block rolls the
    database back to its state at entry. *)
Definition atomic {A} (m : M A) : M A :=
  fun db => match m db with
            | Ok a db' => Ok a db'
            | Raise e _ => Raise e db
            end.

(** [try: ... except Exception: handler]. *)
Definition try_except {A} (m : M A) (handler : exn -> A) : Store -> A * Store :=
  fun db => match m db with
            | Ok a db' => (a, db')
            | Raise e db' => (handler e, db')
            end.

(* ------------------------------------------------------------------ *)
(** ** Query sets *)

Module ORM.

(** Whether key [k1] sorts strictly before [k2] in a descending sort. *)
Definition desc_before (nulls_first : bool) (k1 k2 : option Z) : bool :=
  match k1, k2 with
  | Some a, Some b => b <? a
  | None, Some _ => nulls_first
  | Some _, None => negb nulls_first
  | None, None => false
  end.

(** [.order_by('-key').first()]: the row a descending sort puts first;
    among rows with equal keys, the one with the smallest primary key. *)
Definition first_desc {A} (nulls_first : bool) (key : A -> option Z)
           (rows : list A) : option A :=
  fold_left
    (fun best x =>
       match best with
       | None => Some x
       | Some b => if desc_before nulls_first (key x) (key b)
                   then Some x else Some b
       end)
    rows None.

(** [.first()] of a query set with no ordering: smallest primary key. *)
Definition first {A} (rows : list A) : option A := hd_error rows.

(** [.get(...)]: exactly one row, or [DoesNotExist] (here [None]), or the
    exception for several. *)
Definition get {A} (rows : list A) : M (option A) :=
  match rows with
  | [] => ret None
  | [x] => ret (Some x)
  | _ => raise MultipleObjectsReturned
  end.

End ORM.

(* ------------------------------------------------------------------ *)
(** ** models.py *)

(** [timedelta(minutes=m)] and [timedelta(seconds=s)], in microseconds. *)
Definition minutes (m : Z) : Z := m * 60 * 1000000.
Definition seconds (s : Z) : Z := s * 1000000.

(** The row of the one-to-one [profile] relation; [hasattr(user, 'profile')]
    is whether there is one. *)
Definition profile_of (u : User.t) (db : Store) : option UserProfile.t :=
  find (fun p => UserProfile.user_id p =? User.id u) (profiles db).

(** [UserProfile.save(update_fields=['login_count'])]: only that column of
    the stored row takes the instance's value. *)
Definition save_login_count (self : UserProfile.t) : M unit :=
  fun db =>
    Ok tt
       (with_profiles
          (map (fun row =>
                  if UserProfile.user_id row =? UserProfile.user_id self
                  then UserProfile.with_login_count (UserProfile.login_count self) row
                  else row)
               (profiles db))
          db).

(** [UserProfile.increment_login_count]; the result is the instance after
    the call. *)
Definition increment_login_count (self : UserProfile.t) : M UserProfile.t :=
  let self := UserProfile.with_login_count (UserProfile.login_count self + 1) self in
  save_login_count self ;;;
  ret self.

(** [OTPRecord.is_expired]. *)
Definition is_expired (now : Z) (self : OTPRecord.t) : bool :=
  OTPRecord.expires_at self <? now.

(** [OTPRecord.is_valid]. *)
Definition is_valid (now : Z) (self : OTPRecord.t) : bool :=
  (negb (OTPRecord.is_verified self)
   && negb (is_expired now self)
   && (OTPRecord.attempts self <? OTPRecord.max_attempts self))%bool.

(** [OTPRecord.save()] of an instance that has a primary key: every column
    of its row is overwritten. *)
Definition save_otp (self : OTPRecord.t) : M unit :=
  fun db =>
    Ok tt
       (with_otp_records
          (map (fun row => if OTPRecord.id row =? OTPRecord.id self then self else row)
               (otp_records db))
          db (otp_seq db)).

(** [OTPRecord.verify]: the returned pair, and the instance after the call. *)
Definition verify (now : Z) (self : OTPRecord.t) (otp_code : string)
  : M ((bool * string) * OTPRecord.t) :=
  let self := OTPRecord.with_attempts (OTPRecord.attempts self + 1) self in
  if negb (is_valid now self) then
    ret ((false, "OTP expired or maximum attempts reached"), self)
  else if String.eqb (OTPRecord.otp_code self) otp_code then
    let self := OTPRecord.with_verified_at (Some now)
                  (OTPRecord.with_is_verified true self) in
    save_otp self ;;;
    ret ((true, "OTP verified successfully"), self)
  else
    save_otp self ;;;
    let remaining := OTPRecord.max_attempts self - OTPRecord.attempts self in
    ret ((false, "Invalid OTP. " ++ Py.str remaining ++ " attempts remaining"), self).

(** The filter [email=email, purpose=purpose] of the OTP queries. *)
Definition for_pair (email : string) (purpose : Purpose) (r : OTPRecord.t) : bool :=
  (String.eqb (OTPRecord.email r) email
   && Purpose_eqb (OTPRecord.purpose r) purpose)%bool.

(** [OTPRecord.create_otp]; [code] is the value [generate_otp()] draws, the
    four optional columns are the [**extra_data] every caller passes. *)
Definition create_otp (now : Z) (code : string) (email : string)
           (purpose : Purpose) (validity_minutes : Z)
           (ip_address temp_username temp_first_name temp_last_name : option string)
  : M OTPRecord.t :=
  fun db =>
    let superseded :=
      map (fun r =>
             if (for_pair email purpose r && negb (OTPRecord.is_verified r))%bool
             then OTPRecord.with_is_verified true r
             else r)
          (otp_records db) in
    let otp :=
      OTPRecord.mk (otp_seq db) email code purpose false 0 5 now
                   (now + minutes validity_minutes) None
                   ip_address temp_username temp_first_name temp_last_name in
    Ok otp (with_otp_records (superseded ++ [otp])%list db (otp_seq db + 1)).

(** [OTPRecord.get_remaining_time]: [int(delta.total_seconds())]. *)
Definition get_remaining_time (now : Z) (self : OTPRecord.t) : Z :=
  if is_expired now self then 0
  else Z.quot (OTPRecord.expires_at self - now) 1000000.

(** The state names of the ledger: a record is Live when it is unverified,
    unexpired and under its attempt ceiling, which is [is_valid]. *)
Definition Live (now : Z) (r : OTPRecord.t) : bool := is_valid now r.

(** The query [filter(<column>=value, success=False,
    attempted_at__gte=time_threshold).count()] of the rate limiter. *)
Definition failed_since {K} (column : LoginAttempt.t -> K) (eqb : K -> K -> bool)
           (value : K) (time_threshold : Z) (db : Store) : Z :=
  Z.of_nat
    (List.length
       (filter (fun a =>
                  (eqb (column a) value
                   && negb (LoginAttempt.success a)
                   && (time_threshold <=? LoginAttempt.attempted_at a))%bool)
               (login_attempts db))).

(** [LoginAttempt.is_rate_limited]. *)
Definition is_rate_limited (now : Z) (identifier ip_address : string)
           (max_attempts time_window_minutes : Z) (db : Store) : bool :=
  let time_threshold := now - minutes time_window_minutes in
  let ip_attempts :=
    failed_since LoginAttempt.ip_address String.eqb ip_address time_threshold db in
  let user_attempts :=
    failed_since LoginAttempt.username_or_email String.eqb identifier time_threshold db in
  ((max_attempts <=? ip_attempts) || (max_attempts <=? user_attempts))%bool.

(** [LoginAttempt.objects.create(...)]; [attempted_at] is [auto_now_add]. *)
Definition create_login_attempt (now : Z) (username_or_email ip_address : string)
           (success : bool) (failure_reason : option string) (user_agent : string)
  : M unit :=
  fun db =>
    Ok tt
       (with_login_attempts
          (login_attempts db
           ++ [LoginAttempt.mk username_or_email ip_address success
                               failure_reason now user_agent])%list
          db).

(* ------------------------------------------------------------------ *)
(** ** Django's user manager and authentication backend *)

(** [BaseUserManager.normalize_email]: the domain part is lower-cased. *)
Definition normalize_email (email : string) : string :=
  match Py.rsplit1 "@" (Py.strip email) with
  | [email_name; domain_part] => email_name ++ "@" ++ Py.lower domain_part
  | _ => email
  end.

(** [User.objects.create_user]: an unset username is a [ValueError]; a
    username already taken, or a NULL in a name column, is refused by the
    table's constraints. *)
Definition create_user (P : Platform) (username : option string) (email : string)
           (first_name last_name : option string) (password : string)
  : M User.t :=
  match username with
  | None | Some EmptyString => raise ValueError
  | Some uname =>
      match first_name, last_name with
      | Some fn, Some ln =>
          fun db =>
            if existsb (fun u => String.eqb (User.username u) uname) (users db)
            then Raise IntegrityError db
            else
              let user :=
                User.mk (user_seq db) uname (normalize_email email) fn ln
                        (make_password P password) false false true in
              Ok user (with_users (users db ++ [user])%list db (user_seq db + 1))
      | _, _ => raise IntegrityError
      end
  end.

(** [UserProfile.objects.create(user=user, is_email_verified=...)]. *)
Definition create_profile (user : User.t) (is_email_verified : bool)
  : M UserProfile.t :=
  fun db =>
    if existsb (fun p => UserProfile.user_id p =? User.id user) (profiles db)
    then Raise IntegrityError db
    else
      let p := UserProfile.mk (User.id user) is_email_verified false None None 0 in
      Ok p (with_profiles (profiles db ++ [p])%list db).

(** [django.contrib.auth.authenticate] with the model backend: the account
    of that username when the password checks and the account is active. *)
Definition authenticate (P : Platform) (username password : string) (db : Store)
  : option User.t :=
  match find (fun u => String.eqb (User.username u) username) (users db) with
  | Some u =>
      if (check_password P password (User.password u) && User.is_active u)%bool
      then Some u else None
  | None => None
  end.

(** [user.set_password(raw); user.save()]. *)
Definition set_password_and_save (P : Platform) (user : User.t) (raw : string)
  : M unit :=
  fun db =>
    let user := User.with_password (make_password P raw) user in
    Ok tt
       (with_users
          (map (fun row => if User.id row =? User.id user then user else row)
               (users db))
          db (user_seq db)).

(* ------------------------------------------------------------------ *)
(** ** utils.py *)

(** One masked segment of [mask_email]; [None] is the [IndexError] of
    [segment[0]] on an empty segment. *)
Definition mask_segment (segment : string) : option string :=
  match segment with
  | EmptyString => None
  | String c0 _ =>
      if Py.len segment <=? 2 then Some (String c0 "*")
      else
        match Py.last_char segment with
        | Some cl =>
            Some (String c0 (Py.repeat_char "*" (String.length segment - 2)
                             ++ String cl EmptyString))
        | None => None
        end
  end.

(** [mask_email]: any exception in the body gives the address back as is. *)
Definition mask_email (email : string) : string :=
  match Py.split "@" email with
  | [local; domain] =>
      match Py.rsplit1 "." domain with
      | [domain_name; domain_ext] =>
          match mask_segment local, mask_segment domain_name with
          | Some masked_local, Some masked_domain =>
              masked_local ++ "@" ++ masked_domain ++ "." ++ domain_ext
          | _, _ => email
          end
      | _ => email
      end
  | _ => email
  end.

(** A signed token, as the claims it carries; signature, expiry and token
    id are the token library's. *)
Module Token.
Record t : Type := mk {
  token_type : string;
  user_id : Z;
  username : string;
  email : string;
  is_admin : bool
}.
End Token.

Record Tokens : Type := mkTokens { refresh : Token.t; access : Token.t }.

(** [generate_jwt_tokens]; [profile] is the user instance's [profile]
    relation, [None] when [hasattr(user, 'profile')] is false. *)
Definition generate_jwt_tokens (user : User.t) (profile : option UserProfile.t)
  : Tokens :=
  let is_admin :=
    match profile with
    | Some p => UserProfile.is_admin_user p
    | None => false
    end in
  let refresh :=
    Token.mk "refresh" (User.id user) (User.username user) (User.email user) is_admin in
  mkTokens refresh
           (Token.mk "access" (Token.user_id refresh) (Token.username refresh)
                     (Token.email refresh) (Token.is_admin refresh)).

(** The signature [send_otp_to_service(email, otp_code, user_data,
    purpose='registration')]. *)
Definition send_otp_to_service_params : list string :=
  ["email"; "otp_code"; "user_data"; "purpose"].
Definition send_otp_to_service_required : list string :=
  ["email"; "otp_code"; "user_data"].

(** Python's binding of a call that passes keyword arguments only: every
    keyword names a parameter and every parameter without a default is
    given. *)
Definition binds (params required keywords : list string) : bool :=
  (forallb (fun k => existsb (String.eqb k) params) keywords
   && forallb (fun p => existsb (String.eqb p) keywords) required)%bool.

(** A call of [send_otp_to_service] with the given keywords. A call that
    does not bind raises [TypeError] before the body runs; the body catches
    every exception of its own and returns the pair [delivery], the answer
    of the delivery service. *)
Definition send_otp_to_service (keywords : list string) (delivery : bool * string)
  : M (bool * string) :=
  if binds send_otp_to_service_params send_otp_to_service_required keywords
  then ret delivery
  else raise TypeError.

(** Truth value of a pair: a non-empty tuple is true. *)
Definition truthy_pair {A B} (p : A * B) : bool := true.

(* ------------------------------------------------------------------ *)
(** ** Responses *)

(** [UserProfileSerializer], the profile's own columns. *)
Record ProfileData : Type := mkProfileData {
  pd_is_email_verified : bool;
  pd_is_admin_user : bool;
  pd_login_count : Z
}.

(** [UserResponseSerializer]. *)
Record UserData : Type := mkUserData {
  ud_id : Z;
  ud_username : string;
  ud_email : string;
  ud_first_name : string;
  ud_last_name : string;
  ud_is_staff : bool;
  ud_is_superuser : bool;
  ud_is_admin_user : bool;
  ud_role : string;
  ud_profile : option ProfileData
}.

Definition user_response (obj : User.t) (profile : option UserProfile.t) : UserData :=
  let is_admin_user :=
    match profile with Some p => UserProfile.is_admin_user p | None => false end in
  let role :=
    if (User.is_superuser obj || User.is_staff obj)%bool then "admin"
    else if is_admin_user then "admin" else "user" in
  mkUserData (User.id obj) (User.username obj) (User.email obj)
             (User.first_name obj) (User.last_name obj)
             (User.is_staff obj) (User.is_superuser obj) is_admin_user role
             (option_map
                (fun p => mkProfileData (UserProfile.is_email_verified p)
                                        (UserProfile.is_admin_user p)
                                        (UserProfile.login_count p))
                profile).

(** The JSON bodies of the views below. *)
Inductive Body : Type :=
| BMessage (success : bool) (message : string)
| BErrors (errors : list (string * list string))
| BOtpVerified (message email : string) (verified : bool)
| BRegistered (message username email : string)
| BLogin (message : string) (tokens : Tokens) (user : UserData)
| BResetSent (message email : string) (expires_in : Z)
| BResetVerified (message email : string)
| BUncaught (e : exn).

Record Response : Type := mkResponse { status : Z; body : Body }.

Definition HTTP_200_OK := 200.
Definition HTTP_201_CREATED := 201.
Definition HTTP_400_BAD_REQUEST := 400.
Definition HTTP_401_UNAUTHORIZED := 401.
Definition HTTP_403_FORBIDDEN := 403.
Definition HTTP_404_NOT_FOUND := 404.
Definition HTTP_429_TOO_MANY_REQUESTS := 429.
Definition HTTP_500_INTERNAL_SERVER_ERROR := 500.

(** A view with no handler of its own: an exception that escapes it is
    answered by the framework's server-error page. *)
Definition run_view (m : M Response) : Store -> Response * Store :=
  try_except m (fun e => mkResponse HTTP_500_INTERNAL_SERVER_ERROR (BUncaught e)).

(* ------------------------------------------------------------------ *)
(** ** serializers.py *)

Definition Errors : Type := list (string * list string).

(** The custom part of [validate_password] / [validate_new_password]: the
    first failing check raises. *)
Definition custom_password_error (value : string) : option string :=
  if Py.len value <? 8 then
    Some "Password must be at least 8 characters long"
  else if negb (Py.search Py.is_upper value) then
    Some "Password must contain at least one uppercase letter"
  else if negb (Py.search Py.is_digit value) then
    Some "Password must contain at least one number"
  else if negb (Py.search Py.is_special value) then
    Some "Password must contain at least one special character"
  else None.

(** [PasswordCreationSerializer.validate_password] and
    [ResetPasswordSerializer.validate_new_password]: the messages raised,
    none when the value is returned. *)
Definition validate_password (P : Platform) (value : string) : list string :=
  match baseline_password_errors P value with
  | [] =>
      match custom_password_error value with
      | Some msg => [msg]
      | None => []
      end
  | messages => messages
  end.

Definition field_errors (name : string) (messages : list string) : Errors :=
  match messages with
  | [] => []
  | _ => [(name, messages)]
  end.

(** A serializer [CharField]: the value is stripped, a blank one is
    refused, then the length validators run. The result is the stripped
    value or the messages. *)
Definition char_field (min_length max_length : option Z) (value : string)
  : string + list string :=
  let value := Py.strip value in
  match value with
  | EmptyString => inr ["This field may not be blank."]
  | _ =>
      let too_long : list string :=
        match max_length with
        | Some m =>
            if m <? Py.len value
            then ["Ensure this field has no more than " ++ Py.str m ++ " characters."]
            else []
        | None => []
        end in
      let too_short : list string :=
        match min_length with
        | Some m =>
            if Py.len value <? m
            then ["Ensure this field has at least " ++ Py.str m ++ " characters."]
            else []
        | None => []
        end in
      match (too_long ++ too_short)%list with
      | [] => inl value
      | messages => inr messages
      end
  end.

Definition messages_of {A} (r : A + list string) : list string :=
  match r with
  | inl _ => []
  | inr messages => messages
  end.

Definition and_then {A B} (r : A + list string) (k : A -> B + list string)
  : B + list string :=
  match r with
  | inl a => k a
  | inr messages => inr messages
  end.

(** A serializer [EmailField]: a [CharField] whose validators include the
    syntax check. *)
Definition email_field (P : Platform) (value : string) : string + list string :=
  and_then (char_field None None value)
           (fun value => if email_syntax_ok P value then inl value
                         else inr ["Enter a valid email address."]).

(** A password [CharField] followed by [validate_password] /
    [validate_new_password]. *)
Definition password_field (P : Platform) (value : string) : string + list string :=
  and_then (char_field None None value)
           (fun value => match validate_password P value with
                         | [] => inl value
                         | messages => inr messages
                         end).

Definition email_field_errors (P : Platform) (name value : string) : Errors :=
  field_errors name
    (if email_syntax_ok P value then [] else ["Enter a valid email address."]).

(** The query [OTPRecord.objects.filter(email=..., purpose=...,
    is_verified=True).order_by('-verified_at').first()]. *)
Definition latest_verified (P : Platform) (email : string) (purpose : Purpose)
           (db : Store) : option OTPRecord.t :=
  ORM.first_desc (nulls_first_desc P) OTPRecord.verified_at
    (filter (fun r => (for_pair email purpose r && OTPRecord.is_verified r)%bool)
            (otp_records db)).

(** The query [OTPRecord.objects.filter(email=..., purpose=...,
    is_verified=False).order_by('-created_at').first()]. *)
Definition latest_unverified (P : Platform) (email : string) (purpose : Purpose)
           (db : Store) : option OTPRecord.t :=
  ORM.first_desc (nulls_first_desc P) (fun r => Some (OTPRecord.created_at r))
    (filter (fun r => (for_pair email purpose r && negb (OTPRecord.is_verified r))%bool)
            (otp_records db)).

(** What [serializer.is_valid()] leaves: validated data, or [errors]; an
    exception other than a validation error leaves the call. *)
Inductive Validation (A : Type) : Type :=
| Valid (data : A)
| Invalid (errors : Errors).

Arguments Invalid {A} errors.

(** [PasswordCreationSerializer]: the fields (each stripped and refused
    when blank), the field validators, then [validate] on the values the
    fields returned. *)
Definition PasswordCreationSerializer (P : Platform)
           (email password confirm_password : string) (db : Store)
  : Validation (string * string) :=
  let email_value := email_field P email in
  let password_value := password_field P password in
  let confirm_value := char_field None None confirm_password in
  match email_value, password_value, confirm_value with
  | inl email, inl password, inl confirm_password =>
      if negb (String.eqb password confirm_password) then
        Invalid [("confirm_password", ["Passwords do not match"])]
      else
        match latest_verified P email registration db with
        | None =>
            Invalid [("email",
                      ["Email not verified. Please complete OTP verification first"])]
        | Some _ => Valid (email, password)
        end
  | _, _, _ =>
      Invalid (field_errors "email" (messages_of email_value)
               ++ field_errors "password" (messages_of password_value)
               ++ field_errors "confirm_password" (messages_of confirm_value))%list
  end.

(** [ResetPasswordSerializer]: as above; [timezone.now() - otp.verified_at]
    on a NULL [verified_at] is a [TypeError], which [is_valid] lets through. *)
Definition ResetPasswordSerializer (P : Platform) (now : Z)
           (email new_password confirm_password : string)
  : M (Validation (string * string)) :=
  fun db =>
    let email_value := email_field P email in
    let password_value := password_field P new_password in
    let confirm_value := char_field None None confirm_password in
    match email_value, password_value, confirm_value with
    | inl email, inl new_password, inl confirm_password =>
        if negb (String.eqb new_password confirm_password) then
          Ok (Invalid [("confirm_password", ["Passwords do not match"])]) db
        else
          match latest_verified P email password_reset db with
          | None =>
              Ok (Invalid
                    [("email",
                      ["Password reset not verified. Please complete OTP verification first"])])
                 db
          | Some otp =>
              match OTPRecord.verified_at otp with
              | None => Raise TypeError db
              | Some verified_at =>
                  if minutes 15 <? now - verified_at then
                    Ok (Invalid
                          [("email",
                            ["Password reset session expired. Please request a new reset link"])])
                       db
                  else Ok (Valid (email, new_password)) db
              end
          end
    | _, _, _ =>
        Ok (Invalid (field_errors "email" (messages_of email_value)
                     ++ field_errors "new_password" (messages_of password_value)
                     ++ field_errors "confirm_password" (messages_of confirm_value))%list)
           db
    end.

(** [UserLoginSerializer]: two [CharField]s and the [remember_me] flag. *)
Definition UserLoginSerializer (username_or_email password : string) (remember_me : bool)
  : Validation (string * string * bool) :=
  let identifier_value := char_field None None username_or_email in
  let password_value := char_field None None password in
  match identifier_value, password_value with
  | inl username_or_email, inl password => Valid (username_or_email, password, remember_me)
  | _, _ =>
      Invalid (field_errors "username_or_email" (messages_of identifier_value)
               ++ field_errors "password" (messages_of password_value))%list
  end.

(** [AdminLoginSerializer]. *)
Definition AdminLoginSerializer (username password : string)
  : Validation (string * string) :=
  let username_value := char_field None None username in
  let password_value := char_field None None password in
  match username_value, password_value with
  | inl username, inl password => Valid (username, password)
  | _, _ =>
      Invalid (field_errors "username" (messages_of username_value)
               ++ field_errors "password" (messages_of password_value))%list
  end.

(** The [otp_code] field of both verify serializers: six characters, then
    [validate_otp_code]. *)
Definition otp_code_errors (value : string) : Errors :=
  field_errors "otp_code"
    (if Py.len value <? 6 then ["Ensure this field has at least 6 characters."]
     else if 6 <? Py.len value then ["Ensure this field has no more than 6 characters."]
     else if negb (Py.isdigit value) then ["OTP must contain only digits"]
     else []).

(** [VerifyOTPSerializer]; its [purpose] choices leave out
    [email_verification]. *)
Definition VerifyOTPSerializer (P : Platform) (email otp_code : string)
           (purpose : Purpose) : Validation (string * string * Purpose) :=
  match (email_field_errors P "email" email
         ++ otp_code_errors otp_code
         ++ field_errors "purpose"
              (match purpose with
               | email_verification => ["Not a valid choice."]
               | _ => []
               end))%list with
  | [] => Valid (email, otp_code, purpose)
  | errors => Invalid errors
  end.

(** [VerifyResetOTPSerializer]. *)
Definition VerifyResetOTPSerializer (P : Platform) (email otp_code : string)
  : Validation (string * string) :=
  match (email_field_errors P "email" email ++ otp_code_errors otp_code)%list with
  | [] => Valid (email, otp_code)
  | errors => Invalid errors
  end.

(** The account an identifier names: by e-mail when it holds an [@], by
    username otherwise; [filter(...).first()]. *)
Definition user_by_identifier (identifier : string) (db : Store) : option User.t :=
  if Py.contains "@" identifier then
    ORM.first (filter (fun u => String.eqb (User.email u) identifier) (users db))
  else
    ORM.first (filter (fun u => String.eqb (User.username u) identifier) (users db)).

(** [RequestPasswordResetSerializer]. *)
Definition RequestPasswordResetSerializer (value : string) (db : Store)
  : Validation string :=
  let identifier := Py.strip (Py.lower value) in
  match user_by_identifier identifier db with
  | None =>
      Invalid [("identifier", ["No account found with this username or email"])]
  | Some user =>
      match profile_of user db with
      | Some p =>
          if UserProfile.is_email_verified p then Valid identifier
          else Invalid [("identifier",
                         ["This account's email is not verified. Please contact support."])]
      | None =>
          Invalid [("identifier",
                    ["This account's email is not verified. Please contact support."])]
      end
  end.

(* ------------------------------------------------------------------ *)
(** ** views.py *)

Definition respond (status : Z) (body : Body) : M Response :=
  ret (mkResponse status body).

(** [verify_otp] (registration flow, step 3). *)
Definition verify_otp (P : Platform) (now : Z) (email otp_code : string)
           (purpose : Purpose) : Store -> Response * Store :=
  run_view
    match VerifyOTPSerializer P email otp_code purpose with
    | Invalid errors => respond HTTP_400_BAD_REQUEST (BErrors errors)
    | Valid (email, otp_code, purpose) =>
        db <- get_db ;;
        match latest_unverified P email purpose db with
        | None =>
            respond HTTP_404_NOT_FOUND
                    (BMessage false "No OTP found. Please request a new one.")
        | Some otp_record =>
            r <- verify now otp_record otp_code ;;
            let '((success, message), _) := r in
            if success : bool then
              respond HTTP_200_OK (BOtpVerified message email true)
            else
              respond HTTP_400_BAD_REQUEST (BMessage false message)
        end
    end.

(** The [with transaction.atomic()] block of [create_password]. *)
Definition create_password_block (P : Platform) (email password : string)
  : M Response :=
  atomic
    (db <- get_db ;;
     match latest_verified P email registration db with
     | None =>
         respond HTTP_400_BAD_REQUEST (BMessage false "Email not verified")
     | Some otp_record =>
         user <- create_user P (OTPRecord.temp_username otp_record) email
                             (OTPRecord.temp_first_name otp_record)
                             (OTPRecord.temp_last_name otp_record) password ;;
         create_profile user true ;;;
         respond HTTP_201_CREATED
                 (BRegistered "Registration completed successfully"
                              (User.username user) (User.email user))
     end).

(** [create_password] (registration flow, step 4). *)
Definition create_password (P : Platform) (email password confirm_password : string)
  : Store -> Response * Store :=
  fun db =>
    match PasswordCreationSerializer P email password confirm_password db with
    | Invalid errors => (mkResponse HTTP_400_BAD_REQUEST (BErrors errors), db)
    | Valid (email, password) =>
        try_except
          (create_password_block P email password)
          (fun _ => mkResponse HTTP_500_INTERNAL_SERVER_ERROR
                      (BMessage false "An error occurred during registration"))
          db
    end.

(** The account lookup of [user_login]: [User.objects.get] with
    [DoesNotExist] caught. *)
Definition login_lookup (username_or_email : string) : M (option User.t) :=
  db <- get_db ;;
  if Py.contains "@" username_or_email then
    ORM.get (filter (fun u => String.eqb (User.email u) username_or_email) (users db))
  else
    ORM.get (filter (fun u => String.eqb (User.username u) username_or_email) (users db)).

Definition invalid_credentials (now : Z) (username_or_email ip_address user_agent : string)
  : M Response :=
  create_login_attempt now username_or_email ip_address false
                       (Some "Invalid credentials") user_agent ;;;
  respond HTTP_401_UNAUTHORIZED
          (BMessage false "Invalid username/email or password").

(** [user_login]; [ip_address] and [user_agent] are what [get_client_ip]
    and [get_user_agent] read from the request. *)
Definition user_login (P : Platform) (now : Z)
           (username_or_email password : string) (remember_me : bool)
           (ip_address user_agent : string) : Store -> Response * Store :=
  run_view
    match UserLoginSerializer username_or_email password remember_me with
    | Invalid errors => respond HTTP_400_BAD_REQUEST (BErrors errors)
    | Valid (username_or_email, password, remember_me) =>
        db <- get_db ;;
        if is_rate_limited now username_or_email ip_address 5 15 db then
          respond HTTP_429_TOO_MANY_REQUESTS
                  (BMessage false "Too many failed login attempts. Please try again later.")
        else
          user <- login_lookup username_or_email ;;
          match user with
          | None => invalid_credentials now username_or_email ip_address user_agent
          | Some user =>
              match authenticate P (User.username user) password db with
              | None => invalid_credentials now username_or_email ip_address user_agent
              | Some authenticated_user =>
                  let profile := profile_of authenticated_user db in
                  let is_admin :=
                    (User.is_staff authenticated_user
                     || User.is_superuser authenticated_user)%bool in
                  let is_admin :=
                    match profile with
                    | Some p => (is_admin || UserProfile.is_admin_user p)%bool
                    | None => is_admin
                    end in
                  if is_admin then
                    create_login_attempt now username_or_email ip_address false
                                         (Some "Admin user attempted user login")
                                         user_agent ;;;
                    respond HTTP_403_FORBIDDEN
                            (BMessage false
                               "Admin users must login through the Admin Login section")
                  else
                    let finish (profile : option UserProfile.t) : M Response :=
                      create_login_attempt now username_or_email ip_address true
                                           None user_agent ;;;
                      respond HTTP_200_OK
                              (BLogin "Login successful"
                                      (generate_jwt_tokens authenticated_user profile)
                                      (user_response authenticated_user profile)) in
                    match profile with
                    | Some p =>
                        if negb (UserProfile.is_email_verified p) then
                          create_login_attempt now username_or_email ip_address false
                                               (Some "Email not verified") user_agent ;;;
                          respond HTTP_403_FORBIDDEN
                                  (BMessage false
                                     "Please verify your email before logging in")
                        else
                          let p := UserProfile.with_last_login_ip (Some ip_address) p in
                          p <- increment_login_count p ;;
                          finish (Some p)
                    | None => finish None
                    end
              end
          end
    end.

(** The keywords [request_password_reset] passes to
    [send_otp_to_service]. *)
Definition reset_request_keywords : list string :=
  ["email"; "otp"; "first_name"; "last_name"; "purpose"].

(** [request_password_reset] (reset flow, step 1); [code] is the passcode
    [generate_otp()] draws and [delivery] the answer of the OTP service. *)
Definition request_password_reset (P : Platform) (now : Z) (code : string)
           (delivery : bool * string) (identifier : string)
           (ip_address : option string) : Store -> Response * Store :=
  try_except
    (db <- get_db ;;
     match RequestPasswordResetSerializer identifier db with
     | Invalid errors => respond HTTP_400_BAD_REQUEST (BErrors errors)
     | Valid identifier =>
         let identifier := Py.strip (Py.lower identifier) in
         match user_by_identifier identifier db with
         | None =>
             respond HTTP_404_NOT_FOUND
                     (BMessage false "No account found with this username or email")
         | Some user =>
             let email := User.email user in
             let recent_otp :=
               ORM.first_desc (nulls_first_desc P)
                 (fun r => Some (OTPRecord.created_at r))
                 (filter (fun r =>
                            (for_pair email password_reset r
                             && (now - seconds 30 <=? OTPRecord.created_at r))%bool)
                         (otp_records db)) in
             match recent_otp with
             | Some recent_otp =>
                 let remaining_time :=
                   30 - Z.quot (now - OTPRecord.created_at recent_otp) 1000000 in
                 respond HTTP_429_TOO_MANY_REQUESTS
                         (BMessage false
                            ("Please wait " ++ Py.str remaining_time
                             ++ " seconds before requesting another reset"))
             | None =>
                 otp_record <- create_otp now code email password_reset 10 ip_address
                                          (Some (User.username user))
                                          (Some (User.first_name user))
                                          (Some (User.last_name user)) ;;
                 email_sent <- send_otp_to_service reset_request_keywords delivery ;;
                 if negb (truthy_pair email_sent) then
                   respond HTTP_500_INTERNAL_SERVER_ERROR
                           (BMessage false
                              "Failed to send verification email. Please try again.")
                 else
                   respond HTTP_200_OK
                           (BResetSent "Password reset OTP sent to your email"
                                       (mask_email email)
                                       (get_remaining_time now otp_record))
             end
         end
     end)
    (fun _ => mkResponse HTTP_500_INTERNAL_SERVER_ERROR
                (BMessage false "An error occurred. Please try again.")).

(** [verify_reset_otp] (reset flow, step 2). *)
Definition verify_reset_otp (P : Platform) (now : Z) (email otp_code : string)
  : Store -> Response * Store :=
  try_except
    match VerifyResetOTPSerializer P email otp_code with
    | Invalid errors => respond HTTP_400_BAD_REQUEST (BErrors errors)
    | Valid (email, otp_code) =>
        let email := Py.lower email in
        db <- get_db ;;
        match latest_unverified P email password_reset db with
        | None =>
            respond HTTP_404_NOT_FOUND
                    (BMessage false
                       "No password reset request found. Please request a new one.")
        | Some otp_record =>
            if is_expired now otp_record then
              respond HTTP_400_BAD_REQUEST
                      (BMessage false "OTP has expired. Please request a new one.")
            else if OTPRecord.max_attempts otp_record <=? OTPRecord.attempts otp_record then
              respond HTTP_400_BAD_REQUEST
                      (BMessage false
                         "Maximum verification attempts exceeded. Please request a new OTP.")
            else
              r <- verify now otp_record otp_code ;;
              let '((success, message), _) := r in
              if success : bool then
                respond HTTP_200_OK
                        (BResetVerified
                           "OTP verified successfully. You can now reset your password."
                           email)
              else
                respond HTTP_400_BAD_REQUEST (BMessage false message)
        end
    end
    (fun _ => mkResponse HTTP_500_INTERNAL_SERVER_ERROR
                (BMessage false "An error occurred during verification")).

(** [OTPRecord.objects.filter(email=..., purpose='password_reset')
    .update(is_verified=True)]. *)
Definition invalidate_reset_otps (email : string) : M unit :=
  fun db =>
    Ok tt
       (with_otp_records
          (map (fun r =>
                  if for_pair email password_reset r
                  then OTPRecord.with_is_verified true r else r)
               (otp_records db))
          db (otp_seq db)).

(** [reset_password] (reset flow, step 3). *)
Definition reset_password (P : Platform) (now : Z)
           (email new_password confirm_password : string)
  : Store -> Response * Store :=
  try_except
    (v <- ResetPasswordSerializer P now email new_password confirm_password ;;
     match v with
     | Invalid errors => respond HTTP_400_BAD_REQUEST (BErrors errors)
     | Valid (email, new_password) =>
         let email := Py.lower email in
         db <- get_db ;;
         match latest_verified P email password_reset db with
         | None =>
             respond HTTP_400_BAD_REQUEST
                     (BMessage false
                        "Password reset not verified. Please complete OTP verification first.")
         | Some otp_record =>
             match ORM.first (filter (fun u => String.eqb (User.email u) email)
                                     (users db)) with
             | None => respond HTTP_404_NOT_FOUND (BMessage false "User not found")
             | Some user =>
                 set_password_and_save P user new_password ;;;
                 invalidate_reset_otps email ;;;
                 respond HTTP_200_OK
                         (BMessage true
                            "Password reset successfully. You can now login with your new password.")
             end
         end
     end)
    (fun _ => mkResponse HTTP_500_INTERNAL_SERVER_ERROR
                (BMessage false "An error occurred while resetting password")).

(* ------------------------------------------------------------------ *)
(** ** Vocabulary of the properties *)

(** The stored attempt counter of the OTP row with primary key [pk]. *)
Definition stored_attempts (pk : Z) (db : Store) : option Z :=
  option_map OTPRecord.attempts
             (find (fun row => OTPRecord.id row =? pk) (otp_records db)).

(** The stored password hash of the account with primary key [pk]. *)
Definition stored_password (pk : Z) (db : Store) : option string :=
  option_map User.password (find (fun u => User.id u =? pk) (users db)).

(** A response that reports success. *)
Definition succeeded (r : Response) : bool :=
  ((status r =? HTTP_200_OK) || (status r =? HTTP_201_CREATED))%bool.

(** The rate limiter in the words of its specification: the failed attempts
    of the ledger that match and are no older than the window, counted one
    by one. *)
Fixpoint failed_in_window (now window_minutes : Z) (matches : LoginAttempt.t -> bool)
         (ledger : list LoginAttempt.t) : Z :=
  match ledger with
  | [] => 0
  | a :: rest =>
      (if (matches a && negb (LoginAttempt.success a)
           && (now - LoginAttempt.attempted_at a <=? minutes window_minutes))%bool
       then 1 else 0)
      + failed_in_window now window_minutes matches rest
  end.

Definition isRateLimited (now : Z) (identifier sourceIP : string)
           (maxAttempts windowMinutes : Z) (ledger : list LoginAttempt.t) : Prop :=
  maxAttempts <= failed_in_window now windowMinutes
                   (fun a => String.eqb (LoginAttempt.ip_address a) sourceIP) ledger
  \/ maxAttempts <= failed_in_window now windowMinutes
                      (fun a => String.eqb (LoginAttempt.username_or_email a) identifier)
                      ledger.

(** The verification times of the Verified records of a pair, and the most
    recent of them. *)
Definition verified_times (email : string) (purpose : Purpose) (db : Store) : list Z :=
  flat_map (fun r =>
              if (for_pair email purpose r && OTPRecord.is_verified r)%bool
              then match OTPRecord.verified_at r with
                   | Some t => [t]
                   | None => []
                   end
              else [])
           (otp_records db).

Definition most_recent (times : list Z) : option Z :=
  match times with
  | [] => None
  | t :: rest => Some (fold_left Z.max rest t)
  end.

(** The instance [verify] works on after it raised the counter, the one it
    saves on a match, and the database after a [save]. *)
Definition counted (r : OTPRecord.t) : OTPRecord.t :=
  OTPRecord.with_attempts (OTPRecord.attempts r + 1) r.

Definition marked_verified (now : Z) (r : OTPRecord.t) : OTPRecord.t :=
  OTPRecord.with_verified_at (Some now) (OTPRecord.with_is_verified true (counted r)).

Definition db_after_save (self : OTPRecord.t) (db : Store) : Store :=
  with_otp_records
    (map (fun row => if OTPRecord.id row =? OTPRecord.id self then self else row)
         (otp_records db))
    db (otp_seq db).

(** A platform to run the model on: a transparent hasher, no baseline
    password rule, and an address is well formed when it holds an [@]. *)
Definition demo_platform (nulls_first : bool) : Platform :=
  mkPlatform (fun raw => "hash$" ++ raw)
             (fun raw encoded => String.eqb ("hash$" ++ raw) encoded)
             (fun _ => [])
             (Py.contains "@")
             nulls_first.

Definition empty_store : Store := mkStore [] [] [] [] 1 1.

(** A passcode for [a@b.com], issued at time 0 for five minutes, with
    [attempts] tries counted so far, and the ledger that holds only it. *)
Definition demo_otp (purpose : Purpose) (attempts : Z) : OTPRecord.t :=
  OTPRecord.mk 1 "a@b.com" "123456" purpose false attempts 5 0 (minutes 5) None
               (Some "10.0.0.1") (Some "alice") (Some "Alice") (Some "Liddell").

Definition demo_ledger (purpose : Purpose) (attempts : Z) : Store :=
  mkStore [] [] [demo_otp purpose attempts] [] 1 2.

(** The database a computation leaves behind. *)
Definition db_after {A} (m : M A) (db : Store) : Store :=
  match m db with
  | Ok _ db' => db'
  | Raise _ db' => db'
  end.

(** The filter [email=..., purpose=..., is_verified=False]. *)
Definition unverified_for (email : string) (purpose : Purpose) (r : OTPRecord.t) : bool :=
  (for_pair email purpose r && negb (OTPRecord.is_verified r))%bool.

(** [o] is the one row of [rows] that passes [f]. *)
Definition sole {A} (f : A -> bool) (o : A) (rows : list A) : Prop :=
  In o rows /\ f o = true /\ forall x, In x rows -> f x = true -> x = o.

(** What Issue does to a row that was there before. *)
Definition supersede (email : string) (purpose : Purpose) (r : OTPRecord.t) : OTPRecord.t :=
  if for_pair email purpose r then OTPRecord.with_is_verified true r else r.

(** The number of Live records of a pair at time [t]. *)
Definition live_count (t : Z) (email : string) (purpose : Purpose) (db : Store) : nat :=
  List.length (filter (fun r => (for_pair email purpose r && Live t r)%bool)
                      (otp_records db)).

(** A ledger whose only record is a verified registration passcode that
    stages the account [alice], and a password that meets the policy. *)
Definition verified_registration : OTPRecord.t :=
  OTPRecord.with_verified_at (Some (minutes 1))
    (OTPRecord.with_is_verified true (demo_otp registration 1)).

Definition verified_ledger : Store := mkStore [] [] [verified_registration] [] 1 2.

Definition strong_password : string := "Tr0ub4dor&3".

(** An account with a verified profile, alone in the database. *)
Definition alice : User.t :=
  User.mk 1 "alice" "alice@example.com" "Alice" "Liddell" "hash$OldPassw0rd!"
          false false true.

Definition alice_profile : UserProfile.t := UserProfile.mk 1 true false None None 0.

Definition alice_store : Store := mkStore [alice] [alice_profile] [] [] 2 1.

(** The same database once a reset passcode for that account was issued at
    time 0 and verified one minute later. *)
Definition alice_reset_otp : OTPRecord.t :=
  OTPRecord.mk 1 "alice@example.com" "123456" password_reset true 1 5 0 (minutes 10)
               (Some (minutes 1)) (Some "10.0.0.1")
               (Some "alice") (Some "Alice") (Some "Liddell").

Definition alice_reset_store : Store :=
  mkStore [alice] [alice_profile] [alice_reset_otp] [] 2 2.

(** The same database while a reset passcode issued at time 0 still waits
    to be verified. *)
Definition alice_pending_otp : OTPRecord.t :=
  OTPRecord.mk 1 "alice@example.com" "123456" password_reset false 0 5 0 (minutes 10)
               None (Some "10.0.0.1") (Some "alice") (Some "Alice") (Some "Liddell").

Definition alice_pending_store : Store :=
  mkStore [alice] [alice_profile] [alice_pending_otp] [] 2 2.

(** The body of [reset_password] once the serializer passed. *)
Definition reset_after_validation (P : Platform) (email new_password : string)
           (db : Store) : Response * Store :=
  match latest_verified P (Py.lower email) password_reset db with
  | None =>
      (mkResponse HTTP_400_BAD_REQUEST
         (BMessage false
            "Password reset not verified. Please complete OTP verification first."),
       db)
  | Some _ =>
      match ORM.first (filter (fun u => String.eqb (User.email u) (Py.lower email))
                              (users db)) with
      | None => (mkResponse HTTP_404_NOT_FOUND (BMessage false "User not found"), db)
      | Some user =>
          (mkResponse HTTP_200_OK
             (BMessage true
                "Password reset successfully. You can now login with your new password."),
           db_after (invalidate_reset_otps (Py.lower email))
                    (db_after (set_password_and_save P user new_password) db))
      end
  end.

(** An account that has no profile row, alone in the database. *)
Definition bob : User.t :=
  User.mk 7 "bob" "bob@example.com" "Bob" "Builder" "hash$Passw0rd!" false false true.

Definition bob_store : Store := mkStore [bob] [] [] [] 8 1.

(* ------------------------------------------------------------------ *)
(** ** views.py: the administrator login *)

(** [admin_login]. *)
Definition admin_login (P : Platform) (now : Z) (username password : string)
           (ip_address user_agent : string) : Store -> Response * Store :=
  run_view
    match AdminLoginSerializer username password with
    | Invalid errors => respond HTTP_400_BAD_REQUEST (BErrors errors)
    | Valid (username, password) =>
        db <- get_db ;;
        if is_rate_limited now username ip_address 5 15 db then
          respond HTTP_429_TOO_MANY_REQUESTS
                  (BMessage false "Too many failed login attempts. Please try again later.")
        else
          match authenticate P username password db with
          | Some user =>
              let profile := profile_of user db in
              let is_admin := (User.is_staff user || User.is_superuser user)%bool in
              let is_admin :=
                match profile with
                | Some p => (is_admin || UserProfile.is_admin_user p)%bool
                | None => is_admin
                end in
              if negb is_admin then
                create_login_attempt now username ip_address false
                                     (Some "Not an admin user") user_agent ;;;
                respond HTTP_403_FORBIDDEN
                        (BMessage false "You do not have admin privileges")
              else
                profile <- match profile with
                           | Some p =>
                               let p := UserProfile.with_last_login_ip (Some ip_address) p in
                               p <- increment_login_count p ;;
                               ret (Some p)
                           | None => ret None
                           end ;;
                create_login_attempt now username ip_address true None user_agent ;;;
                respond HTTP_200_OK
                        (BLogin "Admin login successful"
                                (generate_jwt_tokens user profile)
                                (user_response user profile))
          | None =>
              create_login_attempt now username ip_address false
                                   (Some "Invalid credentials") user_agent ;;;
              respond HTTP_401_UNAUTHORIZED
                      (BMessage false "Invalid username or password")
          end
    end.


(* ------------------------------------------------------------------ *)
(** ** serializers.py and views.py: the first steps of a registration *)

(** The character class of [re.match(r'^[a-zA-Z0-9_-]+$', value)]. *)
Definition is_username_char (c : ascii) : bool :=
  (Py.is_lower c || Py.is_upper c || Py.is_digit c
   || Ascii.eqb c "_" || Ascii.eqb c "-")%bool.

(** The match itself: one or more characters of the class, and [$] also
    accepts one line feed after them. *)
Fixpoint username_pattern_tail (s : string) : bool :=
  match s with
  | EmptyString => true
  | String c EmptyString => (is_username_char c || Nat.eqb (nat_of_ascii c) 10)%bool
  | String c s' => (is_username_char c && username_pattern_tail s')%bool
  end.

Definition username_pattern (s : string) : bool :=
  match s with
  | EmptyString => false
  | String c s' => (is_username_char c && username_pattern_tail s')%bool
  end.

(** [BasicDetailsSerializer.validate_username]. *)
Definition validate_username (value : string) (db : Store) : string + list string :=
  if negb (username_pattern value) then
    inr ["Username can only contain letters, numbers, underscores, and hyphens"]
  else if existsb (fun u => String.eqb (User.username u) value) (users db) then
    inr ["Username already taken"]
  else inl (Py.lower value).

(** [BasicDetailsSerializer.validate_email]. *)
Definition validate_email (value : string) (db : Store) : string + list string :=
  if existsb (fun u => String.eqb (User.email u) value) (users db) then
    inr ["Email already registered"]
  else inl (Py.lower value).

(** [validate_first_name] and [validate_last_name]. *)
Definition validate_name (label value : string) : string + list string :=
  match Py.strip value with
  | EmptyString => inr [label ++ " cannot be empty"]
  | stripped => inl stripped
  end.

Record BasicDetails : Type := mkBasicDetails {
  bd_username : string;
  bd_email : string;
  bd_first_name : string;
  bd_last_name : string
}.

(** [BasicDetailsSerializer]: each field's own checks, then its
    [validate_<field>] method. *)
Definition BasicDetailsSerializer (P : Platform)
           (username email first_name last_name : string) (db : Store)
  : Validation BasicDetails :=
  let username := and_then (char_field (Some 3) (Some 150) username)
                           (fun v => validate_username v db) in
  let email := if email_syntax_ok P email then validate_email email db
               else inr ["Enter a valid email address."] in
  let first_name := and_then (char_field None (Some 150) first_name)
                             (validate_name "First name") in
  let last_name := and_then (char_field None (Some 150) last_name)
                            (validate_name "Last name") in
  match username, email, first_name, last_name with
  | inl u, inl e, inl f, inl l => Valid (mkBasicDetails u e f l)
  | _, _, _, _ =>
      Invalid (field_errors "username" (messages_of username)
               ++ field_errors "email" (messages_of email)
               ++ field_errors "first_name" (messages_of first_name)
               ++ field_errors "last_name" (messages_of last_name))%list
  end.

(** [SendOTPSerializer]: no checks beyond the fields' own. *)
Definition SendOTPSerializer (P : Platform)
           (username email first_name last_name : string) (purpose : Purpose)
  : Validation (BasicDetails * Purpose) :=
  let username := char_field None (Some 150) username in
  let first_name := char_field None (Some 150) first_name in
  let last_name := char_field None (Some 150) last_name in
  match username, email_syntax_ok P email, first_name, last_name, purpose with
  | _, _, _, _, email_verification
  | inr _, _, _, _, _
  | _, false, _, _, _
  | _, _, inr _, _, _
  | _, _, _, inr _, _ =>
      Invalid (field_errors "username" (messages_of username)
               ++ email_field_errors P "email" email
               ++ field_errors "first_name" (messages_of first_name)
               ++ field_errors "last_name" (messages_of last_name)
               ++ field_errors "purpose"
                    (match purpose with
                     | email_verification => ["Not a valid choice."]
                     | _ => []
                     end))%list
  | inl u, true, inl f, inl l, _ => Valid (mkBasicDetails u email f l, purpose)
  end.

(** The JSON bodies of the registration views modelled here. *)
Inductive RegBody : Type :=
| RValidated (message : string) (data : BasicDetails)
| RErrors (errors : Errors) (message : option string)
| RMessage (success : bool) (message : string)
| ROtpSent (message email : string) (expires_in can_resend_after : Z)
| ROtpResent (message email : string) (expires_in : Z).

Record RegResponse : Type := mkRegResponse { reg_status : Z; reg_body : RegBody }.

(** [validate_basic_details] (registration flow, step 1). *)
Definition validate_basic_details (P : Platform)
           (username email first_name last_name : string) (db : Store)
  : RegResponse :=
  match BasicDetailsSerializer P username email first_name last_name db with
  | Valid data =>
      mkRegResponse HTTP_200_OK (RValidated "Details validated successfully" data)
  | Invalid errors => mkRegResponse HTTP_400_BAD_REQUEST (RErrors errors None)
  end.

(** The keywords the registration views pass to [send_otp_to_service]. *)
Definition registration_keywords : list string :=
  ["email"; "otp_code"; "user_data"; "purpose"].

(** [send_otp] (registration flow, step 2). *)
Definition send_otp (P : Platform) (now : Z) (code : string) (delivery : bool * string)
           (username email first_name last_name : string) (purpose : Purpose)
           (ip_address : option string) : Store -> RegResponse * Store :=
  fun db =>
    match SendOTPSerializer P username email first_name last_name purpose with
    | Invalid errors =>
        (mkRegResponse HTTP_400_BAD_REQUEST (RErrors errors (Some "Validation failed")),
         db)
    | Valid (data, purpose) =>
        let email := bd_email data in
        if existsb (fun u => String.eqb (User.email u) email) (users db) then
          (mkRegResponse HTTP_400_BAD_REQUEST (RMessage false "Email already registered"),
           db)
        else
          try_except
            (otp_record <- create_otp now code email purpose 5 ip_address
                                      (Some (bd_username data))
                                      (Some (bd_first_name data))
                                      (Some (bd_last_name data)) ;;
             sent <- send_otp_to_service registration_keywords delivery ;;
             let '(success, message) := sent in
             if success : bool then
               ret (mkRegResponse HTTP_200_OK
                      (ROtpSent "OTP sent successfully" (mask_email email)
                                (get_remaining_time now otp_record) 30))
             else
               ret (mkRegResponse HTTP_500_INTERNAL_SERVER_ERROR
                      (RMessage false "Failed to send OTP. Please try again.")))
            (fun _ => mkRegResponse HTTP_500_INTERNAL_SERVER_ERROR
                        (RMessage false "An error occurred while sending OTP"))
            db
    end.

(** The query [OTPRecord.objects.filter(email=..., purpose=...)
    .order_by('-created_at').first()] of [resend_otp]. *)
Definition latest_record (P : Platform) (email : string) (purpose : Purpose)
           (db : Store) : option OTPRecord.t :=
  ORM.first_desc (nulls_first_desc P) (fun r => Some (OTPRecord.created_at r))
    (filter (for_pair email purpose) (otp_records db)).

(** [resend_otp]; [email] is [request.data.get('email')]. *)
Definition resend_otp (P : Platform) (now : Z) (code : string) (delivery : bool * string)
           (email : option string) (purpose : Purpose) (ip_address : option string)
  : Store -> RegResponse * Store :=
  fun db =>
    match email with
    | None | Some EmptyString =>
        (mkRegResponse HTTP_400_BAD_REQUEST (RMessage false "Email is required"), db)
    | Some email =>
        match latest_record P email purpose db with
        | None =>
            (mkRegResponse HTTP_404_NOT_FOUND
               (RMessage false "No previous OTP request found"), db)
        | Some prev_otp =>
            try_except
              (otp_record <- create_otp now code email purpose 5 ip_address
                                        (OTPRecord.temp_username prev_otp)
                                        (OTPRecord.temp_first_name prev_otp)
                                        (OTPRecord.temp_last_name prev_otp) ;;
               sent <- send_otp_to_service registration_keywords delivery ;;
               let '(success, message) := sent in
               if success : bool then
                 ret (mkRegResponse HTTP_200_OK
                        (ROtpResent "OTP resent successfully" (mask_email email)
                                    (get_remaining_time now otp_record)))
               else
                 ret (mkRegResponse HTTP_500_INTERNAL_SERVER_ERROR
                        (RMessage false "Failed to resend OTP")))
              (fun _ => mkRegResponse HTTP_500_INTERNAL_SERVER_ERROR
                          (RMessage false "An error occurred"))
              db
        end
    end.

(* ------------------------------------------------------------------ *)
(** ** utils.py and serializers.py: request metadata and password strength *)

(** [get_client_ip]; the arguments are [META.get('HTTP_X_FORWARDED_FOR')]
    and [META.get('REMOTE_ADDR')]. *)
Definition get_client_ip (x_forwarded_for remote_addr : option string) : option string :=
  match x_forwarded_for with
  | Some (String _ _ as header) => Some (hd EmptyString (Py.split "," header))
  | _ => remote_addr
  end.

(** [get_token_lifetime], in seconds. *)
Definition get_token_lifetime (remember_me : bool) : Z :=
  if remember_me then 30 * 24 * 60 * 60 else 24 * 60 * 60.

(** [format_otp_for_display]. *)
Definition format_otp_for_display (otp : string) : string :=
  if Py.len otp =? 6
  then String.substring 0 3 otp ++ " " ++ String.substring 3 (String.length otp - 3) otp
  else otp.

(** [is_strong_password]: the verdict and the list of failed rules. *)
Definition is_strong_password (password : string) : bool * list string :=
  let errors :=
    ((if Py.len password <? 8
      then ["Password must be at least 8 characters long"] else [])
     ++ (if negb (Py.search Py.is_upper password)
         then ["Password must contain at least one uppercase letter"] else [])
     ++ (if negb (Py.search Py.is_lower password)
         then ["Password must contain at least one lowercase letter"] else [])
     ++ (if negb (Py.search Py.is_digit password)
         then ["Password must contain at least one number"] else [])
     ++ (if negb (Py.search Py.is_special password)
         then ["Password must contain at least one special character"] else []))%list in
  (Nat.eqb (List.length errors) 0, errors).

Record StrengthReport : Type := mkStrengthReport {
  score : Z;
  strength : string;
  color : option string;
  feedback : list string
}.

(** [calculate_password_strength] of utils.py. *)
Definition calculate_password_strength (password : string) : StrengthReport :=
  let score := 0 in
  let feedback : list string := [] in
  let '(score, feedback) :=
    if 8 <=? Py.len password then (score + 25, feedback)
    else (score, (feedback ++ ["Use at least 8 characters"])%list) in
  let score := if 12 <=? Py.len password then score + 10 else score in
  let '(score, feedback) :=
    if Py.search Py.is_upper password then (score + 20, feedback)
    else (score, (feedback ++ ["Add uppercase letters"])%list) in
  let score := if Py.search Py.is_lower password then score + 15 else score in
  let '(score, feedback) :=
    if Py.search Py.is_digit password then (score + 20, feedback)
    else (score, (feedback ++ ["Add numbers"])%list) in
  let '(score, feedback) :=
    if Py.search Py.is_special password then (score + 20, feedback)
    else (score, (feedback ++ ["Add special characters"])%list) in
  let '(strength, color) :=
    if 90 <=? score then ("strong", "green")
    else if 70 <=? score then ("good", "blue")
    else if 50 <=? score then ("medium", "orange")
    else ("weak", "red") in
  mkStrengthReport (Z.min score 100) strength (Some color) feedback.

(** [PasswordStrengthSerializer.validate], what [check_password_strength]
    returns as data. *)
Definition PasswordStrengthSerializer (password : string) : StrengthReport :=
  let score := 0 in
  let feedback : list string := [] in
  let '(score, feedback) :=
    if 8 <=? Py.len password then (score + 25, feedback)
    else (score, (feedback ++ ["Use at least 8 characters"])%list) in
  let '(score, feedback) :=
    if Py.search Py.is_upper password then (score + 25, feedback)
    else (score, (feedback ++ ["Add uppercase letters"])%list) in
  let '(score, feedback) :=
    if Py.search Py.is_digit password then (score + 25, feedback)
    else (score, (feedback ++ ["Add numbers"])%list) in
  let '(score, feedback) :=
    if Py.search Py.is_special password then (score + 25, feedback)
    else (score, (feedback ++ ["Add special characters"])%list) in
  let strength :=
    if 100 <=? score then "strong"
    else if 75 <=? score then "good"
    else if 50 <=? score then "medium"
    else "weak" in
  mkStrengthReport score strength None feedback.

(* ------------------------------------------------------------------ *)
(** ** google_auth.py and the [google_auth] view *)

(** The claims [verify_google_token] extracts from a token it accepted. *)
Record GoogleUserInfo : Type := mkGoogleUserInfo {
  gi_google_id : string;
  gi_email : string;
  gi_email_verified : bool;
  gi_given_name : string;
  gi_family_name : string;
  gi_picture : string
}.

(** What can go wrong inside [get_or_create_user]: a Django exception of
    the store, [user.profile] on an account without a profile row, or
    [profile.user] on a dangling key. *)
Inductive GoogleFailure : Type :=
| GDjango (e : exn)
| GNoProfile
| GNoUser.

(** The error [authenticate_google_user] returns as its third component. *)
Inductive GoogleError : Type :=
| InvalidGoogleToken
| GoogleEmailNotVerified
| GoogleException (e : GoogleFailure).

(** [s.replace(' ', '')]. *)
Fixpoint remove_spaces (s : string) : string :=
  match s with
  | EmptyString => EmptyString
  | String c s' => if Ascii.eqb c " " then remove_spaces s' else String c (remove_spaces s')
  end.

(** [''.join(c for c in s if c.isalnum() or c == '_')]. *)
Fixpoint keep_alnum (s : string) : string :=
  match s with
  | EmptyString => EmptyString
  | String c s' =>
      if (Py.is_lower c || Py.is_upper c || Py.is_digit c || Ascii.eqb c "_")%bool
      then String c (keep_alnum s') else keep_alnum s'
  end.

(** The base name of [_generate_username], before the uniqueness loop. *)
Definition base_username (first_name last_name email : string) : string :=
  let base := remove_spaces (Py.lower (first_name ++ last_name)) in
  let base :=
    match base with
    | EmptyString => Py.lower (hd EmptyString (Py.split "@" email))
    | _ => base
    end in
  keep_alnum base.

(** The loop [while User.objects.filter(username=username).exists()]; [fuel]
    bounds its iterations. *)
Fixpoint username_loop (db : Store) (base username : string) (counter : Z)
         (fuel : nat) : string :=
  match fuel with
  | O => username
  | S fuel' =>
      if existsb (fun u => String.eqb (User.username u) username) (users db)
      then username_loop db base (base ++ Py.str counter) (counter + 1) fuel'
      else username
  end.

(** [GoogleAuthHandler._generate_username]; one more iteration than there
    are accounts is all the loop can need. *)
Definition _generate_username (first_name last_name email : string) (db : Store)
  : string :=
  let base := base_username first_name last_name email in
  username_loop db base base 1 (S (List.length (users db))).

(** [User.objects.create_user] with the password hash given: [hash] is
    [make_password(raw)], or the unusable hash when no password is passed. *)
Definition create_user_hashed (hash : string) (username : option string)
           (email : string) (first_name last_name : option string) : M User.t :=
  match username with
  | None | Some EmptyString => raise ValueError
  | Some uname =>
      match first_name, last_name with
      | Some fn, Some ln =>
          fun db =>
            if existsb (fun u => String.eqb (User.username u) uname) (users db)
            then Raise IntegrityError db
            else
              let user :=
                User.mk (user_seq db) uname (normalize_email email) fn ln hash
                        false false true in
              Ok user (with_users (users db ++ [user])%list db (user_seq db + 1))
      | _, _ => raise IntegrityError
      end
  end.

(** [UserProfile.objects.create(user=..., google_id=...,
    is_email_verified=True, ...)]; both the one-to-one key and [google_id]
    are unique. *)
Definition create_google_profile (user : User.t) (google_id : string)
  : M UserProfile.t :=
  fun db =>
    if existsb (fun p => ((UserProfile.user_id p =? User.id user)
                          || match UserProfile.google_id p with
                             | Some g => String.eqb g google_id
                             | None => false
                             end)%bool)
               (profiles db)
    then Raise IntegrityError db
    else
      let p := UserProfile.mk (User.id user) true false (Some google_id) None 0 in
      Ok p (with_profiles (profiles db ++ [p])%list db).

(** The profile after [get_or_create_user] linked it, and its [save()]. *)
Definition linked_profile (google_id : string) (p : UserProfile.t) : UserProfile.t :=
  UserProfile.mk (UserProfile.user_id p) true (UserProfile.is_admin_user p)
                 (Some google_id) (UserProfile.last_login_ip p)
                 (UserProfile.login_count p).

Definition save_profile (self : UserProfile.t) (db : Store) : Store :=
  with_profiles
    (map (fun row =>
            if UserProfile.user_id row =? UserProfile.user_id self then self else row)
         (profiles db))
    db.

Definition has_google_id (google_id : string) (p : UserProfile.t) : bool :=
  match UserProfile.google_id p with
  | Some g => String.eqb g google_id
  | None => false
  end.

(** [GoogleAuthHandler.get_or_create_user]: the account and whether it was
    created, or the exception that leaves the method. *)
Definition get_or_create_user (unusable_hash : string) (info : GoogleUserInfo)
  : Store -> (GoogleFailure + User.t * bool) * Store :=
  fun db =>
    let google_id := gi_google_id info in
    let email := gi_email info in
    match filter (has_google_id google_id) (profiles db) with
    | [profile] =>
        match find (fun u => User.id u =? UserProfile.user_id profile) (users db) with
        | Some user => (inr (user, false), db)
        | None => (inl GNoUser, db)
        end
    | _ :: _ :: _ => (inl (GDjango MultipleObjectsReturned), db)
    | [] =>
        match filter (fun u => String.eqb (User.email u) email) (users db) with
        | [user] =>
            match profile_of user db with
            | Some profile =>
                (inr (user, false), save_profile (linked_profile google_id profile) db)
            | None => (inl GNoProfile, db)
            end
        | _ :: _ :: _ => (inl (GDjango MultipleObjectsReturned), db)
        | [] =>
            let username :=
              _generate_username (gi_given_name info) (gi_family_name info) email db in
            match create_user_hashed unusable_hash (Some username) email
                                     (Some (gi_given_name info))
                                     (Some (gi_family_name info)) db with
            | Raise e db' => (inl (GDjango e), db')
            | Ok user db' =>
                match create_google_profile user google_id db' with
                | Raise e db'' => (inl (GDjango e), db'')
                | Ok _ db'' => (inr (user, true), db'')
                end
            end
        end
    end.

(** [GoogleAuthHandler.authenticate_google_user]; [info] is what
    [verify_google_token] returned for the token. *)
Definition authenticate_google_user (unusable_hash : string)
           (info : option GoogleUserInfo)
  : Store -> (GoogleError + User.t * bool) * Store :=
  fun db =>
    match info with
    | None => (inl InvalidGoogleToken, db)
    | Some info =>
        if negb (gi_email_verified info) then (inl GoogleEmailNotVerified, db)
        else
          match get_or_create_user unusable_hash info db with
          | (inr result, db') => (inr result, db')
          | (inl e, db') => (inl (GoogleException e), db')
          end
    end.

Inductive GoogleBody : Type :=
| GErrors (errors : Errors)
| GFailed (error : GoogleError)
| GLogin (new_user : bool) (tokens : Tokens) (user : UserData).

Record GoogleResponse : Type := mkGoogleResponse {
  google_status : Z;
  google_body : GoogleBody
}.

(** The [google_auth] view. *)
Definition google_auth (unusable_hash : string) (token : string)
           (info : option GoogleUserInfo) (ip_address : option string)
  : Store -> GoogleResponse * Store :=
  fun db =>
    match char_field None None token with
    | inr messages =>
        (mkGoogleResponse HTTP_400_BAD_REQUEST (GErrors [("token", messages)]), db)
    | inl _ =>
        match authenticate_google_user unusable_hash info db with
        | (inl error, db') =>
            (mkGoogleResponse HTTP_401_UNAUTHORIZED (GFailed error), db')
        | (inr (user, created), db') =>
            let '(profile, db'') :=
              match profile_of user db' with
              | Some p =>
                  let p := UserProfile.with_last_login_ip ip_address p in
                  match increment_login_count p db' with
                  | Ok p db'' => (Some p, db'')
                  | Raise _ db'' => (Some p, db'')
                  end
              | None => (None, db')
              end in
            (mkGoogleResponse HTTP_200_OK
               (GLogin created (generate_jwt_tokens user profile)
                       (user_response user profile)),
             db'')
        end
    end.

(* ------------------------------------------------------------------ *)
(** ** Vocabulary of the further properties *)




(** The sequences are ahead of every key in use, as a database keeps them. *)
Definition sequences_fresh (db : Store) : Prop :=
  (forall u, In u (users db) -> User.id u < user_seq db)
  /\ (forall r, In r (otp_records db) -> OTPRecord.id r < otp_seq db).

(** An administrator with a profile whose e-mail was never verified. *)
Definition root_user : User.t :=
  User.mk 3 "root" "root@example.com" "Ro" "Ot" "hash$Adm1n!pass" true false true.

Definition root_store : Store :=
  mkStore [root_user] [UserProfile.mk 3 false false None None 0] [] [] 4 1.

(** Every stored attempt counter is below its ceiling. *)
Definition counters_below_ceiling (db : Store) : Prop :=
  forall r, In r (otp_records db) -> OTPRecord.attempts r < OTPRecord.max_attempts r.

(** The pair has no record left that a verify call could find. *)
Definition all_used (email : string) (purpose : Purpose) (db : Store) : Prop :=
  forall r, In r (otp_records db) -> for_pair email purpose r = true ->
            OTPRecord.is_verified r = true.

(** The address never had a passcode of this purpose. *)
Definition fresh_address (email : string) (purpose : Purpose) (db : Store) : Prop :=
  forall x, In x (otp_records db) -> for_pair email purpose x = false.

(** Every profile belongs to an account whose key the sequence has passed. *)
Definition profile_keys_fresh (db : Store) : Prop :=
  forall p, In p (profiles db) -> UserProfile.user_id p < user_seq db.

(** The database after [create_password] registered an account. *)
Definition registered (P : Platform) (username email first_name last_name password : string)
           (db : Store) : Store :=
  let user := User.mk (user_seq db) username (normalize_email email) first_name last_name
                      (make_password P password) false false true in
  with_profiles
    (profiles db ++ [UserProfile.mk (user_seq db) true false None None 0])%list
    (with_users (users db ++ [user])%list db (user_seq db + 1)).

(** What [mask_email] shows of a segment: its length and its two ends. *)
Definition shape (segment : string) : nat * option ascii * option ascii :=
  (String.length segment, String.get 0 segment, Py.last_char segment).

(** The names the uniqueness loop of [_generate_username] tries, in order:
    the base name, then the base name with 1, 2, ... appended. *)
Definition candidate (base : string) (i : nat) : string :=
  match i with
  | O => base
  | S _ => base ++ Py.str (Z.of_nat i)
  end.

Definition username_taken (db : Store) (username : string) : bool :=
  existsb (fun u => String.eqb (User.username u) username) (users db).

(** A Google identity and an unusable password hash to run the model on. *)
Definition dana_info : GoogleUserInfo :=
  mkGoogleUserInfo "g-1029" "dana@example.com" true "Dana" "Scully" "".

Definition unusable : string := "!unusable".

(* ================================================================== *)
(** * Properties *)

Unset Implicit Arguments.

(** ** Sanity of the string model *)

Example str_4 : Py.str 4 = "4". Proof. reflexivity. Qed.
Example str_neg : Py.str (-12) = "-12". Proof. reflexivity. Qed.
Example lower_mixed : Py.lower "Bob@X.Com" = "bob@x.com". Proof. reflexivity. Qed.
Example strip_both : Py.strip "  a b  " = "a b". Proof. reflexivity. Qed.
Example split_at : Py.split "@" "a@b@c" = ["a"; "b"; "c"]. Proof. reflexivity. Qed.
Example rsplit_dot : Py.rsplit1 "." "mail.example.com" = ["mail.example"; "com"].
Proof. reflexivity. Qed.
Example rsplit_none : Py.rsplit1 "." "localhost" = ["localhost"]. Proof. reflexivity. Qed.
Example mask_email_docstring : mask_email "john.doe@example.com" = "j******e@e*****e.com".
Proof. reflexivity. Qed.
Example mask_email_short : mask_email "ab@x.io" = "a*@x*.io". Proof. reflexivity. Qed.
Example mask_email_no_at : mask_email "nodomain" = "nodomain". Proof. reflexivity. Qed.

(** ** Query sets *)

Section FirstDesc.
Context {A : Type} (nulls_first : bool) (key : A -> option Z).

Let pick (best : option A) (x : A) : option A :=
  match best with
  | None => Some x
  | Some b => if ORM.desc_before nulls_first (key x) (key b) then Some x else Some b
  end.

Lemma pick_fold_some (rows : list A) (b : A) :
  exists x, fold_left pick rows (Some b) = Some x /\ (x = b \/ In x rows).
Proof.
  revert b. induction rows as [|y rows IH]; intros b; simpl.
  - exists b. auto.
  - destruct (ORM.desc_before nulls_first (key y) (key b)).
    + destruct (IH y) as [x [Hx Hin]]. exists x. split; [exact Hx|].
      destruct Hin; auto.
    + destruct (IH b) as [x [Hx Hin]]. exists x. split; [exact Hx|].
      destruct Hin; auto.
Qed.

Lemma first_desc_nil : ORM.first_desc nulls_first key [] = None.
Proof. reflexivity. Qed.

Lemma first_desc_In (rows : list A) (x : A) :
  ORM.first_desc nulls_first key rows = Some x -> In x rows.
Proof.
  unfold ORM.first_desc. destruct rows as [|y rows]; simpl; [discriminate|].
  intros H. destruct (pick_fold_some rows y) as [x' [Hx' Hin]].
  fold pick in H. rewrite Hx' in H. injection H as <-.
  destruct Hin; auto.
Qed.

Lemma first_desc_None (rows : list A) :
  ORM.first_desc nulls_first key rows = None -> rows = [].
Proof.
  unfold ORM.first_desc. destruct rows as [|y rows]; simpl; [reflexivity|].
  intros H. destruct (pick_fold_some rows y) as [x' [Hx' _]].
  fold pick in H. rewrite Hx' in H. discriminate.
Qed.

Lemma first_desc_single (x : A) :
  ORM.first_desc nulls_first key [x] = Some x.
Proof. reflexivity. Qed.
End FirstDesc.

Lemma filter_nil_iff {A} (f : A -> bool) (l : list A) :
  filter f l = [] <-> forall x, In x l -> f x = false.
Proof.
  induction l as [|a l IH]; simpl.
  - split; [intros _ x []|reflexivity].
  - destruct (f a) eqn:Ha.
    + split; [discriminate|]. intros H. rewrite (H a) in Ha; [discriminate|auto].
    + rewrite IH. split.
      * intros H x [<-|Hx]; auto.
      * intros H x Hx. apply H. auto.
Qed.

(** The verified-record query finds nothing exactly when the pair has no
    record whose flag is set. *)
Lemma latest_verified_None_iff (P : Platform) email purpose db :
  latest_verified P email purpose db = None <->
  (forall r, In r (otp_records db) -> for_pair email purpose r = true ->
             OTPRecord.is_verified r = false).
Proof.
  unfold latest_verified. split.
  - intros H r Hin Hp. apply first_desc_None in H.
    rewrite filter_nil_iff in H. specialize (H r Hin).
    rewrite Hp in H. exact H.
  - intros H.
    replace (filter _ (otp_records db)) with (@nil OTPRecord.t); [reflexivity|].
    symmetry. apply filter_nil_iff. intros r Hin.
    destruct (for_pair email purpose r) eqn:Hp; [|reflexivity].
    simpl. auto.
Qed.

Lemma latest_verified_Some (P : Platform) email purpose db r :
  latest_verified P email purpose db = Some r ->
  In r (otp_records db) /\ for_pair email purpose r = true
  /\ OTPRecord.is_verified r = true.
Proof.
  unfold latest_verified. intros H. apply first_desc_In in H.
  apply filter_In in H. destruct H as [Hin Hf].
  apply andb_true_iff in Hf. tauto.
Qed.

Lemma latest_unverified_Some (P : Platform) email purpose db r :
  latest_unverified P email purpose db = Some r ->
  In r (otp_records db) /\ for_pair email purpose r = true
  /\ OTPRecord.is_verified r = false.
Proof.
  unfold latest_unverified. intros H. apply first_desc_In in H.
  apply filter_In in H. destruct H as [Hin Hf].
  apply andb_true_iff in Hf. destruct Hf as [Hp Hv].
  apply negb_true_iff in Hv. tauto.
Qed.

(** ** Rate limiter (C8) *)

Lemma window_test (now window at_ : Z) :
  (now - window <=? at_) = (now - at_ <=? window).
Proof.
  destruct (Z.leb_spec (now - window) at_), (Z.leb_spec (now - at_) window);
    try reflexivity; lia.
Qed.

(** The count the code asks the database for is the count of the
    specification. *)
Lemma failed_since_spec {K} (column : LoginAttempt.t -> K) (eqb : K -> K -> bool)
      (value : K) (now window_minutes : Z) (db : Store) :
  failed_since column eqb value (now - minutes window_minutes) db
  = failed_in_window now window_minutes (fun a => eqb (column a) value)
                     (login_attempts db).
Proof.
  unfold failed_since. induction (login_attempts db) as [|a ledger IH].
  - reflexivity.
  - cbn [filter failed_in_window]. rewrite <- IH, window_test.
    destruct (eqb (column a) value && negb (LoginAttempt.success a)
              && (now - LoginAttempt.attempted_at a <=? minutes window_minutes))%bool.
    + cbn [List.length]. lia.
    + lia.
Qed.

Lemma is_rate_limited_spec now identifier ip max_attempts window db :
  is_rate_limited now identifier ip max_attempts window db = true
  <-> isRateLimited now identifier ip max_attempts window (login_attempts db).
Proof.
  unfold is_rate_limited, isRateLimited.
  rewrite !failed_since_spec, orb_true_iff, !Z.leb_le. reflexivity.
Qed.

(** A [CharField] without length bounds returns the stripped value, and
    refuses a value that is blank once stripped. *)
Lemma char_field_plain (value : string) :
  char_field None None value
  = match Py.strip value with
    | EmptyString => inr ["This field may not be blank."]
    | stripped => inl stripped
    end.
Proof. unfold char_field. destruct (Py.strip value); reflexivity. Qed.

Lemma char_field_plain_inl (value v : string) :
  char_field None None value = inl v <-> v = Py.strip value /\ v <> EmptyString.
Proof.
  rewrite char_field_plain. destruct (Py.strip value) as [|c rest].
  - split; [discriminate|]. intros [-> H]. contradiction.
  - split.
    + intros H. injection H as <-. split; [reflexivity|discriminate].
    + intros [-> _]. reflexivity.
Qed.



(** C8. With the defaults (5 failures, 15 minutes), [is_rate_limited] holds
    exactly when at least 5 failed attempts of the trailing window match the
    source IP or at least 5 match the identifier; and when it holds for the
    identifier of a login request (the submitted fields as the serializer
    passes them on), [user_login] answers 429 whatever the password is and
    leaves the database, the attempt ledger included, as it was. *)
Theorem C8_rate_limit_gate :
  forall (P : Platform) (now : Z) (identifier ip : string) (db : Store),
    (is_rate_limited now identifier ip 5 15 db = true
     <-> isRateLimited now identifier ip 5 15 (login_attempts db))
    /\ (is_rate_limited now identifier ip 5 15 db = true ->
        forall (submitted password validated user_agent : string) (remember_me : bool),
          UserLoginSerializer submitted password remember_me
          = Valid (identifier, validated, remember_me) ->
          user_login P now submitted password remember_me ip user_agent db
          = (mkResponse HTTP_429_TOO_MANY_REQUESTS
               (BMessage false
                  "Too many failed login attempts. Please try again later."),
             db)).
Proof.
  intros P now identifier ip db. split.
  - apply is_rate_limited_spec.
  - intros H submitted password validated user_agent remember_me Hs.
    unfold user_login. rewrite Hs. unfold run_view, try_except, bind, get_db.
    rewrite H. reflexivity.
Qed.

(** ** [OTPRecord.verify], case by case *)

(** The gate [verify] applies is [is_valid] of the instance after the
    counter was raised. *)
Lemma is_valid_counted now r :
  is_valid now (counted r)
  = (negb (OTPRecord.is_verified r) && negb (is_expired now r)
     && (OTPRecord.attempts r + 1 <? OTPRecord.max_attempts r))%bool.
Proof. reflexivity. Qed.

Lemma verify_rejects now r code db :
  is_valid now (counted r) = false ->
  verify now r code db
  = Ok ((false, "OTP expired or maximum attempts reached"), counted r) db.
Proof.
  intros H. unfold verify. fold (counted r). rewrite H. reflexivity.
Qed.

Lemma verify_accepts now r code db :
  is_valid now (counted r) = true ->
  OTPRecord.otp_code r = code ->
  verify now r code db
  = Ok ((true, "OTP verified successfully"), marked_verified now r)
       (db_after_save (marked_verified now r) db).
Proof.
  intros H Hc. unfold verify. fold (counted r). rewrite H.
  cbn [negb OTPRecord.otp_code counted OTPRecord.with_attempts].
  rewrite Hc, String.eqb_refl. reflexivity.
Qed.

Lemma verify_mismatch now r code db :
  is_valid now (counted r) = true ->
  OTPRecord.otp_code r <> code ->
  verify now r code db
  = Ok ((false,
         "Invalid OTP. "
         ++ Py.str (OTPRecord.max_attempts r - (OTPRecord.attempts r + 1))
         ++ " attempts remaining"),
        counted r)
       (db_after_save (counted r) db).
Proof.
  intros H Hc. unfold verify. fold (counted r). rewrite H.
  cbn [negb OTPRecord.otp_code counted OTPRecord.with_attempts].
  apply String.eqb_neq in Hc. rewrite Hc. reflexivity.
Qed.

(** A record that is expired, or whose counter already stands at the
    ceiling, is rejected whatever the code. *)
Lemma verify_rejects_expired_or_exhausted now r code db :
  is_expired now r = true \/ OTPRecord.max_attempts r <= OTPRecord.attempts r ->
  verify now r code db
  = Ok ((false, "OTP expired or maximum attempts reached"), counted r) db.
Proof.
  intros H. apply verify_rejects. rewrite is_valid_counted.
  destruct H as [H|H].
  - rewrite H. cbn [negb]. rewrite andb_false_r. reflexivity.
  - replace (OTPRecord.attempts r + 1 <? OTPRecord.max_attempts r) with false.
    + apply andb_false_r.
    + symmetry. apply Z.ltb_ge. lia.
Qed.

(** The last attempt the ceiling seems to allow is rejected as well: the
    counter is raised before it is compared with the ceiling. *)
Lemma verify_rejects_last_attempt now r code db :
  OTPRecord.attempts r + 1 = OTPRecord.max_attempts r ->
  verify now r code db
  = Ok ((false, "OTP expired or maximum attempts reached"), counted r) db.
Proof.
  intros H. apply verify_rejects. rewrite is_valid_counted.
  replace (OTPRecord.attempts r + 1 <? OTPRecord.max_attempts r) with false.
  - apply andb_false_r.
  - symmetry. apply Z.ltb_ge. lia.
Qed.

(** After [save], the row under the instance's key is the instance. *)
Lemma find_after_save (self r : OTPRecord.t) (rows : list OTPRecord.t) :
  In r rows -> OTPRecord.id r = OTPRecord.id self ->
  find (fun row => OTPRecord.id row =? OTPRecord.id self)
       (map (fun row => if OTPRecord.id row =? OTPRecord.id self then self else row) rows)
  = Some self.
Proof.
  intros Hin Hid. induction rows as [|row rows IH]; [destruct Hin|].
  cbn [map find].
  destruct (OTPRecord.id row =? OTPRecord.id self) eqn:E.
  - rewrite Z.eqb_refl. reflexivity.
  - rewrite E. apply IH. destruct Hin as [->|Hin]; [|exact Hin].
    rewrite Hid, Z.eqb_refl in E. discriminate.
Qed.

Lemma stored_attempts_after_save (self r : OTPRecord.t) (db : Store) :
  In r (otp_records db) -> OTPRecord.id r = OTPRecord.id self ->
  stored_attempts (OTPRecord.id r) (db_after_save self db)
  = Some (OTPRecord.attempts self).
Proof.
  intros Hin Hid. unfold stored_attempts, db_after_save. cbn [otp_records with_otp_records].
  rewrite Hid, (find_after_save self r _ Hin Hid). reflexivity.
Qed.

(** ** The attempt ceiling (C2) *)

(** After the fourth wrong code the caller is told that one attempt
    remains. *)
Example fourth_failure_promises_one_more :
  verify (minutes 1) (demo_otp registration 3) "000000" (demo_ledger registration 3)
  = Ok ((false, "Invalid OTP. 1 attempts remaining"), demo_otp registration 4)
       (demo_ledger registration 4).
Proof. reflexivity. Qed.

(** C2, at the failing input. The record found is unverified, unexpired and
    its counter (4) is below the ceiling (5) before the call, and the
    submitted code is the stored one; claim C2 has the call succeed.
    [verify_otp] answers with the combined failure and writes nothing. *)
Theorem C2_last_allowed_attempt_rejected :
  let P := demo_platform false in
  let r := demo_otp registration 4 in
  let db := demo_ledger registration 4 in
  let now := minutes 1 in
  latest_unverified P "a@b.com" registration db = Some r
  /\ OTPRecord.is_verified r = false
  /\ is_expired now r = false
  /\ OTPRecord.attempts r < OTPRecord.max_attempts r
  /\ OTPRecord.otp_code r = "123456"
  /\ verify_otp P now "a@b.com" "123456" registration db
     = (mkResponse HTTP_400_BAD_REQUEST
          (BMessage false "OTP expired or maximum attempts reached"),
        db).
Proof. repeat split. Qed.

(** What does hold of [verify_otp]: a record that is expired or already at
    its ceiling is rejected without a comparison; below the last attempt a
    matching code is accepted and a differing one is counted and answered
    with the remaining attempts. *)
Lemma verify_otp_found (P : Platform) now email code purpose db r :
  VerifyOTPSerializer P email code purpose = Valid (email, code, purpose) ->
  latest_unverified P email purpose db = Some r ->
  verify_otp P now email code purpose db
  = match verify now r code db with
    | Ok ((true, message), _) db' =>
        (mkResponse HTTP_200_OK (BOtpVerified message email true), db')
    | Ok ((false, message), _) db' =>
        (mkResponse HTTP_400_BAD_REQUEST (BMessage false message), db')
    | Raise e db' =>
        (mkResponse HTTP_500_INTERNAL_SERVER_ERROR (BUncaught e), db')
    end.
Proof.
  intros Hs Hl. unfold verify_otp, run_view, try_except. rewrite Hs.
  unfold bind at 1. unfold get_db at 1. rewrite Hl. unfold bind.
  destruct (verify now r code db) as [[[[] message] self] db'|e db']; reflexivity.
Qed.

Lemma verify_otp_cases (P : Platform) now email code purpose db r :
  VerifyOTPSerializer P email code purpose = Valid (email, code, purpose) ->
  latest_unverified P email purpose db = Some r ->
  (is_expired now r = true \/ OTPRecord.max_attempts r <= OTPRecord.attempts r ->
   verify_otp P now email code purpose db
   = (mkResponse HTTP_400_BAD_REQUEST
        (BMessage false "OTP expired or maximum attempts reached"), db))
  /\ (is_valid now (counted r) = true -> OTPRecord.otp_code r = code ->
      verify_otp P now email code purpose db
      = (mkResponse HTTP_200_OK (BOtpVerified "OTP verified successfully" email true),
         db_after_save (marked_verified now r) db))
  /\ (is_valid now (counted r) = true -> OTPRecord.otp_code r <> code ->
      verify_otp P now email code purpose db
      = (mkResponse HTTP_400_BAD_REQUEST
           (BMessage false
              ("Invalid OTP. "
               ++ Py.str (OTPRecord.max_attempts r - (OTPRecord.attempts r + 1))
               ++ " attempts remaining")),
         db_after_save (counted r) db)).
Proof.
  intros Hs Hl. rewrite (verify_otp_found P now _ _ _ _ _ Hs Hl).
  repeat split.
  - intros H. rewrite (verify_rejects_expired_or_exhausted _ _ _ _ H). reflexivity.
  - intros H Hc. rewrite (verify_accepts _ _ _ _ H Hc). reflexivity.
  - intros H Hc. rewrite (verify_mismatch _ _ _ _ H Hc). reflexivity.
Qed.

(** ** The stored attempt counter (C3) *)

Lemma verify_reset_otp_found (P : Platform) now email code db r :
  VerifyResetOTPSerializer P email code = Valid (email, code) ->
  latest_unverified P (Py.lower email) password_reset db = Some r ->
  verify_reset_otp P now email code db
  = if is_expired now r then
      (mkResponse HTTP_400_BAD_REQUEST
         (BMessage false "OTP has expired. Please request a new one."), db)
    else if OTPRecord.max_attempts r <=? OTPRecord.attempts r then
      (mkResponse HTTP_400_BAD_REQUEST
         (BMessage false
            "Maximum verification attempts exceeded. Please request a new OTP."), db)
    else
      match verify now r code db with
      | Ok ((true, _), _) db' =>
          (mkResponse HTTP_200_OK
             (BResetVerified
                "OTP verified successfully. You can now reset your password."
                (Py.lower email)), db')
      | Ok ((false, message), _) db' =>
          (mkResponse HTTP_400_BAD_REQUEST (BMessage false message), db')
      | Raise e db' =>
          (mkResponse HTTP_500_INTERNAL_SERVER_ERROR
             (BMessage false "An error occurred during verification"), db')
      end.
Proof.
  intros Hs Hl. unfold verify_reset_otp, try_except. rewrite Hs.
  unfold bind at 1. unfold get_db at 1. rewrite Hl.
  destruct (is_expired now r); [reflexivity|].
  destruct (OTPRecord.max_attempts r <=? OTPRecord.attempts r); [reflexivity|].
  unfold bind.
  destruct (verify now r code db) as [[[[] message] self] db'|e db']; reflexivity.
Qed.

(** A call that passes the gate of [verify] leaves the raised counter in
    the database, whether the code matched or not. *)
Lemma verify_valid_stores_count now r code db :
  In r (otp_records db) ->
  is_valid now (counted r) = true ->
  exists res self db',
    verify now r code db = Ok (res, self) db'
    /\ stored_attempts (OTPRecord.id r) db' = Some (OTPRecord.attempts r + 1).
Proof.
  intros Hin Hv. destruct (String.eqb_spec (OTPRecord.otp_code r) code) as [Hc|Hc].
  - rewrite (verify_accepts _ _ _ _ Hv Hc). do 3 eexists. split; [reflexivity|].
    apply (stored_attempts_after_save (marked_verified now r) r db Hin). reflexivity.
  - rewrite (verify_mismatch _ _ _ _ Hv Hc). do 3 eexists. split; [reflexivity|].
    apply (stored_attempts_after_save (counted r) r db Hin). reflexivity.
Qed.

(** C3 as stated fails on the reset path: a call that finds an unverified
    but expired record is turned away by the view's own expiry check and the
    stored counter stays where it was. *)
Lemma C3_expired_reset_call_not_counted :
  let P := demo_platform false in
  let r := demo_otp password_reset 0 in
  let db := demo_ledger password_reset 0 in
  let now := minutes 6 in
  latest_unverified P "a@b.com" password_reset db = Some r
  /\ stored_attempts (OTPRecord.id r) db = Some 0
  /\ verify_reset_otp P now "a@b.com" "123456" db
     = (mkResponse HTTP_400_BAD_REQUEST
          (BMessage false "OTP has expired. Please request a new one."), db)
  /\ stored_attempts (OTPRecord.id r)
       (snd (verify_reset_otp P now "a@b.com" "123456" db)) <> Some (0 + 1).
Proof. repeat split. discriminate. Qed.

(** C3, amended. A verify call that finds an unverified record which is
    unexpired and stays under its ceiling once this call is counted leaves
    the stored counter exactly one higher, on the registration path and on
    the reset path, whether or not the code matches; on the reset path a
    call that finds a record already expired or already at its ceiling is
    answered by the view's guards and changes nothing. *)
Theorem C3_counter_raised_on_valid_calls :
  forall (P : Platform) (now : Z) (email code : string) (purpose : Purpose)
         (db : Store) (r : OTPRecord.t),
    (VerifyOTPSerializer P email code purpose = Valid (email, code, purpose) ->
     latest_unverified P email purpose db = Some r ->
     is_valid now (counted r) = true ->
     stored_attempts (OTPRecord.id r) (snd (verify_otp P now email code purpose db))
     = Some (OTPRecord.attempts r + 1))
    /\ (VerifyResetOTPSerializer P email code = Valid (email, code) ->
        latest_unverified P (Py.lower email) password_reset db = Some r ->
        is_valid now (counted r) = true ->
        stored_attempts (OTPRecord.id r) (snd (verify_reset_otp P now email code db))
        = Some (OTPRecord.attempts r + 1))
    /\ (VerifyResetOTPSerializer P email code = Valid (email, code) ->
        latest_unverified P (Py.lower email) password_reset db = Some r ->
        is_expired now r = true \/ OTPRecord.max_attempts r <= OTPRecord.attempts r ->
        status (fst (verify_reset_otp P now email code db)) = HTTP_400_BAD_REQUEST
        /\ snd (verify_reset_otp P now email code db) = db).
Proof.
  intros P now email code purpose db r. repeat split.
  - intros Hs Hl Hv. rewrite (verify_otp_found P now _ _ _ _ _ Hs Hl).
    apply latest_unverified_Some in Hl. destruct Hl as [Hin _].
    destruct (verify_valid_stores_count now r code db Hin Hv)
      as [[[] message] [self [db' [E Hst]]]]; rewrite E; exact Hst.
  - intros Hs Hl Hv. rewrite (verify_reset_otp_found P now _ _ _ _ Hs Hl).
    pose proof Hv as Hv'. rewrite is_valid_counted in Hv'.
    apply andb_true_iff in Hv'. destruct Hv' as [Hv' Hlt].
    apply andb_true_iff in Hv'. destruct Hv' as [_ Hexp].
    apply negb_true_iff in Hexp. rewrite Hexp.
    apply Z.ltb_lt in Hlt.
    replace (OTPRecord.max_attempts r <=? OTPRecord.attempts r) with false
      by (symmetry; apply Z.leb_gt; lia).
    apply latest_unverified_Some in Hl. destruct Hl as [Hin _].
    destruct (verify_valid_stores_count now r code db Hin Hv)
      as [[[] message] [self [db' [E Hst]]]]; rewrite E; exact Hst.
  - rewrite (verify_reset_otp_found P now _ _ _ _ H H0).
    destruct (is_expired now r); [reflexivity|].
    destruct H1 as [H1|H1]; [discriminate|].
    apply Z.leb_le in H1. rewrite H1. reflexivity.
  - rewrite (verify_reset_otp_found P now _ _ _ _ H H0).
    destruct (is_expired now r); [reflexivity|].
    destruct H1 as [H1|H1]; [discriminate|].
    apply Z.leb_le in H1. rewrite H1. reflexivity.
Qed.

Lemma C3_counter_raised_witness :
  let P := demo_platform false in
  stored_attempts 1
    (snd (verify_otp P (minutes 1) "a@b.com" "123456" registration
            (demo_ledger registration 0))) = Some (0 + 1)
  /\ stored_attempts 1
       (snd (verify_reset_otp P (minutes 1) "a@b.com" "654321"
               (demo_ledger password_reset 2))) = Some (2 + 1)
  /\ (status (fst (verify_reset_otp P (minutes 1) "a@b.com" "123456"
                     (demo_ledger password_reset 5))) = HTTP_400_BAD_REQUEST
      /\ snd (verify_reset_otp P (minutes 1) "a@b.com" "123456"
                (demo_ledger password_reset 5)) = demo_ledger password_reset 5).
Proof.
  intros P. split; [|split].
  - apply (proj1 (C3_counter_raised_on_valid_calls P (minutes 1) "a@b.com" "123456"
                    registration (demo_ledger registration 0)
                    (demo_otp registration 0))); reflexivity.
  - apply (proj1 (proj2 (C3_counter_raised_on_valid_calls P (minutes 1) "a@b.com"
                    "654321" registration (demo_ledger password_reset 2)
                    (demo_otp password_reset 2)))); reflexivity.
  - apply (proj2 (proj2 (C3_counter_raised_on_valid_calls P (minutes 1) "a@b.com"
                    "123456" registration (demo_ledger password_reset 5)
                    (demo_otp password_reset 5)))); try reflexivity.
    right. cbn. lia.
Defined.

(** ** Issue supersedes (C4) *)

Lemma for_pair_refl email purpose code now exp ip tu tf tl pk v n m va :
  for_pair email purpose
           (OTPRecord.mk pk email code purpose v n m now exp va ip tu tf tl) = true.
Proof.
  unfold for_pair. cbn. rewrite String.eqb_refl. destruct purpose; reflexivity.
Qed.

Lemma sole_first_desc {A} (nulls_first : bool) (key : A -> option Z)
      (f : A -> bool) (o : A) (rows : list A) :
  sole f o rows -> ORM.first_desc nulls_first key (filter f rows) = Some o.
Proof.
  intros [Hin [Hf Hall]].
  destruct (ORM.first_desc nulls_first key (filter f rows)) as [x|] eqn:E.
  - apply first_desc_In in E. apply filter_In in E. destruct E as [Hx Hfx].
    rewrite (Hall x Hx Hfx). reflexivity.
  - apply first_desc_None in E.
    assert (In o (filter f rows)) as Ho by (apply filter_In; auto).
    rewrite E in Ho. destruct Ho.
Qed.

Lemma sole_latest_unverified (P : Platform) email purpose o db :
  sole (unverified_for email purpose) o (otp_records db) ->
  latest_unverified P email purpose db = Some o.
Proof. intros H. unfold latest_unverified. apply (sole_first_desc _ _ _ _ _ H). Qed.

(** Saving a changed copy of the sole unverified row keeps it the sole one. *)
Lemma sole_after_save email purpose (o o' : OTPRecord.t) (db : Store) :
  sole (unverified_for email purpose) o (otp_records db) ->
  OTPRecord.id o' = OTPRecord.id o ->
  unverified_for email purpose o' = true ->
  sole (unverified_for email purpose) o' (otp_records (db_after_save o' db)).
Proof.
  intros [Hin [Hf Hall]] Hid Hf'. unfold db_after_save. cbn [otp_records with_otp_records].
  repeat split.
  - apply in_map_iff. exists o. split; [|exact Hin].
    rewrite Hid, Z.eqb_refl. reflexivity.
  - exact Hf'.
  - intros x Hx Hfx. apply in_map_iff in Hx. destruct Hx as [row [Hrow Hrin]].
    destruct (OTPRecord.id row =? OTPRecord.id o') eqn:E.
    + symmetry. exact Hrow.
    + subst x. rewrite (Hall row Hrin Hfx), Hid, Z.eqb_refl in E. discriminate.
Qed.

(** Issue, step by step: every earlier row of the pair is flagged verified,
    the other rows are untouched, and the fresh row is appended. *)
Lemma create_otp_steps now code email purpose validity ip tu tf tl db :
  let otp := OTPRecord.mk (otp_seq db) email code purpose false 0 5 now
                          (now + minutes validity) None ip tu tf tl in
  create_otp now code email purpose validity ip tu tf tl db
  = Ok otp (with_otp_records
              (map (supersede email purpose) (otp_records db) ++ [otp])%list
              db (otp_seq db + 1)).
Proof.
  cbv zeta. unfold create_otp. do 3 f_equal. apply map_ext. intros r.
  unfold supersede. destruct (for_pair email purpose r); [|reflexivity].
  destruct (OTPRecord.is_verified r) eqn:E; [|reflexivity].
  cbn. destruct r; cbn in *. subst. reflexivity.
Qed.

Lemma supersede_not_unverified email purpose r :
  unverified_for email purpose (supersede email purpose r) = false.
Proof.
  unfold unverified_for, supersede.
  destruct (for_pair email purpose r) eqn:E.
  - replace (for_pair email purpose (OTPRecord.with_is_verified true r)) with true
      by (symmetry; exact E).
    reflexivity.
  - rewrite E. reflexivity.
Qed.

Lemma create_otp_sole now code email purpose validity ip tu tf tl db otp db' :
  create_otp now code email purpose validity ip tu tf tl db = Ok otp db' ->
  sole (unverified_for email purpose) otp (otp_records db').
Proof.
  rewrite create_otp_steps. intros H. injection H as <- <-.
  cbn [otp_records with_otp_records]. repeat split.
  - apply in_or_app. right. left. reflexivity.
  - unfold unverified_for. rewrite for_pair_refl. reflexivity.
  - intros x Hx Hfx. apply in_app_or in Hx. destruct Hx as [Hx|[Hx|[]]].
    + apply in_map_iff in Hx. destruct Hx as [r [<- _]].
      rewrite supersede_not_unverified in Hfx. discriminate.
    + symmetry. exact Hx.
Qed.

Lemma filter_length_le {A} (f g : A -> bool) (l : list A) :
  (forall x, f x = true -> g x = true) ->
  (List.length (filter f l) <= List.length (filter g l))%nat.
Proof.
  intros H. induction l as [|a l IH]; [apply Nat.le_refl|].
  cbn [filter]. destruct (f a) eqn:Ef.
  - rewrite (H a Ef). cbn [List.length]. apply le_n_S, IH.
  - destruct (g a); cbn [List.length]; [apply Nat.le_trans with (1 := IH)|]; auto.
Qed.

Lemma create_otp_unverified_rows now code email purpose validity ip tu tf tl db otp db' :
  create_otp now code email purpose validity ip tu tf tl db = Ok otp db' ->
  filter (unverified_for email purpose) (otp_records db') = [otp].
Proof.
  rewrite create_otp_steps. intros H. injection H as <- <-.
  cbn [otp_records with_otp_records]. rewrite filter_app.
  replace (filter _ (map _ (otp_records db))) with (@nil OTPRecord.t).
  - cbn [filter app]. unfold unverified_for at 1. rewrite for_pair_refl. reflexivity.
  - symmetry. apply filter_nil_iff. intros x Hx.
    apply in_map_iff in Hx. destruct Hx as [r [<- _]].
    apply supersede_not_unverified.
Qed.

(** After any Issue at most one record of the pair is Live, at any time. *)
Lemma create_otp_live_count now code email purpose validity ip tu tf tl db otp db' :
  create_otp now code email purpose validity ip tu tf tl db = Ok otp db' ->
  forall t, (live_count t email purpose db' <= 1)%nat.
Proof.
  intros H t. unfold live_count.
  apply Nat.le_trans
    with (List.length (filter (unverified_for email purpose) (otp_records db'))).
  - apply filter_length_le. intros x Hx. unfold unverified_for.
    apply andb_true_iff in Hx. destruct Hx as [Hp Hl]. rewrite Hp.
    unfold Live, is_valid in Hl. apply andb_true_iff in Hl. destruct Hl as [Hl _].
    apply andb_true_iff in Hl. destruct Hl as [Hl _]. exact Hl.
  - rewrite (create_otp_unverified_rows _ _ _ _ _ _ _ _ _ _ _ _ H). apply Nat.le_refl.
Qed.

Section BackToBack.
Variables (P : Platform) (email : string) (purpose : Purpose).
Variables (now1 now2 validity1 validity2 : Z) (code1 code2 : string).
Variables (ip1 tu1 tf1 tl1 ip2 tu2 tf2 tl2 : option string).
Variable db : Store.

Let issue1 := create_otp now1 code1 email purpose validity1 ip1 tu1 tf1 tl1.
Let issue2 := create_otp now2 code2 email purpose validity2 ip2 tu2 tf2 tl2.
Let db1 := db_after issue1 db.
Let db2 := db_after issue2 db1.
Let otp2 :=
  OTPRecord.mk (otp_seq db1) email code2 purpose false 0 5 now2
               (now2 + minutes validity2) None ip2 tu2 tf2 tl2.

Lemma second_issue : issue2 db1 = Ok otp2 db2.
Proof.
  unfold db2, db_after, issue2. rewrite create_otp_steps. reflexivity.
Qed.

Lemma second_is_sole : sole (unverified_for email purpose) otp2 (otp_records db2).
Proof. exact (create_otp_sole _ _ _ _ _ _ _ _ _ _ _ _ second_issue). Qed.

(** The first record, as the second Issue leaves it. *)
Lemma first_is_superseded :
  exists otp1,
    In otp1 (otp_records db2)
    /\ OTPRecord.id otp1 = otp_seq db
    /\ OTPRecord.otp_code otp1 = code1
    /\ for_pair email purpose otp1 = true
    /\ OTPRecord.is_verified otp1 = true.
Proof.
  unfold db2, db_after, issue2. rewrite create_otp_steps.
  cbn [otp_records with_otp_records].
  unfold db1, db_after, issue1. rewrite create_otp_steps.
  cbn [otp_records with_otp_records].
  eexists. split.
  - apply in_or_app. left. rewrite map_app. apply in_or_app. right. left. reflexivity.
  - unfold supersede. rewrite for_pair_refl. cbn.
    repeat split. apply for_pair_refl.
Qed.

Hypothesis code1_ok : VerifyOTPSerializer P email code1 purpose = Valid (email, code1, purpose).
Hypothesis code2_ok : VerifyOTPSerializer P email code2 purpose = Valid (email, code2, purpose).
Hypothesis codes_differ : code1 <> code2.

Lemma first_code_fails t1 :
  t1 <= now2 + minutes validity2 ->
  verify_otp P t1 email code1 purpose db2
  = (mkResponse HTTP_400_BAD_REQUEST (BMessage false "Invalid OTP. 4 attempts remaining"),
     db_after_save (counted otp2) db2).
Proof.
  intros Ht.
  pose proof (sole_latest_unverified P _ _ _ _ second_is_sole) as Hl.
  destruct (verify_otp_cases P t1 _ _ _ _ _ code1_ok Hl) as [_ [_ H]].
  rewrite H; [reflexivity| |].
  - rewrite is_valid_counted. unfold is_expired. cbn.
    replace (now2 + minutes validity2 <? t1) with false
      by (symmetry; apply Z.ltb_ge; lia).
    reflexivity.
  - cbn. intros E. apply codes_differ. symmetry. exact E.
Qed.

Lemma second_code_succeeds_after t2 :
  t2 <= now2 + minutes validity2 ->
  verify_otp P t2 email code2 purpose (db_after_save (counted otp2) db2)
  = (mkResponse HTTP_200_OK (BOtpVerified "OTP verified successfully" email true),
     db_after_save (marked_verified t2 (counted otp2))
                   (db_after_save (counted otp2) db2)).
Proof.
  intros Ht.
  assert (sole (unverified_for email purpose) (counted otp2)
               (otp_records (db_after_save (counted otp2) db2))) as Hs.
  { apply sole_after_save with (o := otp2); [exact second_is_sole|reflexivity|].
    unfold unverified_for.
    change (for_pair email purpose (counted otp2))
      with (for_pair email purpose otp2).
    unfold otp2. rewrite for_pair_refl. reflexivity. }
  pose proof (sole_latest_unverified P _ _ _ _ Hs) as Hl.
  destruct (verify_otp_cases P t2 _ _ _ _ _ code2_ok Hl) as [_ [H _]].
  apply H; [|reflexivity].
  rewrite is_valid_counted. unfold is_expired. cbn.
  replace (now2 + minutes validity2 <? t2) with false
    by (symmetry; apply Z.ltb_ge; lia).
  reflexivity.
Qed.

Lemma second_code_succeeds t2 :
  t2 <= now2 + minutes validity2 ->
  verify_otp P t2 email code2 purpose db2
  = (mkResponse HTTP_200_OK (BOtpVerified "OTP verified successfully" email true),
     db_after_save (marked_verified t2 otp2) db2).
Proof.
  intros Ht.
  pose proof (sole_latest_unverified P _ _ _ _ second_is_sole) as Hl.
  destruct (verify_otp_cases P t2 _ _ _ _ _ code2_ok Hl) as [_ [H _]].
  apply H; [|reflexivity].
  rewrite is_valid_counted. unfold is_expired. cbn.
  replace (now2 + minutes validity2 <? t2) with false
    by (symmetry; apply Z.ltb_ge; lia).
  reflexivity.
Qed.
End BackToBack.

(** C4. Issue first flags every earlier record of the pair verified (the
    other records stay as they are) and then appends the fresh, unverified
    record, so that after any Issue at most one record of the pair is Live;
    and after two Issues in a row the first record is flagged verified and
    rejects every code, a verify call with the first code fails, and a
    verify call with the second code succeeds, directly or after that
    failure. *)
Theorem C4_issue_supersedes :
  forall (P : Platform) (email : string) (purpose : Purpose)
         (now1 now2 validity1 validity2 : Z) (code1 code2 : string)
         (ip1 tu1 tf1 tl1 ip2 tu2 tf2 tl2 : option string) (db : Store),
    let issue1 := create_otp now1 code1 email purpose validity1 ip1 tu1 tf1 tl1 in
    let issue2 := create_otp now2 code2 email purpose validity2 ip2 tu2 tf2 tl2 in
    let db1 := db_after issue1 db in
    let db2 := db_after issue2 db1 in
    (exists otp1,
        issue1 db = Ok otp1 db1
        /\ otp_records db1
           = (map (supersede email purpose) (otp_records db) ++ [otp1])%list
        /\ (forall r, for_pair email purpose r = true ->
                      OTPRecord.is_verified (supersede email purpose r) = true)
        /\ (forall r, for_pair email purpose r = false ->
                      supersede email purpose r = r)
        /\ OTPRecord.is_verified otp1 = false
        /\ OTPRecord.attempts otp1 = 0
        /\ OTPRecord.otp_code otp1 = code1
        /\ OTPRecord.expires_at otp1 = now1 + minutes validity1)
    /\ (forall t, (live_count t email purpose db1 <= 1)%nat)
    /\ (forall t, (live_count t email purpose db2 <= 1)%nat)
    /\ (exists otp1',
          In otp1' (otp_records db2)
          /\ OTPRecord.id otp1' = otp_seq db
          /\ OTPRecord.otp_code otp1' = code1
          /\ OTPRecord.is_verified otp1' = true
          /\ forall t c,
               verify t otp1' c db2
               = Ok ((false, "OTP expired or maximum attempts reached"), counted otp1')
                    db2)
    /\ (VerifyOTPSerializer P email code1 purpose = Valid (email, code1, purpose) ->
        VerifyOTPSerializer P email code2 purpose = Valid (email, code2, purpose) ->
        code1 <> code2 ->
        forall t1 t2,
          t1 <= now2 + minutes validity2 ->
          t2 <= now2 + minutes validity2 ->
          fst (verify_otp P t1 email code1 purpose db2)
          = mkResponse HTTP_400_BAD_REQUEST
                       (BMessage false "Invalid OTP. 4 attempts remaining")
          /\ fst (verify_otp P t2 email code2 purpose db2)
             = mkResponse HTTP_200_OK
                          (BOtpVerified "OTP verified successfully" email true)
          /\ fst (verify_otp P t2 email code2 purpose
                             (snd (verify_otp P t1 email code1 purpose db2)))
             = mkResponse HTTP_200_OK
                          (BOtpVerified "OTP verified successfully" email true)).
Proof.
  intros P email purpose now1 now2 validity1 validity2 code1 code2
         ip1 tu1 tf1 tl1 ip2 tu2 tf2 tl2 db issue1 issue2 db1 db2.
  assert (exists otp1, issue1 db = Ok otp1 db1
                       /\ otp1 = OTPRecord.mk (otp_seq db) email code1 purpose false 0 5
                                              now1 (now1 + minutes validity1) None
                                              ip1 tu1 tf1 tl1) as [otp1 [H1 Hotp1]].
  { eexists. split; [|reflexivity].
    unfold db1, db_after, issue1. rewrite create_otp_steps. reflexivity. }
  assert (exists otp2, issue2 db1 = Ok otp2 db2) as [otp2 H2].
  { eexists. unfold db2, db_after, issue2. rewrite create_otp_steps. reflexivity. }
  split; [|split; [|split; [|split]]].
  - exists otp1. split; [exact H1|]. split.
    + unfold db1, db_after, issue1. rewrite create_otp_steps.
      unfold issue1 in H1. rewrite create_otp_steps in H1.
      injection H1 as <- _. reflexivity.
    + split; [|split].
      * intros r Hr. unfold supersede. rewrite Hr. reflexivity.
      * intros r Hr. unfold supersede. rewrite Hr. reflexivity.
      * subst otp1. repeat split.
  - exact (create_otp_live_count _ _ _ _ _ _ _ _ _ _ _ _ H1).
  - exact (create_otp_live_count _ _ _ _ _ _ _ _ _ _ _ _ H2).
  - destruct (first_is_superseded email purpose now1 now2 validity1 validity2
                code1 code2 ip1 tu1 tf1 tl1 ip2 tu2 tf2 tl2 db)
      as [o [Hin [Hid [Hcode [_ Hv]]]]].
    exists o. repeat split; try assumption.
    intros t c. apply verify_rejects. rewrite is_valid_counted, Hv. reflexivity.
  - intros Hs1 Hs2 Hne t1 t2 Ht1 Ht2. clear H1 H2.
    subst db2 db1 issue2 issue1.
    rewrite (first_code_fails P email purpose now1 now2 validity1 validity2
               code1 code2 ip1 tu1 tf1 tl1 ip2 tu2 tf2 tl2 db Hs1 Hne t1 Ht1).
    rewrite (second_code_succeeds P email purpose now1 now2 validity1 validity2
               code1 code2 ip1 tu1 tf1 tl1 ip2 tu2 tf2 tl2 db Hs2 t2 Ht2).
    cbn [fst snd].
    rewrite (second_code_succeeds_after P email purpose now1 now2 validity1 validity2
               code1 code2 ip1 tu1 tf1 tl1 ip2 tu2 tf2 tl2 db Hs2 t2 Ht2).
    repeat split.
Qed.

Lemma C4_issue_supersedes_witness :
  let P := demo_platform false in
  let staged := Some "alice" in
  let db2 :=
    db_after (create_otp (seconds 40) "222222" "a@b.com" registration 5
                         None staged staged staged)
             (db_after (create_otp 0 "111111" "a@b.com" registration 5
                                   None staged staged staged)
                       empty_store) in
  fst (verify_otp P (minutes 1) "a@b.com" "111111" registration db2)
  = mkResponse HTTP_400_BAD_REQUEST (BMessage false "Invalid OTP. 4 attempts remaining")
  /\ fst (verify_otp P (minutes 2) "a@b.com" "222222" registration db2)
     = mkResponse HTTP_200_OK (BOtpVerified "OTP verified successfully" "a@b.com" true)
  /\ fst (verify_otp P (minutes 2) "a@b.com" "222222" registration
                     (snd (verify_otp P (minutes 1) "a@b.com" "111111" registration db2)))
     = mkResponse HTTP_200_OK (BOtpVerified "OTP verified successfully" "a@b.com" true).
Proof.
  intros P staged db2.
  apply (proj2 (proj2 (proj2 (proj2
           (C4_issue_supersedes P "a@b.com" registration 0 (seconds 40) 5 5
              "111111" "222222" None staged staged staged None staged staged staged
              empty_store))))).
  - reflexivity.
  - reflexivity.
  - apply String.eqb_neq. reflexivity.
  - vm_compute. discriminate.
  - vm_compute. discriminate.
Defined.

(** ** Completing a registration (C1) *)

Lemma email_field_inl (P : Platform) (value v : string) :
  email_field P value = inl v
  <-> v = Py.strip value /\ v <> EmptyString /\ email_syntax_ok P v = true.
Proof.
  unfold email_field. rewrite char_field_plain.
  destruct (Py.strip value) as [|c rest] eqn:E; cbn [and_then].
  - split; [discriminate|]. intros [-> [H _]]. contradiction.
  - destruct (email_syntax_ok P (String c rest)) eqn:Es; split.
    + intros H. injection H as <-. repeat split; [discriminate|exact Es].
    + intros [-> _]. reflexivity.
    + discriminate.
    + intros [-> [_ H]]. rewrite Es in H. discriminate.
Qed.

Lemma password_field_inl (P : Platform) (value v : string) :
  password_field P value = inl v
  <-> v = Py.strip value /\ v <> EmptyString /\ validate_password P v = [].
Proof.
  unfold password_field. rewrite char_field_plain.
  destruct (Py.strip value) as [|c rest] eqn:E; cbn [and_then].
  - split; [discriminate|]. intros [-> [H _]]. contradiction.
  - destruct (validate_password P (String c rest)) as [|m ms] eqn:Ev; split.
    + intros H. injection H as <-. repeat split; [discriminate|exact Ev].
    + intros [-> _]. reflexivity.
    + discriminate.
    + intros [-> [_ H]]. rewrite Ev in H. discriminate.
Qed.

(** What [PasswordCreationSerializer] passes on: the stripped address and
    the stripped password, and only when the ledger has a verified
    registration record under that address. *)
Lemma PasswordCreationSerializer_Valid (P : Platform) email password confirm db d :
  PasswordCreationSerializer P email password confirm db = Valid d ->
  d = (Py.strip email, Py.strip password)
  /\ exists otp, latest_verified P (Py.strip email) registration db = Some otp.
Proof.
  unfold PasswordCreationSerializer. cbv zeta.
  destruct (email_field P email) as [e|me] eqn:Ee;
    destruct (password_field P password) as [pw|mp] eqn:Ep;
    destruct (char_field None None confirm) as [c|mc] eqn:Ec; try discriminate.
  apply email_field_inl in Ee. destruct Ee as [-> _].
  apply password_field_inl in Ep. destruct Ep as [-> _].
  destruct (negb (String.eqb (Py.strip password) c)); [discriminate|].
  destruct (latest_verified P (Py.strip email) registration db) as [otp|]; [|discriminate].
  intros H. injection H as <-. split; [reflexivity|]. exists otp. reflexivity.
Qed.

(** A request whose fields are in order is refused for the missing record
    alone. *)
Lemma PasswordCreationSerializer_unverified (P : Platform) email password confirm db :
  Py.strip email <> EmptyString ->
  email_syntax_ok P (Py.strip email) = true ->
  Py.strip password <> EmptyString ->
  validate_password P (Py.strip password) = [] ->
  Py.strip confirm = Py.strip password ->
  latest_verified P (Py.strip email) registration db = None ->
  PasswordCreationSerializer P email password confirm db
  = Invalid [("email", ["Email not verified. Please complete OTP verification first"])].
Proof.
  intros He Hsyn Hp Hpw Hc Hnone. unfold PasswordCreationSerializer. cbv zeta.
  rewrite (proj2 (email_field_inl P email (Py.strip email))) by auto.
  rewrite (proj2 (password_field_inl P password (Py.strip password))) by auto.
  rewrite (proj2 (char_field_plain_inl confirm (Py.strip password)))
    by (split; [symmetry; exact Hc|exact Hp]).
  rewrite String.eqb_refl, Hnone. reflexivity.
Qed.

Lemma create_user_Ok (P : Platform) username email first_name last_name password
      db user db' :
  create_user P username email first_name last_name password db = Ok user db' ->
  username = Some (User.username user)
  /\ first_name = Some (User.first_name user)
  /\ last_name = Some (User.last_name user)
  /\ User.email user = normalize_email email
  /\ User.password user = make_password P password
  /\ User.id user = user_seq db
  /\ db' = with_users (users db ++ [user])%list db (user_seq db + 1).
Proof.
  unfold create_user, raise.
  destruct username as [[|c uname]|]; try discriminate.
  destruct first_name as [fn|]; try discriminate.
  destruct last_name as [ln|]; try discriminate.
  destruct (existsb _ (users db)); [discriminate|].
  intros H. injection H as <- <-. repeat split.
Qed.

Lemma create_profile_Ok user verified db p db' :
  create_profile user verified db = Ok p db' ->
  p = UserProfile.mk (User.id user) verified false None None 0
  /\ db' = with_profiles (profiles db ++ [p])%list db.
Proof.
  unfold create_profile.
  destruct (existsb _ (profiles db)); [discriminate|].
  intros H. injection H as <- <-. split; reflexivity.
Qed.

(** The transaction of [create_password], outcome by outcome. *)
Lemma create_password_block_cases (P : Platform) email password db :
  match create_password_block P email password db with
  | Ok resp db' =>
      (latest_verified P email registration db = None
       /\ resp = mkResponse HTTP_400_BAD_REQUEST (BMessage false "Email not verified")
       /\ db' = db)
      \/ (exists otp user profile,
            latest_verified P email registration db = Some otp
            /\ OTPRecord.temp_username otp = Some (User.username user)
            /\ OTPRecord.temp_first_name otp = Some (User.first_name user)
            /\ OTPRecord.temp_last_name otp = Some (User.last_name user)
            /\ User.email user = normalize_email email
            /\ User.password user = make_password P password
            /\ UserProfile.user_id profile = User.id user
            /\ UserProfile.is_email_verified profile = true
            /\ users db' = (users db ++ [user])%list
            /\ profiles db' = (profiles db ++ [profile])%list
            /\ otp_records db' = otp_records db
            /\ resp = mkResponse HTTP_201_CREATED
                        (BRegistered "Registration completed successfully"
                                     (User.username user) (User.email user)))
  | Raise _ db' =>
      db' = db /\ latest_verified P email registration db <> None
  end.
Proof.
  unfold create_password_block, atomic, bind, get_db.
  destruct (latest_verified P email registration db) as [otp|] eqn:El.
  - destruct (create_user P (OTPRecord.temp_username otp) email
                          (OTPRecord.temp_first_name otp)
                          (OTPRecord.temp_last_name otp) password db)
      as [user db1|e db1] eqn:Eu; [|split; [reflexivity|discriminate]].
    destruct (create_profile user true db1) as [profile db2|e db2] eqn:Ep;
      [|split; [reflexivity|discriminate]].
    cbn. right.
    apply create_user_Ok in Eu.
    destruct Eu as [Hu [Hf [Hl [He [Hp [Hid Hdb1]]]]]].
    apply create_profile_Ok in Ep. destruct Ep as [Hprof Hdb2].
    exists otp, user, profile. subst db2 db1. rewrite Hprof at 1 2.
    repeat split; assumption.
  - cbn. left. repeat split.
Qed.

(** C1. [create_password] works on the submitted address and password as
    the serializer passes them on, that is stripped. It reports success
    only when the ledger holds a registration record for the address whose
    verified flag is set, and then exactly one account and one profile were
    added, the account from the fields staged on the record the query ranks
    first and the profile with its e-mail flag set. When the ledger holds
    no such record the transaction answers "Email not verified", the view
    fails and changes nothing, and a request whose fields are otherwise in
    order is refused with the e-mail-not-verified error. Every refusal
    leaves the database as it was. *)
Theorem C1_registration_needs_verified_record :
  forall (P : Platform) (email password confirm_password : string) (db : Store),
    let address := Py.strip email in
    let secret := Py.strip password in
    let r := create_password P email password confirm_password db in
    ((forall otp, In otp (otp_records db) ->
                  for_pair address registration otp = true ->
                  OTPRecord.is_verified otp = false) ->
     create_password_block P address secret db
     = Ok (mkResponse HTTP_400_BAD_REQUEST (BMessage false "Email not verified")) db
     /\ status (fst r) = HTTP_400_BAD_REQUEST
     /\ snd r = db
     /\ (address <> EmptyString ->
         email_syntax_ok P address = true ->
         secret <> EmptyString ->
         validate_password P secret = [] ->
         Py.strip confirm_password = secret ->
         fst r = mkResponse HTTP_400_BAD_REQUEST
                   (BErrors
                      [("email",
                        ["Email not verified. Please complete OTP verification first"])])))
    /\ (succeeded (fst r) = true ->
        exists otp user profile,
          latest_verified P address registration db = Some otp
          /\ In otp (otp_records db)
          /\ for_pair address registration otp = true
          /\ OTPRecord.is_verified otp = true
          /\ OTPRecord.temp_username otp = Some (User.username user)
          /\ OTPRecord.temp_first_name otp = Some (User.first_name user)
          /\ OTPRecord.temp_last_name otp = Some (User.last_name user)
          /\ User.email user = normalize_email address
          /\ User.password user = make_password P secret
          /\ UserProfile.user_id profile = User.id user
          /\ UserProfile.is_email_verified profile = true
          /\ users (snd r) = (users db ++ [user])%list
          /\ profiles (snd r) = (profiles db ++ [profile])%list
          /\ fst r = mkResponse HTTP_201_CREATED
                       (BRegistered "Registration completed successfully"
                                    (User.username user) (User.email user)))
    /\ (succeeded (fst r) = false -> snd r = db).
Proof.
  intros P email password confirm db address secret r.
  assert (forall d, PasswordCreationSerializer P email password confirm db = Valid d ->
                    r = try_except (create_password_block P address secret)
                          (fun _ => mkResponse HTTP_500_INTERNAL_SERVER_ERROR
                                      (BMessage false "An error occurred during registration"))
                          db) as Hvalid.
  { intros d Hd. unfold r, create_password. rewrite Hd.
    apply PasswordCreationSerializer_Valid in Hd. destruct Hd as [-> _]. reflexivity. }
  pose proof (create_password_block_cases P address secret db) as Hblock.
  split; [|split].
  - intros Hnone.
    apply (proj2 (latest_verified_None_iff P address registration db)) in Hnone.
    assert (create_password_block P address secret db
            = Ok (mkResponse HTTP_400_BAD_REQUEST (BMessage false "Email not verified")) db)
      as Hb.
    { destruct (create_password_block P address secret db) as [resp db'|e db'].
      - destruct Hblock as [[_ [-> ->]]|[otp [user [profile [H _]]]]]; [reflexivity|].
        rewrite Hnone in H. discriminate.
      - destruct Hblock as [_ H]. contradiction. }
    split; [exact Hb|].
    assert (exists errors, PasswordCreationSerializer P email password confirm db
                           = Invalid errors) as [errors He].
    { destruct (PasswordCreationSerializer P email password confirm db) as [d|errors] eqn:E.
      - apply PasswordCreationSerializer_Valid in E. destruct E as [_ [otp E]].
        fold address in E. rewrite Hnone in E. discriminate.
      - exists errors. reflexivity. }
    unfold r, create_password. rewrite He. cbn [fst snd status].
    repeat split.
    intros Hne Hsyn Hpne Hpw Hc. f_equal. f_equal.
    rewrite (PasswordCreationSerializer_unverified P email password confirm db
               Hne Hsyn Hpne Hpw Hc Hnone) in He.
    injection He as <-. reflexivity.
  - intros Hs.
    destruct (PasswordCreationSerializer P email password confirm db) as [d|errors] eqn:E.
    + rewrite (Hvalid d eq_refl) in *. unfold try_except in *.
      destruct (create_password_block P address secret db) as [resp db'|e db'].
      * destruct Hblock as [[_ [-> _]]|[otp [user [profile H]]]]; [discriminate Hs|].
        exists otp, user, profile.
        destruct H as [Hl [Hu [Hf [Hln [He [Hp [Hid [Hv [Hus [Hps [_ Hr]]]]]]]]]]].
        destruct (latest_verified_Some P _ _ _ _ Hl) as [Hin [Hpair Hver]].
        cbn [fst snd]. repeat split; assumption.
      * discriminate Hs.
    + unfold r, create_password in Hs. rewrite E in Hs. discriminate Hs.
  - intros Hs.
    destruct (PasswordCreationSerializer P email password confirm db) as [d|errors] eqn:E.
    + rewrite (Hvalid d eq_refl) in *. unfold try_except in *.
      destruct (create_password_block P address secret db) as [resp db'|e db'].
      * destruct Hblock as [[_ [_ ->]]|[otp [user [profile H]]]]; [reflexivity|].
        destruct H as [_ [_ [_ [_ [_ [_ [_ [_ [_ [_ [_ Hr]]]]]]]]]]].
        rewrite Hr in Hs. discriminate Hs.
      * destruct Hblock as [-> _]. reflexivity.
    + unfold r, create_password. rewrite E. reflexivity.
Qed.

Lemma C1_registration_witness :
  let P := demo_platform false in
  (status (fst (create_password P "new@b.com" strong_password strong_password
                                verified_ledger)) = HTTP_400_BAD_REQUEST
   /\ snd (create_password P "new@b.com" strong_password strong_password verified_ledger)
      = verified_ledger)
  /\ (exists user profile,
        User.username user = "alice"
        /\ User.password user = "hash$Tr0ub4dor&3"
        /\ UserProfile.is_email_verified profile = true
        /\ users (snd (create_password P " a@b.com" "Tr0ub4dor&3 " strong_password
                                       verified_ledger)) = [user]
        /\ profiles (snd (create_password P " a@b.com" "Tr0ub4dor&3 " strong_password
                                          verified_ledger)) = [profile]).
Proof.
  intros P. split.
  - destruct (proj1 (C1_registration_needs_verified_record
                       P "new@b.com" strong_password strong_password verified_ledger))
      as [_ [Hst [Hdb _]]].
    + intros otp [<-|[]] H. discriminate H.
    + split; [exact Hst|exact Hdb].
  - destruct (proj1 (proj2 (C1_registration_needs_verified_record
                       P " a@b.com" "Tr0ub4dor&3 " strong_password verified_ledger)))
      as [otp [user [profile H]]].
    + reflexivity.
    + destruct H as [Hl [_ [_ [_ [Hu [_ [_ [_ [Hpw [_ [Hv [Hus [Hps _]]]]]]]]]]]]].
      exists user, profile.
      assert (otp = verified_registration) as ->
          by (vm_compute in Hl; injection Hl as <-; reflexivity).
      cbn in Hu. injection Hu as Hu.
      repeat split; [symmetry; exact Hu|exact Hpw|exact Hv|exact Hus|exact Hps].
Defined.

(** The password is validated, and compared with its confirmation, once
    stripped: seven characters and a trailing blank do not make eight. *)
Example create_password_strips_before_validating :
  create_password (demo_platform false) "a@b.com" "Abcde1! " "Abcde1! " verified_ledger
  = (mkResponse HTTP_400_BAD_REQUEST
       (BErrors [("password", ["Password must be at least 8 characters long"])]),
     verified_ledger)
  /\ status (fst (create_password (demo_platform false) "a@b.com " "Tr0ub4dor&3 "
                                  "Tr0ub4dor&3" verified_ledger))
     = HTTP_201_CREATED.
Proof. split; reflexivity. Qed.

(** ** Requesting a reset (C5) *)

(** The call in [request_password_reset] names parameters the function does
    not have, and leaves out two it requires. *)
Lemma reset_request_call_does_not_bind :
  binds send_otp_to_service_params send_otp_to_service_required reset_request_keywords
  = false.
Proof. reflexivity. Qed.

(** The calls of the registration views do bind. *)
Example registration_call_binds :
  binds send_otp_to_service_params send_otp_to_service_required
        ["email"; "otp_code"; "user_data"; "purpose"] = true.
Proof. reflexivity. Qed.

(** So no request for a reset is ever answered with success. *)
Lemma request_password_reset_never_succeeds (P : Platform) now code delivery
      identifier ip db :
  status (fst (request_password_reset P now code delivery identifier ip db))
  <> HTTP_200_OK.
Proof.
  unfold request_password_reset, try_except, bind, get_db.
  destruct (RequestPasswordResetSerializer identifier db) as [ident|errors];
    [|cbn; discriminate].
  destruct (user_by_identifier (Py.strip (Py.lower ident)) db) as [user|];
    [|cbn; discriminate].
  destruct (ORM.first_desc _ _ _) as [recent|]; [cbn; discriminate|].
  rewrite create_otp_steps. cbn. discriminate.
Qed.

(** C5, at the failing input. The identifier names an account whose e-mail
    is verified and no reset passcode was ever issued for it; claim C5 has
    the request succeed with the masked address and the remaining validity.
    The view issues the passcode with its ten-minute validity, and then
    answers 500: its call of [send_otp_to_service] raises [TypeError]. *)
Theorem C5_reset_request_fails_after_issuing :
  let P := demo_platform false in
  let now := minutes 100 in
  let issued :=
    OTPRecord.mk 1 "alice@example.com" "123456" password_reset false 0 5 now
                 (now + minutes 10) None (Some "10.0.0.1")
                 (Some "alice") (Some "Alice") (Some "Liddell") in
  RequestPasswordResetSerializer "alice" alice_store = Valid "alice"
  /\ user_by_identifier "alice" alice_store = Some alice
  /\ profile_of alice alice_store = Some alice_profile
  /\ UserProfile.is_email_verified alice_profile = true
  /\ otp_records alice_store = []
  /\ request_password_reset P now "123456" (true, "OTP sent successfully") "alice"
                            (Some "10.0.0.1") alice_store
     = (mkResponse HTTP_500_INTERNAL_SERVER_ERROR
          (BMessage false "An error occurred. Please try again."),
        mkStore [alice] [alice_profile] [issued] [] 2 2).
Proof. repeat split. Qed.

(** ** Resetting the password (C6, C7) *)

Lemma fold_max_upper (rest : list Z) (t x : Z) :
  x = t \/ In x rest -> x <= fold_left Z.max rest t.
Proof.
  revert t x. induction rest as [|y rest IH]; intros t x H; cbn [fold_left].
  - destruct H as [->|[]]. apply Z.le_refl.
  - destruct H as [->|[->|Hin]].
    + apply Z.le_trans with (Z.max t y); [apply Z.le_max_l|].
      apply IH. left. reflexivity.
    + apply Z.le_trans with (Z.max t x); [apply Z.le_max_r|].
      apply IH. left. reflexivity.
    + apply IH. right. exact Hin.
Qed.

Lemma most_recent_bound (times : list Z) (m x : Z) :
  most_recent times = Some m -> In x times -> x <= m.
Proof.
  destruct times as [|t rest]; [discriminate|]. cbn [most_recent].
  intros H Hin. injection H as <-. apply fold_max_upper.
  destruct Hin as [->|Hin]; [left; reflexivity|right; exact Hin].
Qed.

Lemma verified_times_In email purpose db r t :
  In r (otp_records db) -> for_pair email purpose r = true ->
  OTPRecord.is_verified r = true -> OTPRecord.verified_at r = Some t ->
  In t (verified_times email purpose db).
Proof.
  intros Hin Hp Hv Ht. unfold verified_times. apply in_flat_map.
  exists r. split; [exact Hin|]. rewrite Hp, Hv, Ht. left. reflexivity.
Qed.

(** What it takes for [ResetPasswordSerializer] to pass: the fields are
    stripped, and the record is looked up under the stripped address. *)
Lemma ResetPasswordSerializer_cases (P : Platform) now email new_password confirm db :
  match ResetPasswordSerializer P now email new_password confirm db with
  | Ok (Valid d) db' =>
      db' = db /\ d = (Py.strip email, Py.strip new_password)
      /\ exists otp t,
           latest_verified P (Py.strip email) password_reset db = Some otp
           /\ OTPRecord.verified_at otp = Some t
           /\ now - t <= minutes 15
  | Ok (Invalid _) db' => db' = db
  | Raise _ db' =>
      db' = db
      /\ exists otp,
           latest_verified P (Py.strip email) password_reset db = Some otp
           /\ OTPRecord.verified_at otp = None
  end.
Proof.
  unfold ResetPasswordSerializer. cbv zeta.
  destruct (email_field P email) as [e|me] eqn:Ee;
    destruct (password_field P new_password) as [pw|mp] eqn:Ep;
    destruct (char_field None None confirm) as [c|mc] eqn:Ec; try reflexivity.
  apply email_field_inl in Ee. destruct Ee as [-> _].
  apply password_field_inl in Ep. destruct Ep as [-> _].
  destruct (negb (String.eqb (Py.strip new_password) c)); [reflexivity|].
  destruct (latest_verified P (Py.strip email) password_reset db) as [otp|]; [|reflexivity].
  destruct (OTPRecord.verified_at otp) as [t|] eqn:Et.
  - destruct (Z.ltb_spec (minutes 15) (now - t)); [reflexivity|].
    repeat split. exists otp, t. repeat split; assumption.
  - split; [reflexivity|]. exists otp. split; [reflexivity|exact Et].
Qed.

Lemma ResetPasswordSerializer_passes (P : Platform) now email new_password confirm
      db otp t :
  Py.strip email <> EmptyString ->
  email_syntax_ok P (Py.strip email) = true ->
  Py.strip new_password <> EmptyString ->
  validate_password P (Py.strip new_password) = [] ->
  Py.strip confirm = Py.strip new_password ->
  latest_verified P (Py.strip email) password_reset db = Some otp ->
  OTPRecord.verified_at otp = Some t ->
  now - t <= minutes 15 ->
  ResetPasswordSerializer P now email new_password confirm db
  = Ok (Valid (Py.strip email, Py.strip new_password)) db.
Proof.
  intros He Hsyn Hp Hpw Hc Hl Ht Hwin. unfold ResetPasswordSerializer. cbv zeta.
  rewrite (proj2 (email_field_inl P email (Py.strip email))) by auto.
  rewrite (proj2 (password_field_inl P new_password (Py.strip new_password))) by auto.
  rewrite (proj2 (char_field_plain_inl confirm (Py.strip new_password)))
    by (split; [symmetry; exact Hc|exact Hp]).
  rewrite String.eqb_refl, Hl, Ht.
  replace (minutes 15 <? now - t) with false by (symmetry; apply Z.ltb_ge; exact Hwin).
  reflexivity.
Qed.

Lemma reset_password_unfold (P : Platform) now email new_password confirm db :
  reset_password P now email new_password confirm db
  = match ResetPasswordSerializer P now email new_password confirm db with
    | Ok (Valid (e, p)) db' => reset_after_validation P e p db'
    | Ok (Invalid errors) db' => (mkResponse HTTP_400_BAD_REQUEST (BErrors errors), db')
    | Raise _ db' =>
        (mkResponse HTTP_500_INTERNAL_SERVER_ERROR
           (BMessage false "An error occurred while resetting password"), db')
    end.
Proof.
  unfold reset_password, try_except. unfold bind at 1.
  destruct (ResetPasswordSerializer P now email new_password confirm db)
    as [[[e p]|errors] db'|ex db']; try reflexivity.
  unfold reset_after_validation, bind, get_db.
  destruct (latest_verified P (Py.lower e) password_reset db'); [|reflexivity].
  destruct (ORM.first _); reflexivity.
Qed.

Lemma stored_password_after_set (P : Platform) user raw db :
  In user (users db) ->
  stored_password (User.id user) (db_after (set_password_and_save P user raw) db)
  = Some (make_password P raw).
Proof.
  intros Hin. unfold stored_password, db_after, set_password_and_save.
  cbn [users with_users User.id User.with_password].
  induction (users db) as [|row rows IH]; [destruct Hin|].
  cbn [map find User.id].
  destruct (User.id row =? User.id user) eqn:E.
  - cbn [User.id]. rewrite Z.eqb_refl. reflexivity.
  - rewrite E. apply IH. destruct Hin as [->|Hin]; [|exact Hin].
    rewrite Z.eqb_refl in E. discriminate.
Qed.

Lemma invalidate_marks_all email db r :
  In r (otp_records (db_after (invalidate_reset_otps email) db)) ->
  for_pair email password_reset r = true ->
  OTPRecord.is_verified r = true.
Proof.
  unfold db_after, invalidate_reset_otps. cbn [otp_records with_otp_records].
  intros Hin Hp. apply in_map_iff in Hin. destruct Hin as [row [Hrow _]].
  destruct (for_pair email password_reset row) eqn:E.
  - subst r. reflexivity.
  - subst r. rewrite E in Hp. discriminate.
Qed.

Lemma first_filter_In {A} (f : A -> bool) (rows : list A) (x : A) :
  ORM.first (filter f rows) = Some x -> In x rows /\ f x = true.
Proof.
  unfold ORM.first. intros H. apply filter_In.
  destruct (filter f rows) as [|y l]; [discriminate|].
  injection H as ->. left. reflexivity.
Qed.

(** A reset that succeeds leaves every reset record of the address flagged
    verified. *)
Lemma reset_password_success_marks_all (P : Platform) now email new_password confirm db :
  let r := reset_password P now email new_password confirm db in
  succeeded (fst r) = true ->
  forall x, In x (otp_records (snd r)) ->
            for_pair (Py.lower (Py.strip email)) password_reset x = true ->
            OTPRecord.is_verified x = true.
Proof.
  cbv zeta. rewrite reset_password_unfold.
  pose proof (ResetPasswordSerializer_cases P now email new_password confirm db) as Hc.
  destruct (ResetPasswordSerializer P now email new_password confirm db)
    as [[[e p]|errors] db'|ex db']; try discriminate.
  destruct Hc as [-> [Hd _]]. injection Hd as -> ->.
  unfold reset_after_validation.
  destruct (latest_verified P (Py.lower (Py.strip email)) password_reset db);
    [|discriminate].
  destruct (ORM.first _) as [user|]; [|discriminate].
  intros _ x Hx Hp. exact (invalidate_marks_all _ _ _ Hx Hp).
Qed.

(** The window of [reset_password]. It fails, and changes nothing, whenever
    the most recent verification time among the Verified reset records of
    the (stripped) address lies more than fifteen minutes back. It succeeds,
    storing the new credential, when the address is submitted in lower
    case, the record the query ranks first carries a verification time no
    more than fifteen minutes old, the new password passes the policy and is
    confirmed, and the address belongs to an account. *)
Lemma reset_password_window :
  forall (P : Platform) (now : Z) (email new_password confirm_password : string)
         (db : Store),
    let address := Py.strip email in
    let secret := Py.strip new_password in
    let r := reset_password P now email new_password confirm_password db in
    (forall t,
        most_recent (verified_times address password_reset db) = Some t ->
        minutes 15 < now - t ->
        succeeded (fst r) = false /\ snd r = db)
    /\ (forall otp t user,
           address <> EmptyString ->
           email_syntax_ok P address = true ->
           secret <> EmptyString ->
           validate_password P secret = [] ->
           Py.strip confirm_password = secret ->
           Py.lower address = address ->
           latest_verified P address password_reset db = Some otp ->
           OTPRecord.verified_at otp = Some t ->
           now - t <= minutes 15 ->
           ORM.first (filter (fun u => String.eqb (User.email u) address) (users db))
           = Some user ->
           fst r = mkResponse HTTP_200_OK
                     (BMessage true
                        "Password reset successfully. You can now login with your new password.")
           /\ stored_password (User.id user) (snd r)
              = Some (make_password P secret)).
Proof.
  intros P now email new_password confirm db address secret r. split.
  - intros t Hmax Hold. unfold r. rewrite reset_password_unfold.
    pose proof (ResetPasswordSerializer_cases P now email new_password confirm db) as Hc.
    destruct (ResetPasswordSerializer P now email new_password confirm db)
      as [[[e p]|errors] db'|ex db'].
    + exfalso. destruct Hc as [_ [_ [otp [t' [Hl [Ht' Hwin]]]]]].
      destruct (latest_verified_Some P _ _ _ _ Hl) as [Hin [Hp Hv]].
      pose proof (most_recent_bound _ _ _ Hmax
                    (verified_times_In _ _ _ _ _ Hin Hp Hv Ht')).
      lia.
    + subst db'. split; reflexivity.
    + destruct Hc as [-> _]. split; reflexivity.
  - intros otp t user Hne Hsyn Hpne Hpw Hc Hlow Hl Ht Hwin Hu. unfold r.
    rewrite reset_password_unfold,
      (ResetPasswordSerializer_passes P now email new_password confirm db otp t
         Hne Hsyn Hpne Hpw Hc Hl Ht Hwin).
    unfold reset_after_validation. fold address secret. rewrite Hlow, Hl, Hu.
    cbn [fst snd]. split; [reflexivity|].
    apply first_filter_In in Hu. destruct Hu as [Hin _].
    rewrite <- (stored_password_after_set P user secret db Hin).
    reflexivity.
Qed.

(** C7, at the failing input. [request_password_reset] issued a reset
    passcode for the address of the account, and the owner submits the
    address as Alice@Example.com. Step 2 accepts the passcode (the view
    compares the lower-cased address) and stores the verification. One
    minute later, well inside the fifteen minutes, with a password that
    meets the policy and is confirmed, claim C7 has the reset succeed. The
    serializer of step 3 looks for the record under the address as
    submitted, finds none and refuses the request; the credential stays as
    it was. The same request with the address in lower case succeeds --
    wherever the backend places NULLs. *)
Theorem C7_reset_refused_inside_window :
  forall nulls_first : bool,
    let P := demo_platform nulls_first in
    let requested :=
      request_password_reset P 0 "123456" (true, "OTP sent successfully") "alice"
                             (Some "10.0.0.1") alice_store in
    let verified :=
      verify_reset_otp P (minutes 1) "Alice@Example.com" "123456" (snd requested) in
    let reset :=
      reset_password P (minutes 2) "Alice@Example.com" strong_password strong_password
                     (snd verified) in
    let lower_case :=
      reset_password P (minutes 2) "alice@example.com" strong_password strong_password
                     (snd verified) in
    snd requested = alice_pending_store
    /\ fst verified
       = mkResponse HTTP_200_OK
           (BResetVerified "OTP verified successfully. You can now reset your password."
                           "alice@example.com")
    /\ most_recent (verified_times "alice@example.com" password_reset (snd verified))
       = Some (minutes 1)
    /\ validate_password P strong_password = []
    /\ fst reset
       = mkResponse HTTP_400_BAD_REQUEST
           (BErrors
              [("email",
                ["Password reset not verified. Please complete OTP verification first"])])
    /\ snd reset = snd verified
    /\ stored_password 1 (snd reset) = Some "hash$OldPassw0rd!"
    /\ fst lower_case
       = mkResponse HTTP_200_OK
           (BMessage true
              "Password reset successfully. You can now login with your new password.")
    /\ stored_password 1 (snd lower_case) = Some "hash$Tr0ub4dor&3".
Proof. intros [|]; repeat split. Qed.

(** A second way to be refused inside the window. The request for a reset
    issues a passcode, the owner has it sent again a minute later, verifies
    the second passcode and resets a minute after that. The first record
    was superseded: its flag is set and it has no verification time. A
    backend that sorts NULL first in a descending order returns that
    record, the subtraction raises and the view answers 500; a backend that
    sorts NULL last returns the verified record and the reset succeeds. *)
Example reset_crashes_on_superseded_record :
  let reset (P : Platform) :=
    let requested :=
      request_password_reset P 0 "111111" (true, "OTP sent successfully") "alice"
                             None alice_store in
    let resent :=
      resend_otp P (minutes 1) "123456" (true, "OTP sent successfully")
                 (Some "alice@example.com") password_reset None (snd requested) in
    let verified :=
      verify_reset_otp P (minutes 2) "alice@example.com" "123456" (snd resent) in
    reset_password P (minutes 3) "alice@example.com" strong_password strong_password
                   (snd verified) in
  fst (reset (demo_platform true))
  = mkResponse HTTP_500_INTERNAL_SERVER_ERROR
      (BMessage false "An error occurred while resetting password")
  /\ stored_password 1 (snd (reset (demo_platform true))) = Some "hash$OldPassw0rd!"
  /\ succeeded (fst (reset (demo_platform false))) = true.
Proof. repeat split. Qed.

(** C6, at the failing input. One reset passcode was issued and verified;
    no other is issued or verified afterwards. The first reset succeeds and
    leaves the ledger as it was (its one record was flagged already); claim
    C6 has a second reset fail. The second reset, a minute later, succeeds
    as well and rotates the credential again -- wherever the backend places
    NULLs. *)
Theorem C6_verified_state_replayed :
  forall nulls_first : bool,
    let P := demo_platform nulls_first in
    let first :=
      reset_password P (minutes 2) "alice@example.com" "N3wPassw0rd!" "N3wPassw0rd!"
                     alice_reset_store in
    let second :=
      reset_password P (minutes 3) "alice@example.com" "An0ther#Pass" "An0ther#Pass"
                     (snd first) in
    succeeded (fst first) = true
    /\ stored_password 1 (snd first) = Some "hash$N3wPassw0rd!"
    /\ otp_records (snd first) = otp_records alice_reset_store
    /\ forallb OTPRecord.is_verified (otp_records (snd first)) = true
    /\ fst second
       = mkResponse HTTP_200_OK
           (BMessage true
              "Password reset successfully. You can now login with your new password.")
    /\ stored_password 1 (snd second) = Some "hash$An0ther#Pass".
Proof. intros [|]; repeat split. Qed.

(** ** User login (C9, C10) *)

Lemma save_login_count_keeps_ips (self : UserProfile.t) (rows : list UserProfile.t) :
  map UserProfile.last_login_ip
      (map (fun row =>
              if UserProfile.user_id row =? UserProfile.user_id self
              then UserProfile.with_login_count (UserProfile.login_count self) row
              else row)
           rows)
  = map UserProfile.last_login_ip rows.
Proof.
  rewrite map_map. apply map_ext. intros row.
  destruct (UserProfile.user_id row =? UserProfile.user_id self); reflexivity.
Qed.

Lemma login_lookup_reads_only identifier db :
  match login_lookup identifier db with
  | Ok _ db' => db' = db
  | Raise _ db' => db' = db
  end.
Proof.
  unfold login_lookup, bind, get_db.
  destruct (Py.contains "@" identifier);
    match goal with
    | |- context [ORM.get ?rows db] => destruct rows as [|x [|y l]]; reflexivity
    end.
Qed.

(** No call of [user_login] changes a stored last-known IP: the view sets
    the column on the instance, and the only [save] that follows names
    [login_count] alone. *)
Lemma user_login_keeps_stored_ips (P : Platform) now identifier password remember_me
      ip user_agent db :
  map UserProfile.last_login_ip
      (profiles (snd (user_login P now identifier password remember_me ip user_agent db)))
  = map UserProfile.last_login_ip (profiles db).
Proof.
  unfold user_login.
  destruct (UserLoginSerializer identifier password remember_me)
    as [[[u p] rm]|errors]; [|reflexivity].
  unfold run_view, try_except. unfold bind at 1. unfold get_db at 1.
  destruct (is_rate_limited now u ip 5 15 db); [reflexivity|].
  unfold bind at 1.
  pose proof (login_lookup_reads_only u db) as Hget.
  destruct (login_lookup u db) as [[user|] db'|e db'];
    rewrite Hget; clear Hget db'; try reflexivity.
  destruct (authenticate P (User.username user) p db) as [au|]; [|reflexivity].
  destruct (profile_of au db) as [q|].
  - destruct (User.is_staff au || User.is_superuser au || UserProfile.is_admin_user q)%bool;
      [reflexivity|].
    destruct (UserProfile.is_email_verified q); [|reflexivity].
    cbn [negb]. unfold increment_login_count, save_login_count, bind, ret,
                create_login_attempt, respond.
    cbn [snd profiles with_profiles with_login_attempts].
    apply save_login_count_keeps_ips.
  - destruct (User.is_staff au || User.is_superuser au)%bool; reflexivity.
Qed.

(** C9, at the failing input. A verified, non-admin account logs in with
    its password from 203.0.113.7. The login succeeds, the stored counter
    goes from 0 to 1, the success is recorded and the token carries the
    role flag; claim C9 has the stored last-known IP become the caller's.
    It stays NULL. *)
Theorem C9_login_ip_not_persisted :
  let P := demo_platform false in
  let r := user_login P (minutes 1) "alice" "OldPassw0rd!" false "203.0.113.7"
                      "Mozilla/5.0" alice_store in
  succeeded (fst r) = true
  /\ profile_of alice alice_store = Some (UserProfile.mk 1 true false None None 0)
  /\ profile_of alice (snd r) = Some (UserProfile.mk 1 true false None None 1)
  /\ option_map UserProfile.last_login_ip (profile_of alice (snd r))
     <> Some (Some "203.0.113.7")
  /\ login_attempts (snd r)
     = [LoginAttempt.mk "alice" "203.0.113.7" true None (minutes 1) "Mozilla/5.0"]
  /\ (exists tokens user, fst r = mkResponse HTTP_200_OK
                                    (BLogin "Login successful" tokens user)
                          /\ Token.is_admin (access tokens) = false).
Proof.
  repeat split.
  - discriminate.
  - do 2 eexists. split; reflexivity.
Qed.




Lemma C8_rate_limit_gate_witness :
  let P := demo_platform false in
  let failure (who : string) (seconds_ago : Z) :=
    LoginAttempt.mk who "198.51.100.4" false (Some "Invalid credentials")
                    (minutes 20 - seconds seconds_ago) "curl" in
  let db :=
    with_login_attempts
      [failure "u1" 50; failure "u2" 40; failure "u3" 30; failure "u4" 20;
       failure "u5" 10]
      alice_store in
  is_rate_limited (minutes 20) "alice" "198.51.100.4" 5 15 db = true
  /\ user_login P (minutes 20) "alice" "OldPassw0rd!" false "198.51.100.4" "Mozilla/5.0" db
     = (mkResponse HTTP_429_TOO_MANY_REQUESTS
          (BMessage false "Too many failed login attempts. Please try again later."),
        db).
Proof.
  intros P failure db. split.
  - reflexivity.
  - apply (proj2 (C8_rate_limit_gate P (minutes 20) "alice" "198.51.100.4" db) eq_refl
                 "alice" "OldPassw0rd!" "OldPassw0rd!" "Mozilla/5.0" false).
    reflexivity.
Defined.

(** The same five failures, once they are older than the window, no longer
    block the address. *)
Example aged_failures_do_not_block :
  let failure (who : string) :=
    LoginAttempt.mk who "198.51.100.4" false (Some "Invalid credentials") 0 "curl" in
  let db :=
    with_login_attempts
      [failure "u1"; failure "u2"; failure "u3"; failure "u4"; failure "u5"]
      alice_store in
  is_rate_limited (minutes 15) "alice" "198.51.100.4" 5 15 db = true
  /\ is_rate_limited (minutes 15 + 1) "alice" "198.51.100.4" 5 15 db = false.
Proof. split; reflexivity. Qed.

(* ================================================================== *)
(** * Further properties of the authentication code *)

(** ** The two login views *)

(** The serializer comes first: a blank password is answered 400 with no
    row in the attempt ledger, and a padded identifier is looked up
    stripped. *)
Example user_login_serializer_gate :
  let P := demo_platform false in
  user_login P (minutes 1) "alice" "  " false "203.0.113.7" "curl" alice_store
  = (mkResponse HTTP_400_BAD_REQUEST
       (BErrors [("password", ["This field may not be blank."])]),
     alice_store)
  /\ succeeded (fst (user_login P (minutes 1) " alice " "OldPassw0rd!" false
                                "203.0.113.7" "curl" alice_store)) = true
  /\ admin_login P (minutes 1) "" "Adm1n!pass" "203.0.113.7" "curl" root_store
     = (mkResponse HTTP_400_BAD_REQUEST
          (BErrors [("username", ["This field may not be blank."])]),
        root_store).
Proof. repeat split. Qed.

















(** ** The OTP ledger *)

Lemma latest_unverified_None (P : Platform) email purpose db :
  all_used email purpose db -> latest_unverified P email purpose db = None.
Proof.
  intros H. unfold latest_unverified.
  replace (filter _ (otp_records db)) with (@nil OTPRecord.t); [reflexivity|].
  symmetry. apply filter_nil_iff. intros r Hin.
  destruct (for_pair email purpose r) eqn:Hp; [|reflexivity].
  rewrite (H r Hin Hp). reflexivity.
Qed.

Lemma verify_otp_all_used (P : Platform) (now : Z) (email code : string)
      (purpose : Purpose) (db : Store) :
  VerifyOTPSerializer P email code purpose = Valid (email, code, purpose) ->
  all_used email purpose db ->
  verify_otp P now email code purpose db
  = (mkResponse HTTP_404_NOT_FOUND
       (BMessage false "No OTP found. Please request a new one."), db).
Proof.
  intros Hs Hall. unfold verify_otp, run_view, try_except, bind, get_db.
  rewrite Hs, (latest_unverified_None P _ _ _ Hall). reflexivity.
Qed.

Lemma verify_reset_otp_all_used (P : Platform) (now : Z) (email code : string)
      (db : Store) :
  VerifyResetOTPSerializer P email code = Valid (email, code) ->
  all_used (Py.lower email) password_reset db ->
  verify_reset_otp P now email code db
  = (mkResponse HTTP_404_NOT_FOUND
       (BMessage false "No password reset request found. Please request a new one."),
     db).
Proof.
  intros Hs Hall. unfold verify_reset_otp, try_except, bind, get_db.
  rewrite Hs, (latest_unverified_None P _ _ _ Hall). reflexivity.
Qed.

(** X6. When the pair has no record, or only records whose verified flag is
    set (verified by a user, or superseded by a later Issue, or swept by a
    reset), a verify call with a well-formed code answers 404 and changes
    nothing -- on the registration path and on the reset path. *)
Theorem verify_without_open_record :
  forall (P : Platform) (now : Z) (email code : string) (purpose : Purpose) (db : Store),
    (VerifyOTPSerializer P email code purpose = Valid (email, code, purpose) ->
     all_used email purpose db ->
     verify_otp P now email code purpose db
     = (mkResponse HTTP_404_NOT_FOUND
          (BMessage false "No OTP found. Please request a new one."), db))
    /\ (VerifyResetOTPSerializer P email code = Valid (email, code) ->
        all_used (Py.lower email) password_reset db ->
        verify_reset_otp P now email code db
        = (mkResponse HTTP_404_NOT_FOUND
             (BMessage false "No password reset request found. Please request a new one."),
           db)).
Proof.
  intros P now email code purpose db. split.
  - apply verify_otp_all_used.
  - apply verify_reset_otp_all_used.
Qed.

Lemma verify_without_open_record_witness :
  verify_otp (demo_platform false) (minutes 2) "a@b.com" "123456" registration
             verified_ledger
  = (mkResponse HTTP_404_NOT_FOUND
       (BMessage false "No OTP found. Please request a new one."), verified_ledger)
  /\ verify_reset_otp (demo_platform false) (minutes 2) "Alice@Example.com" "123456"
                      alice_reset_store
     = (mkResponse HTTP_404_NOT_FOUND
          (BMessage false "No password reset request found. Please request a new one."),
        alice_reset_store).
Proof.
  split.
  - apply (proj1 (verify_without_open_record (demo_platform false) (minutes 2)
                    "a@b.com" "123456" registration verified_ledger)).
    + reflexivity.
    + intros r [<-|[]] _. reflexivity.
  - apply (proj2 (verify_without_open_record (demo_platform false) (minutes 2)
                    "Alice@Example.com" "123456" registration alice_reset_store)).
    + reflexivity.
    + intros r [<-|[]] _. reflexivity.
Defined.

(** What [verify] may leave in the database. *)
Lemma verify_db_cases now r code db :
  exists res self,
    (verify now r code db = Ok (res, self) db
     /\ res = (false, "OTP expired or maximum attempts reached"))
    \/ (verify now r code db = Ok (res, self) (db_after_save self db)
        /\ OTPRecord.id self = OTPRecord.id r
        /\ OTPRecord.attempts self = OTPRecord.attempts r + 1
        /\ OTPRecord.max_attempts self = OTPRecord.max_attempts r
        /\ OTPRecord.attempts self < OTPRecord.max_attempts self
        /\ (fst res = true -> OTPRecord.is_verified self = true)
        /\ (fst res = false ->
            snd res = "Invalid OTP. "
                      ++ Py.str (OTPRecord.max_attempts r - (OTPRecord.attempts r + 1))
                      ++ " attempts remaining")).
Proof.
  destruct (is_valid now (counted r)) eqn:Hv.
  - assert (OTPRecord.attempts r + 1 < OTPRecord.max_attempts r) as Hlt.
    { rewrite is_valid_counted in Hv. apply andb_true_iff in Hv.
      destruct Hv as [_ Hv]. apply Z.ltb_lt. exact Hv. }
    destruct (String.eqb_spec (OTPRecord.otp_code r) code) as [Hc|Hc].
    + rewrite (verify_accepts _ _ _ _ Hv Hc). do 2 eexists. right.
      split; [reflexivity|]. cbn. repeat split; try assumption. discriminate.
    + rewrite (verify_mismatch _ _ _ _ Hv Hc). do 2 eexists. right.
      split; [reflexivity|]. cbn. repeat split; try assumption. discriminate.
  - rewrite (verify_rejects _ _ _ _ Hv). do 2 eexists. left. split; reflexivity.
Qed.

Lemma save_keeps_counters_below (self : OTPRecord.t) (db : Store) :
  counters_below_ceiling db ->
  OTPRecord.attempts self < OTPRecord.max_attempts self ->
  counters_below_ceiling (db_after_save self db).
Proof.
  intros Hinv Hself x Hx. unfold db_after_save in Hx.
  cbn [otp_records with_otp_records] in Hx. apply in_map_iff in Hx.
  destruct Hx as [row [Hrow Hin]].
  destruct (OTPRecord.id row =? OTPRecord.id self); subst x; auto.
Qed.

Lemma verify_otp_db (P : Platform) now email code purpose db :
  snd (verify_otp P now email code purpose db) = db
  \/ exists r self,
       In r (otp_records db)
       /\ snd (verify_otp P now email code purpose db) = db_after_save self db
       /\ OTPRecord.attempts self < OTPRecord.max_attempts self.
Proof.
  remember (verify_otp P now email code purpose db) as out eqn:Eout.
  unfold verify_otp, run_view, try_except in Eout.
  destruct (VerifyOTPSerializer P email code purpose) as [[[e c] pu]|errors];
    [|left; subst out; reflexivity].
  unfold bind at 1 in Eout. unfold get_db at 1 in Eout.
  destruct (latest_unverified P e pu db) as [r|] eqn:El; [|left; subst out; reflexivity].
  apply latest_unverified_Some in El. destruct El as [Hin _].
  unfold bind in Eout.
  destruct (verify_db_cases now r c db) as [res [self [[E _]|[E [_ [_ [_ [Hlt _]]]]]]]];
    rewrite E in Eout; destruct res as [[] message]; subst out.
  - left. reflexivity.
  - left. reflexivity.
  - right. exists r, self. split; [exact Hin|split; [reflexivity|exact Hlt]].
  - right. exists r, self. split; [exact Hin|split; [reflexivity|exact Hlt]].
Qed.

Lemma verify_reset_otp_db (P : Platform) now email code db :
  snd (verify_reset_otp P now email code db) = db
  \/ exists r self,
       In r (otp_records db)
       /\ snd (verify_reset_otp P now email code db) = db_after_save self db
       /\ OTPRecord.attempts self < OTPRecord.max_attempts self.
Proof.
  remember (verify_reset_otp P now email code db) as out eqn:Eout.
  unfold verify_reset_otp, try_except in Eout.
  destruct (VerifyResetOTPSerializer P email code) as [[e c]|errors];
    [|left; subst out; reflexivity].
  unfold bind at 1 in Eout. unfold get_db at 1 in Eout.
  destruct (latest_unverified P (Py.lower e) password_reset db) as [r|] eqn:El;
    [|left; subst out; reflexivity].
  apply latest_unverified_Some in El. destruct El as [Hin _].
  destruct (is_expired now r); [left; subst out; reflexivity|].
  destruct (OTPRecord.max_attempts r <=? OTPRecord.attempts r);
    [left; subst out; reflexivity|].
  unfold bind in Eout.
  destruct (verify_db_cases now r c db) as [res [self [[E _]|[E [_ [_ [_ [Hlt _]]]]]]]];
    rewrite E in Eout; destruct res as [[] message]; subst out.
  - left. reflexivity.
  - left. reflexivity.
  - right. exists r, self. split; [exact Hin|split; [reflexivity|exact Hlt]].
  - right. exists r, self. split; [exact Hin|split; [reflexivity|exact Hlt]].
Qed.

(** X7. No stored attempt counter ever reaches its ceiling: Issue starts a
    record at 0 of 5, and the two verify views save a raised counter only
    while it is still below the ceiling. So, on a ledger built by these
    operations, the guard of [verify_reset_otp] that answers 'Maximum
    verification attempts exceeded' never fires. *)
Theorem stored_counters_stay_below_ceiling :
  forall (P : Platform) (now : Z) (email code : string) (purpose : Purpose)
         (validity : Z) (ip tu tf tl : option string) (db : Store),
    counters_below_ceiling db ->
    counters_below_ceiling (snd (verify_otp P now email code purpose db))
    /\ counters_below_ceiling (snd (verify_reset_otp P now email code db))
    /\ counters_below_ceiling
         (db_after (create_otp now code email purpose validity ip tu tf tl) db)
    /\ body (fst (verify_reset_otp P now email code db))
       <> BMessage false
            "Maximum verification attempts exceeded. Please request a new OTP.".
Proof.
  intros P now email code purpose validity ip tu tf tl db Hinv.
  split; [|split; [|split]].
  - destruct (verify_otp_db P now email code purpose db) as [->|[r [self [_ [-> Hlt]]]]];
      [exact Hinv|]. apply save_keeps_counters_below; assumption.
  - destruct (verify_reset_otp_db P now email code db) as [->|[r [self [_ [-> Hlt]]]]];
      [exact Hinv|]. apply save_keeps_counters_below; assumption.
  - unfold db_after. rewrite create_otp_steps. intros x Hx.
    cbn [otp_records with_otp_records] in Hx. apply in_app_or in Hx.
    destruct Hx as [Hx|[<-|[]]].
    + apply in_map_iff in Hx. destruct Hx as [row [<- Hin]].
      unfold supersede. destruct (for_pair email purpose row); apply (Hinv row Hin).
    + cbn. lia.
  - unfold verify_reset_otp, try_except.
    destruct (VerifyResetOTPSerializer P email code) as [[e c]|errors];
      [|cbn; discriminate].
    unfold bind at 1. unfold get_db at 1.
    destruct (latest_unverified P (Py.lower e) password_reset db) as [r|] eqn:El;
      [|cbn; discriminate].
    apply latest_unverified_Some in El. destruct El as [Hin _].
    destruct (is_expired now r); [cbn; discriminate|].
    replace (OTPRecord.max_attempts r <=? OTPRecord.attempts r) with false
      by (symmetry; apply Z.leb_gt; apply (Hinv r Hin)).
    unfold bind.
    destruct (verify_db_cases now r c db)
      as [res [self [[E Hf]|[E [_ [_ [_ [_ [_ Hmsg]]]]]]]]];
      rewrite E; destruct res as [[] message]; cbn; try discriminate.
    + injection Hf as ->. discriminate.
    + cbn in Hmsg. rewrite (Hmsg eq_refl). discriminate.
Qed.

Lemma stored_counters_stay_below_ceiling_witness :
  counters_below_ceiling
    (snd (verify_otp (demo_platform false) (minutes 1) "a@b.com" "000000" registration
                     (demo_ledger registration 3))).
Proof.
  apply (stored_counters_stay_below_ceiling (demo_platform false) (minutes 1) "a@b.com"
           "000000" registration 5 None None None None (demo_ledger registration 3)).
  intros r [<-|[]]. cbn. lia.
Defined.

(** X8. A passcode is single use. When the record a verify call finds is
    the only unverified one of its pair (as it is after any Issue) and the
    call succeeds, the record is stored verified with the time of the call,
    and every later verify call for the pair, whatever its code, answers 404
    and changes nothing. *)
Theorem verified_code_cannot_be_reused :
  forall (P : Platform) (now : Z) (email code : string) (purpose : Purpose)
         (db : Store) (o : OTPRecord.t),
    VerifyOTPSerializer P email code purpose = Valid (email, code, purpose) ->
    sole (unverified_for email purpose) o (otp_records db) ->
    let r := verify_otp P now email code purpose db in
    succeeded (fst r) = true ->
    snd r = db_after_save (marked_verified now o) db
    /\ all_used email purpose (snd r)
    /\ forall now' code',
         VerifyOTPSerializer P email code' purpose = Valid (email, code', purpose) ->
         verify_otp P now' email code' purpose (snd r)
         = (mkResponse HTTP_404_NOT_FOUND
              (BMessage false "No OTP found. Please request a new one."), snd r).
Proof.
  intros P now email code purpose db o Hs Hsole r Hok.
  pose proof (sole_latest_unverified P _ _ _ _ Hsole) as Hl.
  assert (snd r = db_after_save (marked_verified now o) db) as Hdb.
  { unfold r in *. rewrite (verify_otp_found P now _ _ _ _ _ Hs Hl) in *.
    destruct (is_valid now (counted o)) eqn:Hv.
    - destruct (String.eqb_spec (OTPRecord.otp_code o) code) as [Hc|Hc].
      + rewrite (verify_accepts _ _ _ _ Hv Hc). reflexivity.
      + rewrite (verify_mismatch _ _ _ _ Hv Hc) in Hok. discriminate Hok.
    - rewrite (verify_rejects _ _ _ _ Hv) in Hok. discriminate Hok. }
  assert (all_used email purpose (snd r)) as Hused.
  { rewrite Hdb. intros x Hx Hp. unfold db_after_save in Hx.
    cbn [otp_records with_otp_records] in Hx. apply in_map_iff in Hx.
    destruct Hx as [row [Hrow Hin]].
    destruct (OTPRecord.id row =? OTPRecord.id (marked_verified now o)) eqn:E.
    - subst x. reflexivity.
    - subst x. destruct (OTPRecord.is_verified row) eqn:Ever; [reflexivity|].
      destruct Hsole as [_ [_ Hall]].
      assert (row = o) as -> by (apply Hall; [exact Hin|];
                                 unfold unverified_for; rewrite Hp, Ever; reflexivity).
      cbn in E. rewrite Z.eqb_refl in E. discriminate. }
  split; [exact Hdb|]. split; [exact Hused|].
  intros now' code' Hs'.
  apply (verify_otp_all_used P now' email code' purpose (snd r) Hs' Hused).
Qed.

Lemma verified_code_cannot_be_reused_witness :
  let P := demo_platform false in
  let r := verify_otp P (minutes 1) "a@b.com" "123456" registration
                      (demo_ledger registration 0) in
  status (fst (verify_otp P (minutes 2) "a@b.com" "123456" registration (snd r)))
  = HTTP_404_NOT_FOUND.
Proof.
  intros P r.
  destruct (verified_code_cannot_be_reused P (minutes 1) "a@b.com" "123456" registration
              (demo_ledger registration 0) (demo_otp registration 0)) as [_ [_ H]].
  - reflexivity.
  - split; [left; reflexivity|]. split; [reflexivity|].
    intros x [<-|[]] _. reflexivity.
  - reflexivity.
  - fold r in H. rewrite (H (minutes 2) "123456" eq_refl). reflexivity.
Defined.

(** X9. Expiry is final: once the record a verify call finds has expired,
    the call fails with the combined message whatever the code and the
    counter, nothing is written, and the same holds at every later time. *)
Theorem expired_record_always_rejected :
  forall (P : Platform) (now now' : Z) (email code : string) (purpose : Purpose)
         (db : Store) (r : OTPRecord.t),
    VerifyOTPSerializer P email code purpose = Valid (email, code, purpose) ->
    latest_unverified P email purpose db = Some r ->
    is_expired now r = true ->
    now <= now' ->
    verify_otp P now' email code purpose db
    = (mkResponse HTTP_400_BAD_REQUEST
         (BMessage false "OTP expired or maximum attempts reached"), db).
Proof.
  intros P now now' email code purpose db r Hs Hl Hexp Hle.
  destruct (verify_otp_cases P now' email code purpose db r Hs Hl) as [H _].
  apply H. left. unfold is_expired in *. apply Z.ltb_lt in Hexp. apply Z.ltb_lt. lia.
Qed.

Lemma expired_record_always_rejected_witness :
  verify_otp (demo_platform false) (minutes 7) "a@b.com" "123456" registration
             (demo_ledger registration 0)
  = (mkResponse HTTP_400_BAD_REQUEST
       (BMessage false "OTP expired or maximum attempts reached"),
     demo_ledger registration 0).
Proof.
  apply (expired_record_always_rejected (demo_platform false) (minutes 5 + 1) (minutes 7)
           "a@b.com" "123456" registration (demo_ledger registration 0)
           (demo_otp registration 0)); try reflexivity.
  vm_compute. discriminate.
Defined.

(** X10. [get_remaining_time] is the number of whole seconds left: never
    negative, 0 from the last second on, and for a record that is not yet
    expired it satisfies [t * 1s <= expires_at - now < (t + 1) * 1s]. A
    record issued for [v] minutes never reports more than [60 v] seconds
    after its creation. *)
Theorem get_remaining_time_bounds :
  forall (now : Z) (r : OTPRecord.t),
    0 <= get_remaining_time now r
    /\ (is_expired now r = false ->
        seconds (get_remaining_time now r) <= OTPRecord.expires_at r - now
        /\ OTPRecord.expires_at r - now < seconds (get_remaining_time now r + 1))
    /\ (get_remaining_time now r = 0 <-> OTPRecord.expires_at r - now < seconds 1)
    /\ (forall v, OTPRecord.expires_at r = OTPRecord.created_at r + minutes v ->
                  OTPRecord.created_at r <= now ->
                  0 <= v ->
                  get_remaining_time now r <= 60 * v).
Proof.
  intros now r. unfold get_remaining_time, is_expired, seconds, minutes.
  destruct (Z.ltb_spec (OTPRecord.expires_at r) now) as [Hlt|Hge].
  - split; [lia|]. split; [discriminate|]. split; [split; lia|]. intros; lia.
  - assert (0 <= OTPRecord.expires_at r - now) as Hnn by lia.
    rewrite (Z.quot_div_nonneg _ 1000000 Hnn) by lia.
    pose proof (Z.div_mod (OTPRecord.expires_at r - now) 1000000 ltac:(lia)) as Hdm.
    pose proof (Z.mod_pos_bound (OTPRecord.expires_at r - now) 1000000 ltac:(lia)) as Hmod.
    split; [apply Z.div_pos; lia|].
    split; [intros _; split; lia|].
    split; [split; intros; lia|].
    intros v Hexp Hcr Hv. lia.
Qed.

Lemma get_remaining_time_bounds_witness :
  get_remaining_time (minutes 1 + 1) (demo_otp registration 0) <= 60 * 5
  /\ seconds (get_remaining_time (minutes 1 + 1) (demo_otp registration 0))
     <= OTPRecord.expires_at (demo_otp registration 0) - (minutes 1 + 1).
Proof.
  destruct (get_remaining_time_bounds (minutes 1 + 1) (demo_otp registration 0))
    as [_ [Hb [_ Hv]]].
  split.
  - apply (Hv 5); [reflexivity|vm_compute; discriminate|lia].
  - apply Hb. reflexivity.
Defined.

(** ** The first steps of a registration *)

Lemma char_field_inl min_length max_length value v :
  char_field min_length max_length value = inl v ->
  v = Py.strip value /\ v <> EmptyString.
Proof.
  unfold char_field. destruct (Py.strip value) as [|c s] eqn:E; [discriminate|].
  destruct (_ ++ _)%list; [|discriminate].
  intros H. injection H as <-. split; [reflexivity|discriminate].
Qed.

Lemma SendOTPSerializer_Valid (P : Platform) username email first_name last_name
      purpose data pu :
  SendOTPSerializer P username email first_name last_name purpose = Valid (data, pu) ->
  pu = purpose
  /\ bd_email data = email
  /\ bd_username data = Py.strip username
  /\ bd_first_name data = Py.strip first_name
  /\ bd_last_name data = Py.strip last_name
  /\ bd_username data <> EmptyString
  /\ email_syntax_ok P email = true.
Proof.
  unfold SendOTPSerializer.
  destruct (char_field None (Some 150) username) as [u|mu] eqn:Eu;
    destruct (email_syntax_ok P email) eqn:Ee;
    destruct (char_field None (Some 150) first_name) as [f|mf] eqn:Ef;
    destruct (char_field None (Some 150) last_name) as [l|ml] eqn:El;
    destruct purpose; try discriminate;
    intros H; injection H as <- <-;
    apply char_field_inl in Eu; apply char_field_inl in Ef; apply char_field_inl in El;
    destruct Eu as [Hu Hne], Ef as [Hf _], El as [Hl _]; cbn;
    repeat split; assumption.
Qed.

(** The response of the two issuing views, by the answer of the delivery
    service. *)
Lemma send_otp_issues (P : Platform) now code delivery username email first_name
      last_name purpose ip db data pu :
  SendOTPSerializer P username email first_name last_name purpose = Valid (data, pu) ->
  existsb (fun u => String.eqb (User.email u) (bd_email data)) (users db) = false ->
  exists otp,
    create_otp now code (bd_email data) pu 5 ip (Some (bd_username data))
               (Some (bd_first_name data)) (Some (bd_last_name data)) db
    = Ok otp (snd (send_otp P now code delivery username email first_name last_name
                            purpose ip db))
    /\ fst (send_otp P now code delivery username email first_name last_name
                     purpose ip db)
       = if fst delivery
         then mkRegResponse HTTP_200_OK
                (ROtpSent "OTP sent successfully" (mask_email (bd_email data))
                          (get_remaining_time now otp) 30)
         else mkRegResponse HTTP_500_INTERNAL_SERVER_ERROR
                (RMessage false "Failed to send OTP. Please try again.").
Proof.
  intros Hs Hfree. unfold send_otp. rewrite Hs, Hfree.
  unfold try_except, bind. rewrite create_otp_steps.
  eexists. split; [destruct delivery as [[] msg]; reflexivity|].
  destruct delivery as [[] msg]; reflexivity.
Qed.

(** X11. [send_otp] refuses an address that already belongs to an account
    and issues nothing; for any other well-formed request it issues one
    passcode for five minutes that stages the submitted username and names,
    and it has done so whatever the delivery service answers: a failed
    delivery is reported with 500, but the record stays in the ledger. *)
Theorem send_otp_issues_before_delivery :
  forall (P : Platform) (now : Z) (code : string) (delivery : bool * string)
         (username email first_name last_name : string) (purpose : Purpose)
         (ip : option string) (db : Store) (data : BasicDetails) (pu : Purpose),
    SendOTPSerializer P username email first_name last_name purpose = Valid (data, pu) ->
    let r := send_otp P now code delivery username email first_name last_name
                      purpose ip db in
    (existsb (fun u => String.eqb (User.email u) email) (users db) = true ->
     r = (mkRegResponse HTTP_400_BAD_REQUEST (RMessage false "Email already registered"),
          db))
    /\ (existsb (fun u => String.eqb (User.email u) email) (users db) = false ->
        latest_unverified P email purpose (snd r)
        = Some (OTPRecord.mk (otp_seq db) email code purpose false 0 5 now
                             (now + minutes 5) None ip
                             (Some (Py.strip username)) (Some (Py.strip first_name))
                             (Some (Py.strip last_name)))
        /\ List.length (otp_records (snd r)) = S (List.length (otp_records db))
        /\ users (snd r) = users db
        /\ (reg_status (fst r) = HTTP_200_OK <-> fst delivery = true)
        /\ (fst delivery = false -> reg_status (fst r) = HTTP_500_INTERNAL_SERVER_ERROR)).
Proof.
  intros P now code delivery username email first_name last_name purpose ip db data pu
         Hs r.
  destruct (SendOTPSerializer_Valid P _ _ _ _ _ _ _ Hs)
    as [-> [Hemail [Hu [Hf [Hl [Hne _]]]]]].
  split.
  - intros Hreg. unfold r, send_otp. rewrite Hs, Hemail, Hreg. reflexivity.
  - intros Hfree. rewrite <- Hemail in Hfree.
    destruct (send_otp_issues P now code delivery username email first_name last_name
                purpose ip db data purpose Hs Hfree) as [otp [Hissue Hresp]].
    fold r in Hissue, Hresp.
    pose proof (sole_latest_unverified P _ _ _ _
                  (create_otp_sole _ _ _ _ _ _ _ _ _ _ _ _ Hissue)) as Hlatest.
    rewrite create_otp_steps in Hissue. injection Hissue as Hotp Hdb.
    rewrite Hemail, Hu, Hf, Hl in *. subst otp.
    split; [exact Hlatest|]. rewrite <- Hdb.
    cbn [otp_records with_otp_records users].
    split; [rewrite length_app, length_map; cbn; lia|].
    split; [reflexivity|]. rewrite Hresp.
    destruct (fst delivery); split; try (split; intros H); try reflexivity;
      try discriminate.
Qed.

Lemma send_otp_issues_before_delivery_witness :
  let r := send_otp (demo_platform false) 0 "123456" (false, "OTP service timeout")
                    " carol " "carol@example.com" "Carol" "Danvers" registration None
                    alice_store in
  reg_status (fst r) = HTTP_500_INTERNAL_SERVER_ERROR
  /\ option_map OTPRecord.temp_username
       (latest_unverified (demo_platform false) "carol@example.com" registration (snd r))
     = Some (Some "carol").
Proof.
  intros r.
  destruct (proj2 (send_otp_issues_before_delivery (demo_platform false) 0 "123456"
                     (false, "OTP service timeout") " carol " "carol@example.com"
                     "Carol" "Danvers" registration None alice_store
                     (mkBasicDetails "carol" "carol@example.com" "Carol" "Danvers")
                     registration eq_refl) eq_refl)
    as [Hl [_ [_ [_ Hst]]]].
  fold r in Hl, Hst. split; [apply Hst; reflexivity|]. rewrite Hl. reflexivity.
Defined.

(** X12. [resend_otp] answers 404 and changes nothing when the address
    never had a passcode of that purpose; otherwise it issues a fresh
    five-minute passcode that carries over the username and names staged on
    the most recent earlier record, verified or not, and reports 200 exactly
    when the delivery succeeded. *)
Theorem resend_otp_reuses_staged_fields :
  forall (P : Platform) (now : Z) (code : string) (delivery : bool * string)
         (email : string) (purpose : Purpose) (ip : option string) (db : Store),
    email <> EmptyString ->
    let r := resend_otp P now code delivery (Some email) purpose ip db in
    ((forall x, In x (otp_records db) -> for_pair email purpose x = false) ->
     r = (mkRegResponse HTTP_404_NOT_FOUND
            (RMessage false "No previous OTP request found"), db))
    /\ (forall prev,
           latest_record P email purpose db = Some prev ->
           latest_unverified P email purpose (snd r)
           = Some (OTPRecord.mk (otp_seq db) email code purpose false 0 5 now
                                (now + minutes 5) None ip
                                (OTPRecord.temp_username prev)
                                (OTPRecord.temp_first_name prev)
                                (OTPRecord.temp_last_name prev))
           /\ (reg_status (fst r) = HTTP_200_OK <-> fst delivery = true)
           /\ (fst delivery = false ->
               reg_status (fst r) = HTTP_500_INTERNAL_SERVER_ERROR)).
Proof.
  intros P now code delivery email purpose ip db Hne r.
  split.
  - intros Hnone. unfold r, resend_otp, latest_record.
    replace (filter (for_pair email purpose) (otp_records db)) with (@nil OTPRecord.t)
      by (symmetry; apply filter_nil_iff; exact Hnone).
    destruct email; [contradiction|reflexivity].
  - intros prev Hprev.
    assert (r = try_except
                  (otp_record <- create_otp now code email purpose 5 ip
                                            (OTPRecord.temp_username prev)
                                            (OTPRecord.temp_first_name prev)
                                            (OTPRecord.temp_last_name prev) ;;
                   sent <- send_otp_to_service registration_keywords delivery ;;
                   let '(success, message) := sent in
                   if success : bool then
                     ret (mkRegResponse HTTP_200_OK
                            (ROtpResent "OTP resent successfully" (mask_email email)
                                        (get_remaining_time now otp_record)))
                   else
                     ret (mkRegResponse HTTP_500_INTERNAL_SERVER_ERROR
                            (RMessage false "Failed to resend OTP")))
                  (fun _ => mkRegResponse HTTP_500_INTERNAL_SERVER_ERROR
                              (RMessage false "An error occurred"))
                  db) as Hr.
    { unfold r, resend_otp. destruct email; [contradiction|]. rewrite Hprev. reflexivity. }
    rewrite Hr. clear Hr r.
    unfold try_except, bind. rewrite create_otp_steps.
    destruct delivery as [[] msg]; cbn [fst snd send_otp_to_service ret];
      (split;
       [apply sole_latest_unverified;
        apply (create_otp_sole now code email purpose 5 ip
                 (OTPRecord.temp_username prev) (OTPRecord.temp_first_name prev)
                 (OTPRecord.temp_last_name prev) db);
        rewrite create_otp_steps; reflexivity|]);
      split; try (split; intros H); try reflexivity; try discriminate.
Qed.

Lemma resend_otp_reuses_staged_fields_witness :
  let r := resend_otp (demo_platform false) (minutes 3) "654321" (true, "sent")
                      (Some "a@b.com") registration None verified_ledger in
  option_map OTPRecord.temp_username
    (latest_unverified (demo_platform false) "a@b.com" registration (snd r))
  = Some (Some "alice")
  /\ resend_otp (demo_platform false) (minutes 3) "654321" (true, "sent")
                (Some "z@b.com") registration None verified_ledger
     = (mkRegResponse HTTP_404_NOT_FOUND (RMessage false "No previous OTP request found"),
        verified_ledger).
Proof.
  intros r. split.
  - destruct (proj2 (resend_otp_reuses_staged_fields (demo_platform false) (minutes 3)
                       "654321" (true, "sent") "a@b.com" registration None
                       verified_ledger ltac:(discriminate))
                    verified_registration eq_refl) as [H _].
    fold r in H. rewrite H. reflexivity.
  - apply (proj1 (resend_otp_reuses_staged_fields (demo_platform false) (minutes 3)
                    "654321" (true, "sent") "z@b.com" registration None
                    verified_ledger ltac:(discriminate))).
    intros x [<-|[]]. reflexivity.
Defined.

(** ** The registration flow, end to end *)

Lemma sole_after_save_gen (f : OTPRecord.t -> bool) (o o' : OTPRecord.t) (db : Store) :
  sole f o (otp_records db) ->
  OTPRecord.id o' = OTPRecord.id o ->
  f o' = true ->
  sole f o' (otp_records (db_after_save o' db)).
Proof.
  intros [Hin [Hf Hall]] Hid Hf'. unfold db_after_save. cbn [otp_records with_otp_records].
  split; [|split].
  - apply in_map_iff. exists o. split; [|exact Hin].
    rewrite Hid, Z.eqb_refl. reflexivity.
  - exact Hf'.
  - intros x Hx Hfx. apply in_map_iff in Hx. destruct Hx as [row [Hrow Hrin]].
    destruct (OTPRecord.id row =? OTPRecord.id o') eqn:E.
    + symmetry. exact Hrow.
    + subst x. rewrite (Hall row Hrin Hfx), Hid, Z.eqb_refl in E. discriminate.
Qed.

Lemma sole_weaken {A} (f g : A -> bool) (o : A) (rows : list A) :
  sole f o rows -> (forall x, g x = true -> f x = true) -> g o = true ->
  sole g o rows.
Proof.
  intros [Hin [_ Hall]] Hgf Hg. split; [exact Hin|]. split; [exact Hg|].
  intros x Hx Hgx. apply Hall; [exact Hx|]. apply Hgf. exact Hgx.
Qed.

Lemma create_otp_sole_of_pair now code email purpose validity ip tu tf tl db otp db' :
  fresh_address email purpose db ->
  create_otp now code email purpose validity ip tu tf tl db = Ok otp db' ->
  sole (for_pair email purpose) otp (otp_records db').
Proof.
  intros Hfresh. rewrite create_otp_steps. intros H. injection H as <- <-.
  cbn [otp_records with_otp_records]. split; [|split].
  - apply in_or_app. right. left. reflexivity.
  - apply for_pair_refl.
  - intros x Hx Hp. apply in_app_or in Hx. destruct Hx as [Hx|[Hx|[]]].
    + apply in_map_iff in Hx. destruct Hx as [row [<- Hin]].
      unfold supersede in Hp. rewrite (Hfresh row Hin) in Hp.
      rewrite (Hfresh row Hin) in Hp. discriminate.
    + symmetry. exact Hx.
Qed.

Lemma existsb_false_of {A} (f : A -> bool) (l : list A) :
  (forall x, In x l -> f x = false) -> existsb f l = false.
Proof.
  intros H. induction l as [|a l IH]; [reflexivity|]. cbn [existsb].
  rewrite (H a (or_introl eq_refl)). apply IH. intros x Hx. apply H. right. exact Hx.
Qed.

(** [create_password] goes through when the fields are in order and the
    record the query ranks first stages a free, non-empty username and both
    names; the password stored is the stripped one. *)
Lemma create_password_goes_through (P : Platform) email password confirm db v u f l :
  email_field P email = inl email ->
  Py.strip password <> EmptyString ->
  validate_password P (Py.strip password) = [] ->
  Py.strip confirm = Py.strip password ->
  latest_verified P email registration db = Some v ->
  OTPRecord.temp_username v = Some u ->
  u <> EmptyString ->
  OTPRecord.temp_first_name v = Some f ->
  OTPRecord.temp_last_name v = Some l ->
  existsb (fun x => String.eqb (User.username x) u) (users db) = false ->
  profile_keys_fresh db ->
  create_password P email password confirm db
  = (mkResponse HTTP_201_CREATED
       (BRegistered "Registration completed successfully" u (normalize_email email)),
     registered P u email f l (Py.strip password) db).
Proof.
  intros Hfield Hblank Hpw Hconf Hl Hu Hne Hf Hln Hfree Hkeys.
  unfold create_password, PasswordCreationSerializer. cbv zeta.
  rewrite Hfield.
  rewrite (proj2 (password_field_inl P password (Py.strip password))) by auto.
  rewrite (proj2 (char_field_plain_inl confirm (Py.strip password)))
    by (split; [symmetry; exact Hconf|exact Hblank]).
  rewrite String.eqb_refl, Hl. cbn [negb].
  unfold try_except, create_password_block, atomic, bind, get_db.
  rewrite Hl, Hu, Hf, Hln. unfold create_user.
  destruct u as [|c u]; [contradiction|]. rewrite Hfree.
  unfold create_profile. cbn [profiles with_users User.id].
  rewrite existsb_false_of; [reflexivity|].
  intros p Hp. apply Z.eqb_neq. pose proof (Hkeys p Hp). lia.
Qed.

Lemma for_pair_counted email purpose r :
  for_pair email purpose (counted r) = for_pair email purpose r.
Proof. reflexivity. Qed.

Lemma for_pair_marked email purpose t r :
  for_pair email purpose (marked_verified t r) = for_pair email purpose r.
Proof. reflexivity. Qed.

(** X13. The registration flow composes. For an address with no account and
    no earlier passcode, submitted as the e-mail field returns it, and a
    username that is free: [send_otp], then a verify call with a wrong code
    (answered 'Invalid OTP. 4 attempts remaining'), then one with the issued
    code, both within the five minutes, then [create_password] with a
    password that, once stripped, passes the policy and equals the stripped
    confirmation, leave exactly one new account -- the staged username and
    names, the normalised address, the hash of the stripped password -- and
    its profile with the e-mail flag set. *)
Theorem registration_flow_end_to_end :
  forall (P : Platform) (now t1 t2 : Z) (code wrong password confirm_password : string)
         (delivery : bool * string) (username email first_name last_name : string)
         (ip : option string) (db : Store) (data : BasicDetails),
    SendOTPSerializer P username email first_name last_name registration
    = Valid (data, registration) ->
    existsb (fun u => String.eqb (User.email u) email) (users db) = false ->
    fresh_address email registration db ->
    existsb (fun u => String.eqb (User.username u) (Py.strip username)) (users db) = false ->
    profile_keys_fresh db ->
    VerifyOTPSerializer P email wrong registration = Valid (email, wrong, registration) ->
    VerifyOTPSerializer P email code registration = Valid (email, code, registration) ->
    wrong <> code ->
    t1 <= now + minutes 5 ->
    t2 <= now + minutes 5 ->
    email_field P email = inl email ->
    Py.strip password <> EmptyString ->
    validate_password P (Py.strip password) = [] ->
    Py.strip confirm_password = Py.strip password ->
    let s1 := send_otp P now code delivery username email first_name last_name
                       registration ip db in
    let s2 := verify_otp P t1 email wrong registration (snd s1) in
    let s3 := verify_otp P t2 email code registration (snd s2) in
    let s4 := create_password P email password confirm_password (snd s3) in
    fst s2 = mkResponse HTTP_400_BAD_REQUEST
                        (BMessage false "Invalid OTP. 4 attempts remaining")
    /\ fst s3 = mkResponse HTTP_200_OK
                          (BOtpVerified "OTP verified successfully" email true)
    /\ fst s4 = mkResponse HTTP_201_CREATED
                  (BRegistered "Registration completed successfully"
                               (Py.strip username) (normalize_email email))
    /\ users (snd s4)
       = (users db
          ++ [User.mk (user_seq db) (Py.strip username) (normalize_email email)
                      (Py.strip first_name) (Py.strip last_name)
                      (make_password P (Py.strip password)) false false true])%list
    /\ profiles (snd s4)
       = (profiles db ++ [UserProfile.mk (user_seq db) true false None None 0])%list.
Proof.
  intros P now t1 t2 code wrong password confirm_password delivery username email first_name last_name
         ip db data Hs Hunreg Hfresh Hfree Hkeys Hw Hc Hne Ht1 Ht2 Hfield Hblank Hpw Hconf s1 s2 s3 s4.
  destruct (SendOTPSerializer_Valid P _ _ _ _ _ _ _ Hs)
    as [_ [Hemail [Hu [Hf [Hl [Hnonempty Hsyn]]]]]].
  rewrite <- Hemail in Hunreg.
  destruct (send_otp_issues P now code delivery username email first_name last_name
              registration ip db data registration Hs Hunreg) as [otp [Hissue _]].
  fold s1 in Hissue. rewrite Hemail, Hu, Hf, Hl in *.
  pose proof (create_otp_sole_of_pair _ _ _ _ _ _ _ _ _ _ _ _ Hfresh Hissue) as Hsole1.
  assert (otp = OTPRecord.mk (otp_seq db) email code registration false 0 5 now
                             (now + minutes 5) None ip (Some (Py.strip username))
                             (Some (Py.strip first_name)) (Some (Py.strip last_name))
          /\ users (snd s1) = users db /\ profiles (snd s1) = profiles db
          /\ user_seq (snd s1) = user_seq db) as [Hotp [Hus1 [Hps1 Hseq1]]].
  { rewrite create_otp_steps in Hissue. injection Hissue as <- <-. repeat split. }
  assert (forall t, t <= now + minutes 5 -> is_expired t otp = false) as Hlive.
  { intros t Ht. subst otp. unfold is_expired. cbn. apply Z.ltb_ge. exact Ht. }
  (* the wrong code *)
  assert (unverified_for email registration otp = true) as Hun1
      by (subst otp; unfold unverified_for; rewrite for_pair_refl; reflexivity).
  pose proof (sole_latest_unverified P _ _ _ _
                (sole_weaken _ (unverified_for email registration) _ _ Hsole1
                   ltac:(intros x Hx; apply andb_true_iff in Hx; tauto) Hun1)) as Hl1.
  destruct (verify_otp_cases P t1 _ _ _ _ _ Hw Hl1) as [_ [_ Hmis]].
  assert (s2 = (mkResponse HTTP_400_BAD_REQUEST
                  (BMessage false "Invalid OTP. 4 attempts remaining"),
                db_after_save (counted otp) (snd s1))) as Hs2.
  { unfold s2. rewrite Hmis.
    - subst otp. reflexivity.
    - rewrite is_valid_counted, (Hlive t1 Ht1). subst otp. reflexivity.
    - subst otp. cbn. intros E. apply Hne. symmetry. exact E. }
  (* the issued code *)
  assert (sole (for_pair email registration) (counted otp) (otp_records (snd s2))) as Hsole2.
  { rewrite Hs2. cbn [snd]. apply sole_after_save_gen with (o := otp);
      [exact Hsole1|reflexivity|]. rewrite for_pair_counted. subst otp.
    apply for_pair_refl. }
  assert (unverified_for email registration (counted otp) = true) as Hun2
      by (unfold unverified_for; rewrite for_pair_counted; subst otp;
          rewrite for_pair_refl; reflexivity).
  pose proof (sole_latest_unverified P _ _ _ _
                (sole_weaken _ (unverified_for email registration) _ _ Hsole2
                   ltac:(intros x Hx; apply andb_true_iff in Hx; tauto) Hun2)) as Hl2.
  destruct (verify_otp_cases P t2 _ _ _ _ _ Hc Hl2) as [_ [Hacc _]].
  assert (s3 = (mkResponse HTTP_200_OK (BOtpVerified "OTP verified successfully" email true),
                db_after_save (marked_verified t2 (counted otp)) (snd s2))) as Hs3.
  { unfold s3. apply Hacc.
    - rewrite is_valid_counted.
      change (is_expired t2 (counted otp)) with (is_expired t2 otp).
      rewrite (Hlive t2 Ht2). subst otp. reflexivity.
    - subst otp. reflexivity. }
  (* the password *)
  set (v := marked_verified t2 (counted otp)) in *.
  assert (sole (for_pair email registration) v (otp_records (snd s3))) as Hsole3.
  { rewrite Hs3. cbn [snd]. apply sole_after_save_gen with (o := counted otp);
      [exact Hsole2|reflexivity|]. unfold v.
    rewrite for_pair_marked, for_pair_counted. subst otp. apply for_pair_refl. }
  assert (latest_verified P email registration (snd s3) = Some v) as Hlv.
  { unfold latest_verified. apply sole_first_desc.
    apply (sole_weaken _ _ _ _ Hsole3).
    - intros x Hx. apply andb_true_iff in Hx. tauto.
    - unfold v. rewrite for_pair_marked, for_pair_counted. subst otp.
      rewrite for_pair_refl. reflexivity. }
  assert (users (snd s3) = users db /\ profiles (snd s3) = profiles db
          /\ user_seq (snd s3) = user_seq db) as [Hus3 [Hps3 Hseq3]].
  { rewrite Hs3. cbn [snd]. rewrite Hs2. cbn [snd].
    unfold db_after_save. cbn [users profiles user_seq with_otp_records].
    repeat split; assumption. }
  assert (s4 = (mkResponse HTTP_201_CREATED
                  (BRegistered "Registration completed successfully"
                               (Py.strip username) (normalize_email email)),
                registered P (Py.strip username) email (Py.strip first_name)
                           (Py.strip last_name) (Py.strip password) (snd s3))) as Hs4.
  { unfold s4.
    apply (create_password_goes_through P email password confirm_password (snd s3) v
             (Py.strip username) (Py.strip first_name) (Py.strip last_name));
      try assumption; try (subst v otp; reflexivity).
    - rewrite Hus3. exact Hfree.
    - intros p Hp. rewrite Hps3 in Hp. rewrite Hseq3. apply (Hkeys p Hp). }
  split; [rewrite Hs2; reflexivity|]. split; [rewrite Hs3; reflexivity|].
  rewrite Hs4. cbn [fst snd]. split; [reflexivity|].
  unfold registered. cbn [users profiles with_profiles with_users].
  rewrite Hus3, Hps3, Hseq3. split; reflexivity.
Qed.

Lemma registration_flow_end_to_end_witness :
  let P := demo_platform false in
  let s1 := send_otp P 0 "123456" (true, "OTP sent successfully") "carol"
                     "carol@example.com" "Carol" "Danvers" registration None
                     alice_store in
  let s2 := verify_otp P (minutes 1) "carol@example.com" "000000" registration (snd s1) in
  let s3 := verify_otp P (minutes 2) "carol@example.com" "123456" registration (snd s2) in
  let s4 := create_password P "carol@example.com" " Tr0ub4dor&3" "Tr0ub4dor&3 "
                            (snd s3) in
  users (snd s4)
  = [alice;
     User.mk 2 "carol" "carol@example.com" "Carol" "Danvers" "hash$Tr0ub4dor&3"
             false false true]
  /\ profiles (snd s4) = [alice_profile; UserProfile.mk 2 true false None None 0].
Proof.
  intros P s1 s2 s3 s4.
  destruct (registration_flow_end_to_end P 0 (minutes 1) (minutes 2) "123456" "000000"
              " Tr0ub4dor&3" "Tr0ub4dor&3 " (true, "OTP sent successfully") "carol"
              "carol@example.com" "Carol" "Danvers" None alice_store
              (mkBasicDetails "carol" "carol@example.com" "Carol" "Danvers"))
    as [_ [_ [_ [Hu Hp]]]]; try reflexivity.
  - intros x [].
  - intros p [<-|[]]. reflexivity.
  - apply String.eqb_neq. reflexivity.
  - vm_compute. discriminate.
  - vm_compute. discriminate.
  - vm_compute. discriminate.
  - split; [exact Hu|exact Hp].
Defined.

Lemma for_pair_supersede email purpose r :
  for_pair email purpose (supersede email purpose r) = for_pair email purpose r.
Proof.
  unfold supersede. destruct (for_pair email purpose r) eqn:E; [|exact E].
  exact E.
Qed.

(** X14. Two Issues replace a verification. For an address with no account
    and no earlier passcode, submitted as the e-mail field returns it, two
    [send_otp] requests in a row -- whatever the delivery service answered,
    and with no verify call at all -- are enough for [create_password]
    (with a password that, once stripped, passes the policy and equals the
    stripped confirmation) to register the account staged by the first
    request: the second Issue flags the first record verified, and that
    flag is all [create_password] asks for. *)
Theorem two_issues_replace_a_verification :
  forall (P : Platform) (now1 now2 : Z) (code1 code2 password confirm_password : string)
         (delivery1 delivery2 : bool * string)
         (username1 first_name1 last_name1 username2 first_name2 last_name2 email : string)
         (ip1 ip2 : option string) (db : Store) (data1 data2 : BasicDetails),
    SendOTPSerializer P username1 email first_name1 last_name1 registration
    = Valid (data1, registration) ->
    SendOTPSerializer P username2 email first_name2 last_name2 registration
    = Valid (data2, registration) ->
    existsb (fun u => String.eqb (User.email u) email) (users db) = false ->
    fresh_address email registration db ->
    existsb (fun u => String.eqb (User.username u) (Py.strip username1)) (users db)
    = false ->
    profile_keys_fresh db ->
    email_field P email = inl email ->
    Py.strip password <> EmptyString ->
    validate_password P (Py.strip password) = [] ->
    Py.strip confirm_password = Py.strip password ->
    let s1 := send_otp P now1 code1 delivery1 username1 email first_name1 last_name1
                       registration ip1 db in
    let s2 := send_otp P now2 code2 delivery2 username2 email first_name2 last_name2
                       registration ip2 (snd s1) in
    let s3 := create_password P email password confirm_password (snd s2) in
    (forall x, In x (otp_records (snd s2)) -> for_pair email registration x = true ->
               OTPRecord.verified_at x = None /\ OTPRecord.attempts x = 0)
    /\ fst s3 = mkResponse HTTP_201_CREATED
                  (BRegistered "Registration completed successfully"
                               (Py.strip username1) (normalize_email email))
    /\ users (snd s3)
       = (users db
          ++ [User.mk (user_seq db) (Py.strip username1) (normalize_email email)
                      (Py.strip first_name1) (Py.strip last_name1)
                      (make_password P (Py.strip password)) false false true])%list
    /\ profiles (snd s3)
       = (profiles db ++ [UserProfile.mk (user_seq db) true false None None 0])%list.
Proof.
  intros P now1 now2 code1 code2 password confirm_password delivery1 delivery2
         username1 first_name1 last_name1 username2 first_name2 last_name2 email
         ip1 ip2 db data1 data2 Hs1 Hs2 Hunreg Hfresh Hfree Hkeys Hfield Hblank Hpw Hconf s1 s2 s3.
  destruct (SendOTPSerializer_Valid P _ _ _ _ _ _ _ Hs1)
    as [_ [Hemail1 [Hu1 [Hf1 [Hl1 [Hnonempty Hsyn]]]]]].
  destruct (SendOTPSerializer_Valid P _ _ _ _ _ _ _ Hs2)
    as [_ [Hemail2 [Hu2 [Hf2 [Hl2 _]]]]].
  pose proof Hunreg as Hunreg1. rewrite <- Hemail1 in Hunreg1.
  destruct (send_otp_issues P now1 code1 delivery1 username1 email first_name1 last_name1
              registration ip1 db data1 registration Hs1 Hunreg1) as [otp1 [Hissue1 _]].
  fold s1 in Hissue1. rewrite Hemail1, Hu1, Hf1, Hl1 in Hissue1.
  pose proof (create_otp_sole_of_pair _ _ _ _ _ _ _ _ _ _ _ _ Hfresh Hissue1) as Hsole1.
  assert (otp1 = OTPRecord.mk (otp_seq db) email code1 registration false 0 5 now1
                              (now1 + minutes 5) None ip1 (Some (Py.strip username1))
                              (Some (Py.strip first_name1)) (Some (Py.strip last_name1))
          /\ users (snd s1) = users db /\ profiles (snd s1) = profiles db
          /\ user_seq (snd s1) = user_seq db) as [Hotp1 [Hus1 [Hps1 Hseq1]]].
  { rewrite create_otp_steps in Hissue1. injection Hissue1 as <- <-. repeat split. }
  pose proof Hunreg as Hunreg2. rewrite <- Hus1, <- Hemail2 in Hunreg2.
  destruct (send_otp_issues P now2 code2 delivery2 username2 email first_name2 last_name2
              registration ip2 (snd s1) data2 registration Hs2 Hunreg2)
    as [otp2 [Hissue2 _]].
  fold s2 in Hissue2. rewrite Hemail2, Hu2, Hf2, Hl2 in Hissue2.
  rewrite create_otp_steps in Hissue2. injection Hissue2 as Hotp2 Hdb2.
  assert (users (snd s2) = users db /\ profiles (snd s2) = profiles db
          /\ user_seq (snd s2) = user_seq db) as [Hus2 [Hps2 Hseq2]].
  { rewrite <- Hdb2. cbn [users profiles user_seq with_otp_records]. auto. }
  set (v := OTPRecord.with_is_verified true otp1).
  assert (forall x, In x (otp_records (snd s2)) -> for_pair email registration x = true ->
                    x = v \/ x = otp2) as Hrows.
  { intros x Hx Hp. rewrite <- Hdb2 in Hx. cbn [otp_records with_otp_records] in Hx.
    apply in_app_or in Hx. destruct Hx as [Hx|[Hx|[]]]; [|right; rewrite <- Hx; exact Hotp2].
    apply in_map_iff in Hx. destruct Hx as [y [<- Hy]].
    rewrite for_pair_supersede in Hp. destruct Hsole1 as [_ [_ Hall]].
    rewrite (Hall y Hy Hp). left. unfold supersede, v.
    rewrite <- (Hall y Hy Hp), Hp. reflexivity. }
  assert (In v (otp_records (snd s2))) as Hvin.
  { rewrite <- Hdb2. cbn [otp_records with_otp_records]. apply in_or_app. left.
    apply in_map_iff. exists otp1. destruct Hsole1 as [Hin [Hp _]].
    split; [|exact Hin]. unfold supersede, v. rewrite Hp. reflexivity. }
  assert (latest_verified P email registration (snd s2) = Some v) as Hlv.
  { unfold latest_verified. apply sole_first_desc. split; [exact Hvin|]. split.
    - destruct Hsole1 as [_ [Hp1 _]]. unfold v.
      change (for_pair email registration (OTPRecord.with_is_verified true otp1))
        with (for_pair email registration otp1).
      rewrite Hp1. reflexivity.
    - intros x Hx Hf. apply andb_true_iff in Hf. destruct Hf as [Hp Hver].
      destruct (Hrows x Hx Hp) as [->| ->]; [reflexivity|].
      subst otp2. discriminate Hver. }
  assert (s3 = (mkResponse HTTP_201_CREATED
                  (BRegistered "Registration completed successfully"
                               (Py.strip username1) (normalize_email email)),
                registered P (Py.strip username1) email (Py.strip first_name1)
                           (Py.strip last_name1) (Py.strip password) (snd s2))) as Hs3.
  { unfold s3.
    apply (create_password_goes_through P email password confirm_password (snd s2) v
             (Py.strip username1) (Py.strip first_name1) (Py.strip last_name1));
      try assumption; try (unfold v; subst otp1; reflexivity).
    - rewrite <- Hu1. exact Hnonempty.
    - rewrite Hus2. exact Hfree.
    - intros p Hp. rewrite Hps2 in Hp. rewrite Hseq2. apply (Hkeys p Hp). }
  split.
  - intros x Hx Hp. destruct (Hrows x Hx Hp) as [->| ->].
    + unfold v. subst otp1. split; reflexivity.
    + subst otp2. split; reflexivity.
  - rewrite Hs3. cbn [fst snd]. split; [reflexivity|].
    unfold registered. cbn [users profiles with_profiles with_users].
    rewrite Hus2, Hps2, Hseq2. split; reflexivity.
Qed.

Lemma two_issues_replace_a_verification_witness :
  let P := demo_platform false in
  let s1 := send_otp P 0 "123456" (false, "OTP service unavailable") "mallory"
                     "victim@example.com" "Mal" "Lory" registration None alice_store in
  let s2 := send_otp P 1 "654321" (false, "OTP service unavailable") "mallory"
                     "victim@example.com" "Mal" "Lory" registration None (snd s1) in
  let s3 := create_password P "victim@example.com" strong_password strong_password
                            (snd s2) in
  status (fst s3) = HTTP_201_CREATED
  /\ users (snd s3)
     = [alice;
        User.mk 2 "mallory" "victim@example.com" "Mal" "Lory" "hash$Tr0ub4dor&3"
                false false true].
Proof.
  intros P s1 s2 s3.
  destruct (two_issues_replace_a_verification P 0 1 "123456" "654321" strong_password
              strong_password
              (false, "OTP service unavailable") (false, "OTP service unavailable")
              "mallory" "Mal" "Lory" "mallory" "Mal" "Lory" "victim@example.com"
              None None alice_store
              (mkBasicDetails "mallory" "victim@example.com" "Mal" "Lory")
              (mkBasicDetails "mallory" "victim@example.com" "Mal" "Lory"))
    as [_ [Hr [Hu _]]]; try reflexivity.
  - intros x [].
  - intros p [<-|[]]. reflexivity.
  - vm_compute. discriminate.
  - fold s1 s2 s3 in Hr, Hu. rewrite Hr. split; [reflexivity|exact Hu].
Defined.

(** ** Password strength *)

Lemma ltb_8_leb (n : Z) : (n <? 8) = negb (8 <=? n).
Proof. destruct (Z.ltb_spec n 8), (Z.leb_spec 8 n); try reflexivity; lia. Qed.

(** X15. The two strength meters always give the same feedback, and that
    feedback is empty exactly when the password meets the custom policy of
    the registration and reset serializers (8 characters, an uppercase
    letter, a digit, a symbol). The serializer's meter says 'strong' exactly
    then and its score is 100 minus 25 per feedback line; the score of the
    utils meter stays within 0..100. *)
Theorem strength_meters_agree :
  forall password : string,
    feedback (calculate_password_strength password)
    = feedback (PasswordStrengthSerializer password)
    /\ (feedback (PasswordStrengthSerializer password) = []
        <-> custom_password_error password = None)
    /\ (strength (PasswordStrengthSerializer password) = "strong"
        <-> custom_password_error password = None)
    /\ score (PasswordStrengthSerializer password)
       = 100 - 25 * Z.of_nat (List.length (feedback (PasswordStrengthSerializer password)))
    /\ 0 <= score (calculate_password_strength password) <= 100.
Proof.
  intros password.
  unfold calculate_password_strength, PasswordStrengthSerializer, custom_password_error.
  rewrite ltb_8_leb.
  destruct (Z.leb_spec 8 (Py.len password)) as [H8|H8];
    destruct (Z.leb_spec 12 (Py.len password)) as [H12|H12]; try lia;
    destruct (Py.search Py.is_upper password);
    destruct (Py.search Py.is_lower password);
    destruct (Py.search Py.is_digit password);
    destruct (Py.search Py.is_special password);
    cbn; repeat split; intros; try reflexivity; try discriminate; try lia.
Qed.

(** X16. A password that [is_strong_password] of utils.py accepts meets the
    serializers' custom policy and is 'strong' with no feedback for both
    meters; and [is_strong_password] accepts exactly when its list of
    failed rules is empty. *)
Theorem strong_password_passes_everywhere :
  forall password : string,
    (fst (is_strong_password password) = true <-> snd (is_strong_password password) = [])
    /\ (fst (is_strong_password password) = true ->
        custom_password_error password = None
        /\ Py.search Py.is_lower password = true
        /\ calculate_password_strength password
           = mkStrengthReport 100 "strong" (Some "green") []
        /\ PasswordStrengthSerializer password = mkStrengthReport 100 "strong" None []).
Proof.
  intros password.
  unfold is_strong_password, calculate_password_strength, PasswordStrengthSerializer,
    custom_password_error.
  rewrite ltb_8_leb.
  destruct (Z.leb_spec 8 (Py.len password)) as [H8|H8];
    destruct (Z.leb_spec 12 (Py.len password)) as [H12|H12]; try lia;
    destruct (Py.search Py.is_upper password);
    destruct (Py.search Py.is_lower password);
    destruct (Py.search Py.is_digit password);
    destruct (Py.search Py.is_special password);
    cbn; repeat split; intros; try reflexivity; try discriminate.
Qed.

Lemma strong_password_passes_everywhere_witness :
  custom_password_error strong_password = None
  /\ PasswordStrengthSerializer strong_password = mkStrengthReport 100 "strong" None [].
Proof.
  destruct (proj2 (strong_password_passes_everywhere strong_password) eq_refl)
    as [H [_ [_ H']]].
  split; [exact H|exact H'].
Defined.

(** The converse fails: the policy of the serializers asks for no lowercase
    letter. *)
Example policy_accepts_what_utils_rejects :
  custom_password_error "PASSW0RD!" = None
  /\ fst (is_strong_password "PASSW0RD!") = false.
Proof. split; reflexivity. Qed.

(** ** Strings of utils.py *)

Lemma split_nonempty sep s : Py.split sep s <> [].
Proof.
  induction s as [|c s IH]; cbn [Py.split]; [discriminate|].
  destruct (Ascii.eqb c sep); [discriminate|].
  destruct (Py.split sep s); discriminate.
Qed.

Lemma split_no_sep sep s : Py.contains sep s = false -> Py.split sep s = [s].
Proof.
  unfold Py.contains. induction s as [|c s IH]; cbn [Py.split Py.search]; [reflexivity|].
  intros H. apply orb_false_iff in H. destruct H as [Hc Hs].
  rewrite Ascii.eqb_sym, Hc, (IH Hs). reflexivity.
Qed.

Lemma split_app_sep sep a b :
  Py.split sep (a ++ String sep b) = (Py.split sep a ++ Py.split sep b)%list.
Proof.
  induction a as [|c a IH]; cbn [append Py.split].
  - rewrite Ascii.eqb_refl. reflexivity.
  - destruct (Ascii.eqb c sep); [rewrite IH; reflexivity|].
    rewrite IH. pose proof (split_nonempty sep a) as Hne.
    destruct (Py.split sep a) as [|w ws]; [contradiction|reflexivity].
Qed.

Lemma join_cons sep w ws :
  ws <> [] -> Py.join sep (w :: ws) = w ++ sep ++ Py.join sep ws.
Proof. destruct ws; [contradiction|reflexivity]. Qed.

Lemma join_split sep s : Py.join (String sep EmptyString) (Py.split sep s) = s.
Proof.
  induction s as [|c s IH]; cbn [Py.split]; [reflexivity|].
  pose proof (split_nonempty sep s) as Hne.
  destruct (Ascii.eqb_spec c sep) as [->|Hc].
  - rewrite (join_cons _ _ _ Hne), IH. reflexivity.
  - destruct (Py.split sep s) as [|w ws]; [contradiction|].
    destruct ws as [|w' ws].
    + cbn [Py.join] in *. rewrite IH. reflexivity.
    + rewrite join_cons by discriminate. rewrite join_cons in IH by discriminate.
      rewrite <- IH. reflexivity.
Qed.

Lemma rsplit1_last sep a b :
  Py.contains sep b = false ->
  Py.rsplit1 sep (a ++ String sep b) = [a; b].
Proof.
  intros Hb. unfold Py.rsplit1.
  rewrite split_app_sep, (split_no_sep sep b Hb), rev_app_distr. cbn [rev app].
  pose proof (split_nonempty sep a) as Hne.
  destruct (rev (Py.split sep a)) as [|x xs] eqn:E.
  - exfalso. apply Hne. rewrite <- (rev_involutive (Py.split sep a)), E. reflexivity.
  - rewrite <- E, rev_involutive, join_split. reflexivity.
Qed.

Lemma mask_segment_of_shape s s' :
  shape s = shape s' -> mask_segment s = mask_segment s'.
Proof.
  unfold shape. intros H. injection H as Hlen Hfirst Hlast.
  destruct s as [|c s], s' as [|c' s']; try discriminate; [reflexivity|].
  cbn in Hfirst. injection Hfirst as <-.
  unfold mask_segment, Py.len. rewrite Hlen, Hlast. reflexivity.
Qed.

Lemma last_char_some c s : Py.last_char (String c s) <> None.
Proof.
  revert c. induction s as [|c' s IH]; intros c; [discriminate|]. apply (IH c').
Qed.

Lemma mask_segment_some s : s <> EmptyString -> mask_segment s <> None.
Proof.
  destruct s as [|c s]; [contradiction|]. intros _. unfold mask_segment.
  destruct (Py.len (String c s) <=? 2); [discriminate|].
  pose proof (last_char_some c s) as H.
  destruct (Py.last_char (String c s)); [discriminate|contradiction].
Qed.

(** X17. [mask_email] on an address [local@name.ext] (no [@] inside the
    parts, no dot in [ext], [local] and [name] not empty) masks the local
    part and the domain name separately and keeps [ext]; what it shows of
    either segment is fixed by the segment's length and its first and last
    character, so two addresses that agree on those are masked alike. *)
Theorem mask_email_shows_only_the_ends :
  forall local name ext local' name' : string,
    Py.contains "@" local = false -> Py.contains "@" name = false ->
    Py.contains "@" local' = false -> Py.contains "@" name' = false ->
    Py.contains "@" ext = false -> Py.contains "." ext = false ->
    local <> EmptyString -> name <> EmptyString ->
    shape local = shape local' -> shape name = shape name' ->
    (exists masked_local masked_name,
        mask_segment local = Some masked_local
        /\ mask_segment name = Some masked_name
        /\ mask_email (local ++ "@" ++ name ++ "." ++ ext)
           = masked_local ++ "@" ++ masked_name ++ "." ++ ext)
    /\ mask_email (local ++ "@" ++ name ++ "." ++ ext)
       = mask_email (local' ++ "@" ++ name' ++ "." ++ ext).
Proof.
  intros local name ext local' name' Hl Hn Hl' Hn' He Hd Hlne Hnne Hsl Hsn.
  assert (forall l n : string,
             Py.contains "@" l = false -> Py.contains "@" n = false ->
             mask_email (l ++ "@" ++ n ++ "." ++ ext)
             = match mask_segment l, mask_segment n with
               | Some ml, Some mn => ml ++ "@" ++ mn ++ "." ++ ext
               | _, _ => l ++ "@" ++ n ++ "." ++ ext
               end) as Hform.
  { intros l n Hla Hna. unfold mask_email. cbn [append].
    rewrite split_app_sep, (split_no_sep "@" l Hla). cbn [app].
    rewrite split_no_sep.
    - rewrite (rsplit1_last "." n ext Hd). reflexivity.
    - unfold Py.contains in *. clear - Hna He.
      induction n as [|c n IH]; cbn [append Py.search] in *.
      + exact He.
      + apply orb_false_iff in Hna. destruct Hna as [Hc Hn].
        rewrite Hc, (IH Hn). reflexivity. }
  pose proof (mask_segment_some local Hlne) as Hml.
  pose proof (mask_segment_some name Hnne) as Hmn.
  split.
  - rewrite (Hform local name Hl Hn).
    destruct (mask_segment local) as [ml|]; [|contradiction].
    destruct (mask_segment name) as [mn|]; [|contradiction].
    exists ml, mn. repeat split.
  - rewrite (Hform local name Hl Hn), (Hform local' name' Hl' Hn').
    rewrite <- (mask_segment_of_shape _ _ Hsl), <- (mask_segment_of_shape _ _ Hsn).
    destruct (mask_segment local) as [ml|]; [|contradiction].
    destruct (mask_segment name) as [mn|]; [|contradiction].
    reflexivity.
Qed.

Lemma mask_email_shows_only_the_ends_witness :
  mask_email "john.doe@example.com" = mask_email "jxxxxxxe@eabcdxe.com".
Proof.
  exact (proj2 (mask_email_shows_only_the_ends
                  "john.doe" "example" "com" "jxxxxxxe" "eabcdxe"
                  eq_refl eq_refl eq_refl eq_refl eq_refl eq_refl
                  ltac:(discriminate) ltac:(discriminate) eq_refl eq_refl)).
Defined.

(** X18. [format_otp_for_display] only ever inserts one blank: a six
    character passcode becomes seven characters, and taking the blanks out
    again gives what taking them out of the passcode gives (the passcode
    itself when it is all digits); any other input comes back unchanged. *)
Theorem format_otp_round_trip :
  forall otp : string,
    (Py.len otp = 6 ->
     Py.len (format_otp_for_display otp) = 7
     /\ remove_spaces (format_otp_for_display otp) = remove_spaces otp
     /\ (Py.isdigit otp = true -> remove_spaces (format_otp_for_display otp) = otp))
    /\ (Py.len otp <> 6 -> format_otp_for_display otp = otp).
Proof.
  intros otp. split.
  - intros Hlen. unfold format_otp_for_display. rewrite Hlen. cbn [Z.eqb Pos.eqb].
    unfold Py.len in Hlen.
    destruct otp as [|a [|b [|c [|d [|e [|f [|g otp]]]]]]]; cbn in Hlen; try lia.
    split; [reflexivity|]. split.
    + cbn. destruct (Ascii.eqb a " "), (Ascii.eqb b " "), (Ascii.eqb c " "); reflexivity.
    + intros Hdig. cbn in Hdig.
      assert (forall x, Py.is_digit x = true -> Ascii.eqb x " " = false) as Hns.
      { intros x Hx. destruct (Ascii.eqb_spec x " ") as [->|]; [discriminate|reflexivity]. }
      repeat (apply andb_true_iff in Hdig; destruct Hdig as [?H Hdig]).
      cbn. rewrite !Hns by assumption. reflexivity.
  - intros Hlen. unfold format_otp_for_display.
    destruct (Z.eqb_spec (Py.len otp) 6); [contradiction|reflexivity].
Qed.

Lemma format_otp_round_trip_witness :
  format_otp_for_display "123456" = "123 456"
  /\ remove_spaces (format_otp_for_display "123456") = "123456"
  /\ format_otp_for_display "12345" = "12345".
Proof.
  destruct (format_otp_round_trip "123456") as [H _].
  destruct (H eq_refl) as [_ [_ Hd]].
  split; [reflexivity|]. split; [apply Hd; reflexivity|].
  apply (proj2 (format_otp_round_trip "12345")). discriminate.
Defined.

Lemma split_head sep s :
  exists first,
    hd EmptyString (Py.split sep s) = first
    /\ Py.contains sep first = false
    /\ (s = first \/ exists rest, s = first ++ String sep rest).
Proof.
  unfold Py.contains. induction s as [|c s IH]; cbn [Py.split].
  - exists EmptyString. repeat split. left. reflexivity.
  - destruct (Ascii.eqb_spec c sep) as [->|Hc].
    + exists EmptyString. repeat split. right. exists s. reflexivity.
    + destruct IH as [first [Hhd [Hno Hs]]].
      exists (String c first). split; [|split].
      * destruct (Py.split sep s) as [|w ws]; cbn [hd] in *; subst first; reflexivity.
      * cbn [Py.search]. rewrite Hno.
        destruct (Ascii.eqb_spec sep c) as [E|_]; [symmetry in E; contradiction|].
        reflexivity.
      * destruct Hs as [->|[rest ->]]; [left; reflexivity|].
        right. exists rest. reflexivity.
Qed.

(** X19. [get_client_ip] trusts the request header: whenever
    [X-Forwarded-For] is present and not empty, the answer is its text up to
    the first comma (never containing one, and not stripped), whatever the
    socket address is; only without the header is the socket address
    used. *)
Theorem get_client_ip_takes_first_hop :
  forall (x_forwarded_for remote_addr : option string),
    (forall header, x_forwarded_for = Some header -> header <> EmptyString ->
       exists first,
         get_client_ip x_forwarded_for remote_addr = Some first
         /\ Py.contains "," first = false
         /\ (header = first \/ exists rest, header = first ++ String "," rest))
    /\ (x_forwarded_for = None \/ x_forwarded_for = Some EmptyString ->
        get_client_ip x_forwarded_for remote_addr = remote_addr).
Proof.
  intros xff remote. split.
  - intros header -> Hne. destruct header as [|c h]; [contradiction|].
    destruct (split_head "," (String c h)) as [first [Hhd [Hno Hs]]].
    exists first. unfold get_client_ip. rewrite Hhd. auto.
  - intros [->| ->]; reflexivity.
Qed.

Lemma get_client_ip_takes_first_hop_witness :
  get_client_ip (Some "10.9.8.7, 203.0.113.7") (Some "203.0.113.7") = Some "10.9.8.7"
  /\ get_client_ip None (Some "203.0.113.7") = Some "203.0.113.7".
Proof.
  split.
  - destruct (proj1 (get_client_ip_takes_first_hop (Some "10.9.8.7, 203.0.113.7")
                       (Some "203.0.113.7")) "10.9.8.7, 203.0.113.7" eq_refl
                    ltac:(discriminate)) as [first [H _]].
    rewrite H. vm_compute in H. exact (eq_sym H).
  - apply (proj2 (get_client_ip_takes_first_hop None (Some "203.0.113.7"))).
    left. reflexivity.
Defined.

(** ** Signing in with Google *)

Lemma str_injective (a b : Z) : Py.str a = Py.str b -> a = b.
Proof.
  unfold Py.str. intros H.
  assert (forall z, Z.to_int z <> Decimal.Pos Decimal.Nil
                    /\ Z.to_int z <> Decimal.Neg Decimal.Nil) as Hnn.
  { intros [|p|p]; cbn; split; try discriminate; intros E; injection E as E;
      exact (DecimalPos.Unsigned.to_uint_nonnil p E). }
  assert (Some (Z.to_int a) = Some (Z.to_int b)) as E.
  { rewrite <- (NilZero.isi (Z.to_int a)) by apply Hnn.
    rewrite <- (NilZero.isi (Z.to_int b)) by apply Hnn.
    rewrite H. reflexivity. }
  injection E as E. rewrite <- (DecimalZ.of_to a), <- (DecimalZ.of_to b), E. reflexivity.
Qed.

Lemma str_not_empty (z : Z) : Py.str z <> EmptyString.
Proof.
  unfold Py.str. destruct z as [|p|p]; cbn; try discriminate.
  pose proof (DecimalPos.Unsigned.to_uint_nonnil p) as H.
  unfold NilZero.string_of_uint. destruct (Pos.to_uint p); [contradiction|..]; discriminate.
Qed.

Lemma append_cancel (base a b : string) : base ++ a = base ++ b -> a = b.
Proof.
  induction base as [|c base IH]; cbn [append]; [auto|].
  intros H. injection H as H. auto.
Qed.

Lemma append_empty_r (base : string) : base ++ EmptyString = base.
Proof. induction base as [|c base IH]; cbn [append]; [reflexivity|]. rewrite IH. reflexivity. Qed.

Lemma candidate_injective (base : string) : Finite.Injective (candidate base).
Proof.
  intros [|i] [|j] H; cbn [candidate] in H.
  - reflexivity.
  - exfalso. apply (str_not_empty (Z.of_nat (S j))).
    apply (append_cancel base). rewrite append_empty_r. symmetry. exact H.
  - exfalso. apply (str_not_empty (Z.of_nat (S i))).
    apply (append_cancel base). rewrite append_empty_r. exact H.
  - apply append_cancel, str_injective in H. lia.
Qed.

(** The uniqueness loop returns the first candidate it finds free, or the
    next one unchecked when its fuel is spent. *)
Lemma username_loop_result (db : Store) (base : string) (fuel k : nat) :
  exists i,
    (i <= fuel)%nat
    /\ username_loop db base (candidate base k) (Z.of_nat k + 1) fuel
       = candidate base (k + i)
    /\ (forall j, (j < i)%nat -> username_taken db (candidate base (k + j)) = true)
    /\ ((i < fuel)%nat -> username_taken db (candidate base (k + i)) = false).
Proof.
  revert k. induction fuel as [|fuel IH]; intros k.
  - exists 0%nat. rewrite Nat.add_0_r. repeat split; try lia; intros; lia.
  - cbn [username_loop]. fold (username_taken db (candidate base k)).
    destruct (username_taken db (candidate base k)) eqn:Et.
    + destruct (IH (S k)) as [i [Hle [Hres [Hall Hfree]]]].
      exists (S i). replace (k + S i)%nat with (S k + i)%nat by lia.
      replace (Z.of_nat k + 1 + 1) with (Z.of_nat (S k) + 1) by lia.
      replace (base ++ Py.str (Z.of_nat k + 1)) with (candidate base (S k))
        by (cbn [candidate]; do 2 f_equal; lia).
      split; [lia|]. split; [exact Hres|]. split.
      * intros [|j] Hj; [rewrite Nat.add_0_r; exact Et|].
        replace (k + S j)%nat with (S k + j)%nat by lia. apply Hall. lia.
      * intros Hlt. apply Hfree. lia.
    + exists 0%nat. rewrite Nat.add_0_r. repeat split; try lia; intros; try lia.
      exact Et.
Qed.

Lemma generate_username_result :
  forall (first_name last_name email : string) (db : Store),
    let base := base_username first_name last_name email in
    let username := _generate_username first_name last_name email db in
    username_taken db username = false
    /\ exists i,
         (i <= List.length (users db))%nat
         /\ username = candidate base i
         /\ forall j, (j < i)%nat -> username_taken db (candidate base j) = true.
Proof.
  intros first_name last_name email db base username.
  destruct (username_loop_result db base (S (List.length (users db))) 0)
    as [i [Hle [Hres [Hall Hfree]]]].
  cbn [Nat.add candidate Z.of_nat Z.add] in Hres.
  change (username = candidate base i) in Hres.
  assert (i <= List.length (users db))%nat as Hi.
  { destruct (Nat.le_gt_cases i (List.length (users db))) as [H|H]; [exact H|exfalso].
    assert (i = S (List.length (users db))) as -> by lia.
    pose proof (@NoDup_incl_length _ _ (map User.username (users db))
                  (@Finite.Injective_map_NoDup _ _ (candidate base) _
                     (candidate_injective base)
                     (seq_NoDup (S (List.length (users db))) 0))) as Hpig.
    rewrite !length_map, length_seq in Hpig.
    assert (S (List.length (users db)) <= List.length (users db))%nat; [|lia].
    apply Hpig. intros name Hname. apply in_map_iff in Hname.
    destruct Hname as [j [<- Hj]]. apply in_seq in Hj.
    specialize (Hall j ltac:(lia)). cbn [Nat.add] in Hall.
    unfold username_taken in Hall. apply existsb_exists in Hall.
    destruct Hall as [u [Hu Heq]]. apply String.eqb_eq in Heq.
    apply in_map_iff. exists u. split; [exact Heq|exact Hu]. }
  split.
  - rewrite Hres. apply Hfree. lia.
  - exists i. split; [exact Hi|]. split; [exact Hres|exact Hall].
Qed.

(** X20. [_generate_username] always ends with a username no account has:
    the base name built from the Google names (or the local part of the
    address), or the base name followed by the smallest counter from 1 that
    makes it free; one more round than there are accounts always
    suffices. *)
Theorem generated_username_is_free :
  forall (first_name last_name email : string) (db : Store),
    let base := base_username first_name last_name email in
    let username := _generate_username first_name last_name email db in
    username_taken db username = false
    /\ exists i,
         (i <= List.length (users db))%nat
         /\ username = candidate base i
         /\ forall j, (j < i)%nat -> username_taken db (candidate base j) = true.
Proof.
  exact generate_username_result.
Qed.

Lemma profile_of_after_save (user : User.t) (p p' : UserProfile.t) (db : Store) :
  profile_of user db = Some p ->
  UserProfile.user_id p' = UserProfile.user_id p ->
  profile_of user (save_profile p' db) = Some p'.
Proof.
  unfold profile_of, save_profile. cbn [profiles with_profiles].
  intros Hfind Hid.
  assert (UserProfile.user_id p' = User.id user) as Hp.
  { apply find_some in Hfind. destruct Hfind as [_ H]. apply Z.eqb_eq in H.
    rewrite Hid. exact H. }
  clear Hid. rewrite Hp.
  induction (profiles db) as [|row rows IH]; [discriminate|].
  cbn [map find] in *.
  destruct (UserProfile.user_id row =? User.id user) eqn:E.
  - cbn [find]. rewrite Hp, Z.eqb_refl. reflexivity.
  - rewrite E. apply IH. exact Hfind.
Qed.

(** X21. Linking. When no profile carries the Google id and exactly one
    account has the (verified) Google address, and that account has a
    profile, [authenticate_google_user] returns the account as not created
    and saves the profile with the Google id and the e-mail flag set; the
    admin flag, the counter and the stored IP stay as they were and no
    account is changed. *)
Theorem google_links_existing_account :
  forall (unusable_hash : string) (info : GoogleUserInfo) (db : Store)
         (user : User.t) (p : UserProfile.t),
    gi_email_verified info = true ->
    (forall q, In q (profiles db) -> has_google_id (gi_google_id info) q = false) ->
    filter (fun u => String.eqb (User.email u) (gi_email info)) (users db) = [user] ->
    profile_of user db = Some p ->
    let r := authenticate_google_user unusable_hash (Some info) db in
    fst r = inr (user, false)
    /\ snd r = save_profile (linked_profile (gi_google_id info) p) db
    /\ profile_of user (snd r)
       = Some (UserProfile.mk (UserProfile.user_id p) true (UserProfile.is_admin_user p)
                              (Some (gi_google_id info)) (UserProfile.last_login_ip p)
                              (UserProfile.login_count p))
    /\ users (snd r) = users db.
Proof.
  intros unusable_hash info db user p Hver Hnone Hone Hprof r.
  assert (r = (inr (user, false),
               save_profile (linked_profile (gi_google_id info) p) db)) as Hr.
  { unfold r, authenticate_google_user, get_or_create_user. rewrite Hver. cbn [negb].
    replace (filter (has_google_id (gi_google_id info)) (profiles db))
      with (@nil UserProfile.t)
      by (symmetry; apply filter_nil_iff; exact Hnone).
    rewrite Hone, Hprof. reflexivity. }
  rewrite Hr. cbn [fst snd]. repeat split.
  apply (profile_of_after_save user p _ db Hprof). reflexivity.
Qed.

Lemma google_links_existing_account_witness :
  let info := mkGoogleUserInfo "g-77" "alice@example.com" true "Alice" "L" "" in
  let r := authenticate_google_user unusable (Some info) alice_store in
  fst r = inr (alice, false)
  /\ profile_of alice (snd r) = Some (UserProfile.mk 1 true false (Some "g-77") None 0).
Proof.
  intros info r.
  destruct (google_links_existing_account unusable info alice_store alice alice_profile)
    as [H1 [_ [H3 _]]]; try reflexivity.
  - intros q [<-|[]]. reflexivity.
  - split; [exact H1|exact H3].
Defined.

(** X22. An account whose address matches but which has no profile row
    cannot sign in with Google: [user.profile] raises, the handler reports
    the exception, the view answers 401, and nothing is written -- no
    profile is created for it. *)
Theorem google_login_needs_a_profile :
  forall (unusable_hash token : string) (info : GoogleUserInfo) (ip : option string)
         (db : Store) (user : User.t),
    Py.strip token <> EmptyString ->
    gi_email_verified info = true ->
    (forall q, In q (profiles db) -> has_google_id (gi_google_id info) q = false) ->
    filter (fun u => String.eqb (User.email u) (gi_email info)) (users db) = [user] ->
    profile_of user db = None ->
    google_auth unusable_hash token (Some info) ip db
    = (mkGoogleResponse HTTP_401_UNAUTHORIZED
         (GFailed (GoogleException GNoProfile)), db).
Proof.
  intros unusable_hash token info ip db user Htok Hver Hnone Hone Hprof.
  unfold google_auth, char_field.
  destruct (Py.strip token) as [|c t]; [contradiction|]. cbn [app].
  unfold authenticate_google_user, get_or_create_user. rewrite Hver. cbn [negb].
  replace (filter (has_google_id (gi_google_id info)) (profiles db))
    with (@nil UserProfile.t)
    by (symmetry; apply filter_nil_iff; exact Hnone).
  rewrite Hone, Hprof. reflexivity.
Qed.

Lemma google_login_needs_a_profile_witness :
  google_auth unusable "token"
              (Some (mkGoogleUserInfo "g-5" "bob@example.com" true "Bob" "B" ""))
              None bob_store
  = (mkGoogleResponse HTTP_401_UNAUTHORIZED (GFailed (GoogleException GNoProfile)),
     bob_store).
Proof.
  apply (google_login_needs_a_profile unusable "token"
           (mkGoogleUserInfo "g-5" "bob@example.com" true "Bob" "B" "") None
           bob_store bob); try reflexivity.
  - discriminate.
  - intros q [].
Defined.

Lemma find_app_skip {A} (f : A -> bool) (l l' : list A) :
  (forall x, In x l -> f x = false) -> find f (l ++ l') = find f l'.
Proof.
  intros H. induction l as [|a l IH]; [reflexivity|]. cbn [app find].
  rewrite (H a (or_introl eq_refl)). apply IH. intros x Hx. apply H. right. exact Hx.
Qed.

(** X23. A first Google sign-in is found again. When neither the Google id
    nor the address is known, the keys in use are behind the sequence and
    the generated username is not empty, [authenticate_google_user] creates
    the account (generated username, normalised address, unusable password)
    with a verified profile that carries the Google id; and the same claims
    presented again return that very account, not created, and write
    nothing. *)
Theorem google_account_is_found_again :
  forall (unusable_hash : string) (info : GoogleUserInfo) (db : Store),
    gi_email_verified info = true ->
    (forall q, In q (profiles db) -> has_google_id (gi_google_id info) q = false) ->
    (forall u, In u (users db) -> String.eqb (User.email u) (gi_email info) = false) ->
    (forall u, In u (users db) -> User.id u < user_seq db) ->
    profile_keys_fresh db ->
    _generate_username (gi_given_name info) (gi_family_name info) (gi_email info) db
    <> EmptyString ->
    let r := authenticate_google_user unusable_hash (Some info) db in
    exists user,
      fst r = inr (user, true)
      /\ user = User.mk (user_seq db)
                        (_generate_username (gi_given_name info) (gi_family_name info)
                                            (gi_email info) db)
                        (normalize_email (gi_email info))
                        (gi_given_name info) (gi_family_name info) unusable_hash
                        false false true
      /\ users (snd r) = (users db ++ [user])%list
      /\ profile_of user (snd r)
         = Some (UserProfile.mk (user_seq db) true false (Some (gi_google_id info)) None 0)
      /\ authenticate_google_user unusable_hash (Some info) (snd r)
         = (inr (user, false), snd r).
Proof.
  intros unusable_hash info db Hver Hnog Hnoe Hids Hkeys Hname r.
  pose proof (proj1 (generate_username_result (gi_given_name info)
                       (gi_family_name info) (gi_email info) db)) as Hfree.
  cbv zeta in Hfree. unfold username_taken in Hfree. unfold r. clear r.
  remember (_generate_username (gi_given_name info) (gi_family_name info)
                               (gi_email info) db) as username eqn:Eu.
  set (user := User.mk (user_seq db) username (normalize_email (gi_email info))
                       (gi_given_name info) (gi_family_name info) unusable_hash
                       false false true).
  set (prof := UserProfile.mk (user_seq db) true false (Some (gi_google_id info)) None 0).
  assert (authenticate_google_user unusable_hash (Some info) db
          = (inr (user, true),
             with_profiles (profiles db ++ [prof])%list
               (with_users (users db ++ [user])%list db (user_seq db + 1)))) as Hr.
  { unfold authenticate_google_user, get_or_create_user. rewrite Hver. cbn [negb].
    replace (filter (has_google_id (gi_google_id info)) (profiles db))
      with (@nil UserProfile.t)
      by (symmetry; apply filter_nil_iff; exact Hnog).
    replace (filter (fun u => String.eqb (User.email u) (gi_email info)) (users db))
      with (@nil User.t)
      by (symmetry; apply filter_nil_iff; exact Hnoe).
    rewrite <- Eu. unfold create_user_hashed, create_google_profile.
    subst user prof. destruct username as [|c name]; [contradiction|].
    rewrite Hfree. cbn [profiles with_users User.id].
    rewrite existsb_false_of; [reflexivity|].
    intros q Hq. pose proof (Hnog q Hq) as Hq'. unfold has_google_id in Hq'.
    cbn beta. rewrite Hq', orb_false_r. apply Z.eqb_neq.
    pose proof (Hkeys q Hq). lia. }
  exists user. rewrite Hr. cbn [fst snd users profiles with_profiles with_users].
  split; [reflexivity|]. split; [reflexivity|]. split; [reflexivity|].
  assert (has_google_id (gi_google_id info) prof = true) as Hg
      by (unfold has_google_id, prof; cbn; apply String.eqb_refl).
  split.
  - unfold profile_of. cbn [profiles with_profiles].
    rewrite find_app_skip.
    + cbn. rewrite Z.eqb_refl. reflexivity.
    + intros q Hq. apply Z.eqb_neq. pose proof (Hkeys q Hq). cbn. lia.
  - unfold authenticate_google_user, get_or_create_user. rewrite Hver. cbn [negb].
    cbn [profiles users with_profiles with_users].
    rewrite filter_app.
    replace (filter (has_google_id (gi_google_id info)) (profiles db))
      with (@nil UserProfile.t)
      by (symmetry; apply filter_nil_iff; exact Hnog).
    cbn [filter app]. rewrite Hg.
    rewrite find_app_skip.
    + cbn. rewrite Z.eqb_refl. reflexivity.
    + intros u Hu. apply Z.eqb_neq. pose proof (Hids u Hu). cbn. lia.
Qed.

Lemma google_account_is_found_again_witness :
  let r := authenticate_google_user unusable (Some dana_info) alice_store in
  exists user,
    fst r = inr (user, true)
    /\ User.username user = "danascully"
    /\ authenticate_google_user unusable (Some dana_info) (snd r) = (inr (user, false), snd r).
Proof.
  intros r.
  destruct (google_account_is_found_again unusable dana_info alice_store)
    as [user [H1 [H2 [_ [_ H5]]]]]; try reflexivity.
  - intros q [<-|[]]. reflexivity.
  - intros u [<-|[]]. reflexivity.
  - intros u [<-|[]]. reflexivity.
  - intros p [<-|[]]. reflexivity.
  - vm_compute. discriminate.
  - exists user. split; [exact H1|]. split; [rewrite H2; reflexivity|exact H5].
Defined.

Lemma authenticate_google_user_ledgers unusable_hash info db :
  login_attempts (snd (authenticate_google_user unusable_hash info db)) = login_attempts db
  /\ otp_records (snd (authenticate_google_user unusable_hash info db)) = otp_records db.
Proof.
  unfold authenticate_google_user. destruct info as [info|]; [|split; reflexivity].
  destruct (gi_email_verified info); [|split; reflexivity]. cbn [negb].
  unfold get_or_create_user.
  destruct (filter (has_google_id (gi_google_id info)) (profiles db)) as [|q [|q' qs]].
  - destruct (filter (fun u => String.eqb (User.email u) (gi_email info)) (users db))
      as [|u [|u' us]].
    + unfold create_user_hashed.
      destruct (_generate_username _ _ _ db) as [|c name]; [split; reflexivity|].
      destruct (existsb _ (users db)); [split; reflexivity|].
      unfold create_google_profile.
      match goal with |- context [existsb ?f ?l] => destruct (existsb f l) end;
        split; reflexivity.
    + destruct (profile_of u db); split; reflexivity.
    + split; reflexivity.
  - destruct (find _ (users db)); split; reflexivity.
  - split; reflexivity.
Qed.

(** X24. The Google sign-in leaves no trace in the attempt ledger and does
    not consult it: whatever the token, the claims and the outcome,
    [google_auth] writes no attempt row (and touches no OTP record), so
    neither its failures nor its successes count towards the rate
    limiter. *)
Theorem google_auth_never_logs_an_attempt :
  forall (unusable_hash token : string) (info : option GoogleUserInfo)
         (ip : option string) (db : Store) (now : Z) (identifier address : string),
    let r := google_auth unusable_hash token info ip db in
    login_attempts (snd r) = login_attempts db
    /\ otp_records (snd r) = otp_records db
    /\ is_rate_limited now identifier address 5 15 (snd r)
       = is_rate_limited now identifier address 5 15 db.
Proof.
  intros unusable_hash token info ip db now identifier address r.
  assert (login_attempts (snd r) = login_attempts db
          /\ otp_records (snd r) = otp_records db) as [Hl Ho].
  { unfold r, google_auth. destruct (char_field None None token); [|split; reflexivity].
    pose proof (authenticate_google_user_ledgers unusable_hash info db) as [Hl Ho].
    destruct (authenticate_google_user unusable_hash info db) as [[e|[user created]] db'];
      cbn [snd] in *; [split; assumption|].
    destruct (profile_of user db'); cbn [snd]; split; assumption. }
  split; [exact Hl|]. split; [exact Ho|].
  unfold is_rate_limited, failed_since. rewrite Hl. reflexivity.
Qed.

Lemma create_password_taken_username (P : Platform) email password confirm db v u :
  email_field P email = inl email ->
  Py.strip password <> EmptyString ->
  validate_password P (Py.strip password) = [] ->
  Py.strip confirm = Py.strip password ->
  latest_verified P email registration db = Some v ->
  OTPRecord.temp_username v = Some u ->
  username_taken db u = true ->
  create_password P email password confirm db
  = (mkResponse HTTP_500_INTERNAL_SERVER_ERROR
       (BMessage false "An error occurred during registration"), db).
Proof.
  intros Hfield Hblank Hpw Hconf Hl Hu Htaken.
  unfold create_password, PasswordCreationSerializer. cbv zeta.
  rewrite Hfield.
  rewrite (proj2 (password_field_inl P password (Py.strip password))) by auto.
  rewrite (proj2 (char_field_plain_inl confirm (Py.strip password)))
    by (split; [symmetry; exact Hconf|exact Hblank]).
  rewrite String.eqb_refl, Hl. cbn [negb].
  unfold try_except, create_password_block, atomic, bind, get_db.
  rewrite Hl, Hu. unfold create_user, raise.
  destruct u as [|c u]; [reflexivity|].
  destruct (OTPRecord.temp_first_name v); [|reflexivity].
  destruct (OTPRecord.temp_last_name v); [|reflexivity].
  unfold username_taken in Htaken. rewrite Htaken. reflexivity.
Qed.

Lemma basic_details_refuse_taken_username (P : Platform) username email first_name
      last_name db :
  username_taken db (Py.strip username) = true ->
  reg_status (validate_basic_details P username email first_name last_name db)
  = HTTP_400_BAD_REQUEST.
Proof.
  intros Htaken. unfold validate_basic_details, BasicDetailsSerializer.
  assert (exists messages,
             and_then (char_field (Some 3) (Some 150) username)
                      (fun v => validate_username v db) = inr messages) as [ms ->].
  { destruct (char_field (Some 3) (Some 150) username) as [v|ms] eqn:E.
    - apply char_field_inl in E. destruct E as [-> _]. cbn [and_then].
      unfold validate_username. destruct (negb (username_pattern (Py.strip username)));
        [eexists; reflexivity|].
      unfold username_taken in Htaken. rewrite Htaken. eexists; reflexivity.
    - exists ms. reflexivity. }
  reflexivity.
Qed.

(** X25. The uniqueness check of step 1 is not repeated. When the submitted
    username already belongs to an account (and the address is new and
    submitted as the e-mail field returns it), [validate_basic_details]
    refuses the request, but [send_otp] issues the passcode all the same,
    the verify call with the issued code succeeds, and only
    [create_password] -- given a password that, once stripped, passes the
    policy and equals the stripped confirmation -- fails, with the blanket
    500 answer, after the transaction rolled back: no account and no
    profile is stored. *)
Theorem taken_username_fails_at_the_last_step :
  forall (P : Platform) (now t : Z) (code password confirm_password : string)
         (delivery : bool * string) (username email first_name last_name : string)
         (ip : option string) (db : Store) (data : BasicDetails),
    SendOTPSerializer P username email first_name last_name registration
    = Valid (data, registration) ->
    existsb (fun u => String.eqb (User.email u) email) (users db) = false ->
    fresh_address email registration db ->
    username_taken db (Py.strip username) = true ->
    VerifyOTPSerializer P email code registration = Valid (email, code, registration) ->
    t <= now + minutes 5 ->
    email_field P email = inl email ->
    Py.strip password <> EmptyString ->
    validate_password P (Py.strip password) = [] ->
    Py.strip confirm_password = Py.strip password ->
    let s1 := send_otp P now code delivery username email first_name last_name
                       registration ip db in
    let s2 := verify_otp P t email code registration (snd s1) in
    let s3 := create_password P email password confirm_password (snd s2) in
    reg_status (validate_basic_details P username email first_name last_name db)
    = HTTP_400_BAD_REQUEST
    /\ (fst delivery = true -> reg_status (fst s1) = HTTP_200_OK)
    /\ fst s2 = mkResponse HTTP_200_OK
                          (BOtpVerified "OTP verified successfully" email true)
    /\ s3 = (mkResponse HTTP_500_INTERNAL_SERVER_ERROR
               (BMessage false "An error occurred during registration"), snd s2)
    /\ users (snd s3) = users db
    /\ profiles (snd s3) = profiles db.
Proof.
  intros P now t code password confirm_password delivery username email first_name last_name
         ip db data Hs Hunreg Hfresh Htaken Hc Ht Hfield Hblank Hpw Hconf s1 s2 s3.
  destruct (SendOTPSerializer_Valid P _ _ _ _ _ _ _ Hs)
    as [_ [Hemail [Hu [Hf [Hl [Hnonempty Hsyn]]]]]].
  rewrite <- Hemail in Hunreg.
  destruct (send_otp_issues P now code delivery username email first_name last_name
              registration ip db data registration Hs Hunreg) as [otp [Hissue Hresp]].
  fold s1 in Hissue, Hresp. rewrite Hemail, Hu, Hf, Hl in *.
  pose proof (create_otp_sole_of_pair _ _ _ _ _ _ _ _ _ _ _ _ Hfresh Hissue) as Hsole1.
  assert (otp = OTPRecord.mk (otp_seq db) email code registration false 0 5 now
                             (now + minutes 5) None ip (Some (Py.strip username))
                             (Some (Py.strip first_name)) (Some (Py.strip last_name))
          /\ users (snd s1) = users db /\ profiles (snd s1) = profiles db)
    as [Hotp [Hus1 Hps1]].
  { rewrite create_otp_steps in Hissue. injection Hissue as <- <-. repeat split. }
  assert (unverified_for email registration otp = true) as Hun1
      by (subst otp; unfold unverified_for; rewrite for_pair_refl; reflexivity).
  pose proof (sole_latest_unverified P _ _ _ _
                (sole_weaken _ (unverified_for email registration) _ _ Hsole1
                   ltac:(intros x Hx; apply andb_true_iff in Hx; tauto) Hun1)) as Hl1.
  destruct (verify_otp_cases P t _ _ _ _ _ Hc Hl1) as [_ [Hacc _]].
  assert (s2 = (mkResponse HTTP_200_OK (BOtpVerified "OTP verified successfully" email true),
                db_after_save (marked_verified t otp) (snd s1))) as Hs2.
  { unfold s2. apply Hacc.
    - assert (is_expired t otp = false) as Hlive
          by (subst otp; unfold is_expired; cbn; apply Z.ltb_ge; exact Ht).
      rewrite is_valid_counted, Hlive. subst otp. reflexivity.
    - subst otp. reflexivity. }
  set (v := marked_verified t otp) in *.
  assert (sole (for_pair email registration) v (otp_records (snd s2))) as Hsole2.
  { rewrite Hs2. cbn [snd]. apply sole_after_save_gen with (o := otp);
      [exact Hsole1|reflexivity|]. unfold v. rewrite for_pair_marked. subst otp.
    apply for_pair_refl. }
  assert (latest_verified P email registration (snd s2) = Some v) as Hlv.
  { unfold latest_verified. apply sole_first_desc.
    apply (sole_weaken _ _ _ _ Hsole2).
    - intros x Hx. apply andb_true_iff in Hx. tauto.
    - unfold v. rewrite for_pair_marked. subst otp. rewrite for_pair_refl. reflexivity. }
  assert (users (snd s2) = users db /\ profiles (snd s2) = profiles db) as [Hus2 Hps2].
  { rewrite Hs2. cbn [snd]. unfold db_after_save. cbn [users profiles with_otp_records].
    split; assumption. }
  assert (s3 = (mkResponse HTTP_500_INTERNAL_SERVER_ERROR
                  (BMessage false "An error occurred during registration"), snd s2))
    as Hs3.
  { unfold s3.
    apply (create_password_taken_username P email password confirm_password (snd s2) v (Py.strip username));
      try assumption.
    - subst v otp. reflexivity.
    - unfold username_taken. rewrite Hus2. exact Htaken. }
  split; [apply basic_details_refuse_taken_username; exact Htaken|].
  split; [intros Hd; rewrite Hresp, Hd; reflexivity|].
  split; [rewrite Hs2; reflexivity|].
  split; [exact Hs3|]. rewrite Hs3. cbn [snd]. split; assumption.
Qed.

Lemma taken_username_fails_at_the_last_step_witness :
  let P := demo_platform false in
  let s1 := send_otp P 0 "123456" (true, "OTP sent successfully") "alice"
                     "carol@example.com" "Carol" "Danvers" registration None
                     alice_store in
  let s2 := verify_otp P (minutes 1) "carol@example.com" "123456" registration (snd s1) in
  let s3 := create_password P "carol@example.com" strong_password strong_password
                            (snd s2) in
  reg_status (fst s1) = HTTP_200_OK
  /\ fst s3 = mkResponse HTTP_500_INTERNAL_SERVER_ERROR
                (BMessage false "An error occurred during registration")
  /\ users (snd s3) = [alice].
Proof.
  intros P s1 s2 s3.
  destruct (taken_username_fails_at_the_last_step P 0 (minutes 1) "123456"
              strong_password strong_password (true, "OTP sent successfully") "alice"
              "carol@example.com" "Carol" "Danvers" None alice_store
              (mkBasicDetails "alice" "carol@example.com" "Carol" "Danvers"))
    as [_ [H1 [_ [H3 [Hu _]]]]]; try reflexivity.
  - intros x [].
  - vm_compute. discriminate.
  - vm_compute. discriminate.
  - split; [apply H1; reflexivity|]. split; [|exact Hu].
    fold P in H3. fold s1 in H3. fold s2 in H3. fold s3 in H3. rewrite H3. reflexivity.
Defined.
